(** * Firecrawl API: fetch orchestration, sitemap traversal, cancellation

    A shallow embedding of the scraping core of the API server
    ([scraper/WebScraper/single_url.ts] in the version that records status
    codes and the links of a page, [scraper/WebScraper/scrapers/fireEngine.ts],
    [scraper/WebScraper/sitemap.ts], [controllers/crawl-cancel.ts],
    [lib/entities.ts]) together with the properties the specification
    states about it.

    Conventions.
    - A JavaScript string is a [string], each [ascii] standing for one code
      unit below U+0100; [String.length] counts the code units.
    - [undefined] and [null] are [None]; a value is "truthy" when it is
      present and neither the empty string, zero nor [false].
    - Network collaborators are oracles that read the history of the calls
      made so far, so that two calls of one service may answer differently.
    - A JavaScript exception is the [Throw] outcome of a computation. *)

From Stdlib Require Import String Ascii List ZArith Bool Lia.
Import ListNotations.
Open Scope string_scope.
Open Scope list_scope.

(* ================================================================== *)
(** * JavaScript values used by the code *)
(* ================================================================== *)

Module JS.

(** Truthiness of an optional string ([!!s]). *)
Definition truthy_string (s : option string) : bool :=
  match s with
  | Some EmptyString => false
  | Some _ => true
  | None => false
  end.

(** Truthiness of an optional number. *)
Definition truthy_number (n : option Z) : bool :=
  match n with
  | Some z => negb (z =? 0)%Z
  | None => false
  end.

(** Truthiness of an optional boolean. *)
Definition truthy_bool (b : option bool) : bool :=
  match b with
  | Some true => true
  | _ => false
  end.

(** [a || b] on optional strings, as used for [x || undefined]. *)
Definition or_undefined (s : option string) : option string :=
  if truthy_string s then s else None.

(** [Array.prototype.includes] on an array of strings. *)
Definition includes (l : list string) (x : string) : bool :=
  existsb (String.eqb x) l.

(** [Set.prototype.add]: a set keeps insertion order and ignores a value
    it already holds. *)
Definition set_add (s : list string) (x : string) : list string :=
  if includes s x then s else s ++ [x].

(** [Array.from(new Set(l))] and [[...new Set(l)]]. *)
Definition set_of_array (l : list string) : list string :=
  fold_left set_add l [].

(** [String.prototype.startsWith]. *)
Definition startsWith (s p : string) : bool := String.prefix p s.

(** White space removed by [String.prototype.trim], for the code units
    below U+0100: TAB, LF, VT, FF, CR, SPACE and NBSP. *)
Definition is_white (c : ascii) : bool :=
  let n := nat_of_ascii c in
  ((9 <=? n)%nat && (n <=? 13)%nat) || (n =? 32)%nat || (n =? 160)%nat.

Fixpoint trim_start (s : string) : string :=
  match s with
  | String c s' => if is_white c then trim_start s' else s
  | EmptyString => EmptyString
  end.

(** Drops the trailing white space: a character is kept when it is not
    white or when something that is kept follows it. *)
Fixpoint trim_end (s : string) : string :=
  match s with
  | String c s' =>
      match trim_end s' with
      | EmptyString => if is_white c then EmptyString else String c EmptyString
      | r => String c r
      end
  | EmptyString => EmptyString
  end.

Definition trim (s : string) : string := trim_end (trim_start s).

(** [s.replace(/^www\./, "")]. *)
Definition strip_www (s : string) : string :=
  if startsWith s "www." then substring 4 (String.length s - 4) s else s.

End JS.

(* ================================================================== *)
(** * Backend selection ([getScrapingFallbackOrder]) *)
(* ================================================================== *)

(** The part of [process.env] the scraper reads. *)
Record Env := mkEnv {
  SCRAPING_BEE_API_KEY : option string;
  FIRE_ENGINE_BETA_URL : option string;
  PLAYWRIGHT_MICROSERVICE_URL : option string
}.

Definition baseScrapers : list string :=
  ["fire-engine"; "scrapingBee"; "playwright"; "scrapingBeeLoad"; "fetch"].

(** The [switch] inside the filter callback: whether the external
    configuration a scraper needs is set. *)
Definition scraperConfigured (env : Env) (scraper : string) : bool :=
  if (scraper =? "scrapingBee") || (scraper =? "scrapingBeeLoad")
  then JS.truthy_string (SCRAPING_BEE_API_KEY env)
  else if scraper =? "fire-engine"
  then JS.truthy_string (FIRE_ENGINE_BETA_URL env)
  else if scraper =? "playwright"
  then JS.truthy_string (PLAYWRIGHT_MICROSERVICE_URL env)
  else true.

Definition availableScrapers (env : Env) : list string :=
  filter (scraperConfigured env) baseScrapers.

Definition defaultOrder0 : list string :=
  ["scrapingBee"; "fire-engine"; "playwright"; "scrapingBeeLoad"; "fetch"].

Definition defaultOrder (isWaitPresent isScreenshotPresent isHeadersPresent : bool)
  : list string :=
  if isWaitPresent || isScreenshotPresent || isHeadersPresent
  then "fire-engine" :: "playwright" ::
       filter (fun scraper =>
                 negb (scraper =? "fire-engine") && negb (scraper =? "playwright"))
              defaultOrder0
  else defaultOrder0.

(** [getScrapingFallbackOrder]; the function reads the same in both
    versions of [single_url.ts] that have it. *)
Definition getScrapingFallbackOrder (env : Env) (defaultScraper : option string)
    (isWaitPresent isScreenshotPresent isHeadersPresent : bool) : list string :=
  let availableScrapers := availableScrapers env in
  let defaultOrder := defaultOrder isWaitPresent isScreenshotPresent isHeadersPresent in
  let filteredDefaultOrder := filter (JS.includes availableScrapers) defaultOrder in
  let uniqueScrapers :=
    JS.set_of_array
      (match defaultScraper with
       | Some d =>
           if JS.truthy_string defaultScraper
           then d :: filteredDefaultOrder ++ availableScrapers
           else filteredDefaultOrder ++ availableScrapers
       | None => filteredDefaultOrder ++ availableScrapers
       end) in
  uniqueScrapers.


(* ================================================================== *)
(** * Effects: the history of network calls and exceptions *)
(* ================================================================== *)

(** What a call of [scrapSingleUrl] or [getLinksFromSitemap] does that the
    outside can see. [EvAttempt] marks one turn of the fallback loop; the
    others are requests to a service. *)
Inductive Event : Type :=
| EvAttempt (method url : string)
| EvFireEngine (endpoint url : string)
| EvScrapingBee (url wait_browser : string)
| EvPlaywright (url : string)
| EvFetch (url : string)
| EvPdf (url : string)
| EvAxiosGet (url : string).

Definition History := list Event.

(** A thrown JavaScript error: [error.code], [error.message], and a text
    standing for the error object where the code uses the object itself. *)
Record JsError := mkError {
  err_code : option string;
  err_message : option string;
  err_repr : string
}.

Inductive Outcome (A : Type) : Type :=
| Ok (a : A)
| Throw (e : JsError).
Arguments Ok {A} a.
Arguments Throw {A} e.

(** A computation reads and extends the history and returns or throws. *)
Definition M (A : Type) : Type := History -> Outcome A * History.

Definition ret {A} (a : A) : M A := fun h => (Ok a, h).

Definition bind {A B} (m : M A) (k : A -> M B) : M B :=
  fun h => match m h with
           | (Ok a, h') => k a h'
           | (Throw e, h') => (Throw e, h')
           end.

Definition emit (e : Event) : M unit := fun h => (Ok tt, h ++ [e]).

(** A call of a collaborator: the request is recorded, then the oracle
    answers from the history before the call. *)
Definition call {A} (e : Event) (oracle : History -> Outcome A) : M A :=
  fun h => (oracle h, h ++ [e]).

Notation "x <- m ;; k" := (bind m (fun x => k))
  (at level 61, m at next level, right associativity).

(** Is the event a request to a fetch backend or to the PDF fetcher. *)
Definition isNetworkCall (e : Event) : bool :=
  match e with
  | EvAttempt _ _ => false
  | _ => true
  end.

(** The methods the fallback loop attempted, in order. *)
Definition attempted (h : History) : list string :=
  flat_map (fun e => match e with EvAttempt m _ => [m] | _ => [] end) h.

(** [h'] extends [h] by requests only, without a turn of the loop. *)
Definition quiet (h h' : History) : Prop :=
  exists t, h' = h ++ t /\ attempted t = [].

Definition quietM {A} (m : M A) : Prop := forall h, quiet h (snd (m h)).

(* ================================================================== *)
(** * Data of the scraper *)
(* ================================================================== *)

Definition Headers := list (string * string).

Record PageOptions := mkPageOptions {
  onlyMainContent : option bool;
  includeHtml : option bool;
  includeRawHtml : option bool;
  waitFor : option Z;
  screenshot : option bool;
  headers : option Headers;
  fallback : option bool;
  parsePDF : option bool
}.

(** The default value of the [pageOptions] parameter of [scrapSingleUrl]. *)
Definition defaultPageOptions : PageOptions :=
  mkPageOptions (Some true) (Some false) (Some false) (Some 0%Z) (Some false)
                None None None.

Record ExtractorOptions := mkExtractorOptions { mode : string }.

Definition defaultExtractorOptions : ExtractorOptions :=
  mkExtractorOptions "llm-extraction-from-markdown".

(** [FireEngineResponse]. *)
Record FireEngineResponse := mkFEResponse {
  fe_html : string;
  fe_screenshot : string;
  fe_pageStatusCode : option Z;
  fe_pageError : option string
}.

(** The answer of [scrapWithScrapingBee], [scrapWithPlaywright] and
    [scrapWithFetch], and of [fetchAndProcessPdf]. *)
Record ScrapeResponse := mkScrapeResponse {
  sr_content : string;
  sr_pageStatusCode : option Z;
  sr_pageError : option string
}.

(** The [params] of an entry of [urlSpecificParams] that the code reads. *)
Record SiteRequestParams := mkSiteRequestParams {
  sp_wait : option Z;
  sp_screenshot : option bool
}.

Record SiteParams := mkSiteParams {
  defaultScraper : option string;
  params : option SiteRequestParams
}.

(** What [new URL(s)] gives. *)
Record URL := mkURL {
  hostname : string;
  origin : string
}.

(** What [handleCustomScraping] may ask for. *)
Record CustomScraper := mkCustomScraper {
  cs_scraper : string;
  cs_url : string;
  cs_waitAfterLoad : option Z;
  cs_parsePDF : option bool
}.

(** The body of a Fire-Engine answer ([response.data]). *)
Record FireEngineData := mkFEData {
  data_content : option string;
  data_screenshot : option string;
  data_pageStatusCode : option Z;
  data_pageError : option string
}.

Record AxiosResponse := mkAxiosResponse {
  ax_status : Z;
  ax_contentType : option string;
  ax_data : option FireEngineData
}.

(** The XML of a sitemap as [xml2js] returns it. *)
Record XmlEntry := mkXmlEntry { loc : option (list string) }.

Record XmlRoot := mkXmlRoot {
  sitemap : option (list XmlEntry);
  url : option (list XmlEntry)
}.

Record XmlParsed := mkXmlParsed {
  urlset : option XmlRoot;
  sitemapindex : option XmlRoot
}.

(** The collaborators of the scraper whose code lies outside this part of
    the repository: the environment, the per-domain table, the URL parser,
    the HTTP client, the other scrapers, the PDF fetcher, the custom
    scraping rules, HTML cleaning, Markdown conversion, metadata
    extraction, the HTML parser (the [href] of every [a] element, in
    document order) and the XML parser ([None]: it rejects or yields
    [null]). *)
Record World := mkWorld {
  env : Env;
  urlSpecificParams : string -> option SiteParams;
  newURL : string -> option URL;
  axios_post : History -> string -> string -> option Z -> option bool
               -> Outcome AxiosResponse;
  axios_get : History -> string -> Outcome string;
  fetchAndProcessPdf : History -> string -> option bool -> Outcome ScrapeResponse;
  scrapWithScrapingBee : History -> string -> string -> option Z
                         -> Outcome ScrapeResponse;
  scrapWithPlaywright : History -> string -> option Z -> option Headers
                        -> Outcome ScrapeResponse;
  scrapWithFetch : History -> string -> Outcome ScrapeResponse;
  handleCustomScraping : History -> string -> string
                         -> Outcome (option CustomScraper);
  removeUnwantedElements : string -> PageOptions -> string;
  parseMarkdown : string -> string;
  extractMetadata : string -> string -> list (string * string);
  anchors : string -> list (option string);
  parseStringPromise : string -> option XmlParsed
}.

(* ================================================================== *)
(** * [generateRequestParams] and [scrapWithFireEngine] *)
(* ================================================================== *)

(** [generateRequestParams(url)["params"]], as far as the Fire-Engine
    scraper reads it: the [params] of the per-domain entry when the host
    has one with [params], else the default [params], which hold neither
    [wait] nor [screenshot]. *)
Definition generateRequestParams (w : World) (url : string)
  : SiteRequestParams :=
  let defaultParams := mkSiteRequestParams None None in
  match newURL w url with
  | Some u =>
      let urlKey := JS.strip_www (hostname u) in
      match urlSpecificParams w urlKey with
      | Some entry =>
          match params entry with
          | Some p => p
          | None => defaultParams
          end
      | None => defaultParams
      end
  | None => defaultParams
  end.

(** [a ?? b]. *)
Definition nullish {A} (a b : option A) : option A :=
  match a with Some _ => a | None => b end.

(** [contentType && contentType.includes("application/pdf")]. *)
Fixpoint str_includes (s p : string) : bool :=
  String.prefix p s ||
  match s with
  | String _ s' => str_includes s' p
  | EmptyString => false
  end.

Definition isPdf (contentType : option string) : bool :=
  match contentType with
  | Some c => JS.truthy_string contentType && str_includes c "application/pdf"
  | None => false
  end.

(** The arguments of [scrapWithFireEngine] that change what it does. *)
Record FireEngineArgs := mkFEArgs {
  fa_url : string;
  fa_waitFor : option Z;
  fa_screenshot : option bool;
  fa_parsePDF : option bool;
  fa_endpoint : option string
}.

(** The [catch] of [scrapWithFireEngine]. *)
Definition fireEngineFailure (e : JsError) : FireEngineResponse :=
  let error_message :=
    match err_code e with
    | Some "ECONNABORTED" => Some "Request timed out"
    | _ => if JS.truthy_string (err_message e)
           then err_message e else Some (err_repr e)
    end in
  mkFEResponse "" "" None error_message.

(** [scrapWithFireEngine]: it never throws, every failure becomes an
    answer with empty [html]. *)
Definition scrapWithFireEngine (w : World) (a : FireEngineArgs)
  : History -> FireEngineResponse * History :=
  fun h =>
  let reqParams := generateRequestParams w (fa_url a) in
  let waitParam := nullish (sp_wait reqParams) (nullish (fa_waitFor a) (Some 0%Z)) in
  let screenshotParam :=
    nullish (sp_screenshot reqParams) (nullish (fa_screenshot a) (Some false)) in
  let endpoint :=
    match fa_endpoint a with
    | Some "request" => "/request"
    | _ => "/scrape"
    end in
  let h1 := h ++ [EvFireEngine endpoint (fa_url a)] in
  match axios_post w h endpoint (fa_url a) waitParam screenshotParam with
  | Throw e => (fireEngineFailure e, h1)
  | Ok response =>
      if negb (ax_status response =? 200)%Z then
        (mkFEResponse "" ""
           (match ax_data response with
            | Some d => data_pageStatusCode d | None => None end)
           (match ax_data response with
            | Some d => data_pageError d | None => None end), h1)
      else if isPdf (ax_contentType response) then
        match fetchAndProcessPdf w h1 (fa_url a) (fa_parsePDF a) with
        | Ok r =>
            (mkFEResponse (sr_content r) "" (sr_pageStatusCode r) (sr_pageError r),
             h1 ++ [EvPdf (fa_url a)])
        | Throw e => (fireEngineFailure e, h1 ++ [EvPdf (fa_url a)])
        end
      else
        match ax_data response with
        | Some data =>
            (mkFEResponse
               (match data_content data with Some c => c | None => "" end)
               (match data_screenshot data with Some s => s | None => "" end)
               (data_pageStatusCode data) (data_pageError data), h1)
        | None =>
            (fireEngineFailure
               (mkError None (Some "Cannot read properties of undefined")
                        "TypeError"), h1)
        end
  end.

(* ================================================================== *)
(** * Documents ([lib/entities.ts]) *)
(* ================================================================== *)

(** [Document.metadata]: what [extractMetadata] found, and the keys the
    scraper writes after the spread, which win over the extracted ones. *)
Record Metadata := mkMetadata {
  md_extracted : list (string * string);
  md_screenshot : option string;
  sourceURL : option string;
  pageStatusCode : option Z;
  pageError : option string
}.

Record Document := mkDocument {
  content : string;
  markdown : option string;
  html : option string;
  rawHtml : option string;
  linksOnPage : option (list string);
  createdAt : option Z;
  updatedAt : option Z;
  type : option string;
  metadata : Metadata;
  childrenLinks : option (list string);
  provider : option string
}.

(** [Partial<Document>]: the argument of the constructor. *)
Record PartialDocument := mkPartialDocument {
  pd_content : option string;
  pd_createdAt : option Z;
  pd_updatedAt : option Z;
  pd_type : option string;
  pd_metadata : option Metadata;
  pd_markdown : option string;
  pd_childrenLinks : option (list string);
  pd_provider : option string
}.

Definition missingRequiredFields : JsError :=
  mkError None (Some "Missing required fields") "Error: Missing required fields".

(** [new Document(data)] at time [now] ([new Date()]). *)
Definition Document_constructor (now : Z) (data : PartialDocument)
  : Outcome Document :=
  if negb (JS.truthy_string (pd_content data)) then Throw missingRequiredFields
  else
    match pd_content data with
    | None => Throw missingRequiredFields
    | Some c =>
        Ok {| content := c;
              markdown := Some (match JS.or_undefined (pd_markdown data) with
                                | Some m => m | None => "" end);
              html := None;
              rawHtml := None;
              linksOnPage := None;
              createdAt := Some (match pd_createdAt data with
                                 | Some d => d | None => now end);
              updatedAt := Some (match pd_updatedAt data with
                                 | Some d => d | None => now end);
              type := Some (match JS.or_undefined (pd_type data) with
                            | Some t => t | None => "unknown" end);
              metadata := match pd_metadata data with
                          | Some m => m
                          | None => mkMetadata [] None (Some "") None None
                          end;
              childrenLinks := pd_childrenLinks data;
              provider := JS.or_undefined (pd_provider data) |}
    end.

(* ================================================================== *)
(** * Link extraction ([extractLinks]) *)
(* ================================================================== *)

(** The body of the callback of [$('a').each]: what one anchor adds to
    [links]. *)
Definition pushLink (origin baseUrl : string) (links : list string)
    (href : option string) : list string :=
  match href with
  | Some href =>
      if JS.truthy_string (Some href) then
        if JS.startsWith href "http://" || JS.startsWith href "https://"
        then links ++ [href]
        else if JS.startsWith href "/"
        then links ++ [(origin ++ href)%string]
        else if negb (JS.startsWith href "#")
                && negb (JS.startsWith href "mailto:")
        then links ++ [(baseUrl ++ "/" ++ href)%string]
        else if JS.startsWith href "mailto:"
        then links ++ [href]
        else links
      else links
  | None => links
  end.

Definition invalidURL : JsError :=
  mkError (Some "ERR_INVALID_URL") (Some "Invalid URL") "TypeError: Invalid URL".

Definition extractLinks (w : World) (html baseUrl : string)
  : Outcome (list string) :=
  match newURL w baseUrl with
  | None => Throw invalidURL
  | Some urlObject =>
      let origin := origin urlObject in
      let links := fold_left (pushLink origin baseUrl) (anchors w html) [] in
      Ok (JS.set_of_array links)
  end.

(* ================================================================== *)
(** * Fetching one page ([scrapSingleUrl]) *)
(* ================================================================== *)

(** What [attemptScraping] returns. *)
Record Attempt := mkAttempt {
  at_text : string;
  at_html : string;
  at_rawHtml : string;
  at_screenshot : string;
  at_pageStatusCode : option Z;
  at_pageError : option string
}.

(** [scraperResponse] inside [attemptScraping]. *)
Record ScraperResponse := mkScraperResponse {
  rs_text : string;
  rs_screenshot : string;
  rs_pageStatusCode : option Z;
  rs_pageError : option string
}.

Definition ofScrape (r : ScrapeResponse) : ScraperResponse :=
  mkScraperResponse (sr_content r) "" (sr_pageStatusCode r) (sr_pageError r).

Definition liftFE (m : History -> FireEngineResponse * History)
  : M FireEngineResponse :=
  fun h => let (r, h') := m h in (Ok r, h').

(** The first [switch] of [attemptScraping]: the request to the backend
    named [method], sent only when the backend is configured. *)
Definition scrapeWith (w : World) (pageOptions : PageOptions)
    (url method : string) : M ScraperResponse :=
  let untouched := mkScraperResponse "" "" None None in
  if method =? "fire-engine" then
    if JS.truthy_string (FIRE_ENGINE_BETA_URL (env w)) then
      response <- liftFE (scrapWithFireEngine w
                    (mkFEArgs url (waitFor pageOptions) (screenshot pageOptions)
                              (parsePDF pageOptions) None)) ;;
      ret (mkScraperResponse (fe_html response) (fe_screenshot response)
                             (fe_pageStatusCode response) (fe_pageError response))
    else ret untouched
  else if method =? "scrapingBee" then
    if JS.truthy_string (SCRAPING_BEE_API_KEY (env w)) then
      response <- call (EvScrapingBee url "domcontentloaded")
                    (fun h => scrapWithScrapingBee w h url "domcontentloaded"
                       (match fallback pageOptions with
                        | Some false => Some 7000%Z
                        | _ => Some 15000%Z
                        end)) ;;
      ret (ofScrape response)
    else ret untouched
  else if method =? "playwright" then
    if JS.truthy_string (PLAYWRIGHT_MICROSERVICE_URL (env w)) then
      response <- call (EvPlaywright url)
                    (fun h => scrapWithPlaywright w h url (waitFor pageOptions)
                                (headers pageOptions)) ;;
      ret (ofScrape response)
    else ret untouched
  else if method =? "scrapingBeeLoad" then
    if JS.truthy_string (SCRAPING_BEE_API_KEY (env w)) then
      response <- call (EvScrapingBee url "networkidle2")
                    (fun h => scrapWithScrapingBee w h url "networkidle2" None) ;;
      ret (ofScrape response)
    else ret untouched
  else if method =? "fetch" then
    response <- call (EvFetch url) (fun h => scrapWithFetch w h url) ;;
    ret (ofScrape response)
  else ret untouched.

(** The custom scraping hook of [attemptScraping]: the content that
    supersedes the fetched text, if the rules ask for one. *)
Definition customScrape (w : World) (pageOptions : PageOptions)
    (text url : string) : M (option FireEngineResponse) :=
  customScraperResult <- (fun h => (handleCustomScraping w h text url, h)) ;;
  match customScraperResult with
  | Some c =>
      if cs_scraper c =? "fire-engine" then
        r <- liftFE (scrapWithFireEngine w
               (mkFEArgs (cs_url c) (cs_waitAfterLoad c) (Some false)
                         (cs_parsePDF c) None)) ;;
        ret (Some r)
      else if cs_scraper c =? "pdf" then
        r <- call (EvPdf (cs_url c))
               (fun h => fetchAndProcessPdf w h (cs_url c) (parsePDF pageOptions)) ;;
        ret (Some (mkFEResponse (sr_content r) "" (sr_pageStatusCode r)
                                (sr_pageError r)))
      else ret None
  | None => ret None
  end.

Definition attemptScraping (w : World) (pageOptions : PageOptions)
    (url method : string) : M Attempt :=
  _ <- emit (EvAttempt method url) ;;
  scraperResponse <- scrapeWith w pageOptions url method ;;
  customScrapedContent <- customScrape w pageOptions (rs_text scraperResponse) url ;;
  let text := match customScrapedContent with
              | Some c => fe_html c
              | None => rs_text scraperResponse
              end in
  let cleanedHtml := removeUnwantedElements w text pageOptions in
  ret (mkAttempt (parseMarkdown w cleanedHtml) cleanedHtml text
                 (rs_screenshot scraperResponse)
                 (rs_pageStatusCode scraperResponse)
                 (JS.or_undefined (rs_pageError scraperResponse))).

(** The variables of [scrapSingleUrl] that the loop assigns. *)
Record Locals := mkLocals {
  l_text : string;
  l_html : string;
  l_rawHtml : string;
  l_screenshot : string;
  l_pageStatusCode : Z;
  l_pageError : option string
}.

Definition initialLocals : Locals := mkLocals "" "" "" "" 200%Z None.

(** [s && s.trim().length >= 100]. *)
Definition longEnough (s : string) : bool :=
  JS.truthy_string (Some s) && (100 <=? String.length (JS.trim s))%nat.

(** The assignments of one turn of the loop after [attemptScraping]. *)
Definition recordAttempt (st : Locals) (attempt : Attempt) : Locals :=
  let status :=
    if JS.truthy_number (at_pageStatusCode attempt)
    then match at_pageStatusCode attempt with Some c => c | None => l_pageStatusCode st end
    else l_pageStatusCode st in
  let error :=
    if JS.truthy_string (at_pageError attempt)
       && match at_pageStatusCode attempt with
          | Some c => (400 <=? c)%Z | None => false end
    then at_pageError attempt
    else if JS.truthy_number (at_pageStatusCode attempt)
            && match at_pageStatusCode attempt with
               | Some c => (c <? 400)%Z | None => false end
    then None
    else l_pageError st in
  mkLocals (at_text attempt) (at_html attempt) (at_rawHtml attempt)
           (at_screenshot attempt) status error.

(** The two [break] conditions that follow an attempt. *)
Definition stopsAfter (st : Locals) : bool :=
  longEnough (l_text st)
  || (negb (l_pageStatusCode st =? 0)%Z && (l_pageStatusCode st =? 404)%Z).

(** How the [for] loop ended: the array was exhausted, a [break] was
    taken, or a collaborator threw. *)
Inductive LoopExit : Type :=
| Exhausted
| Broke
| Threw (e : JsError).

(** The [for] loop over [scrapersInOrder]. It gives the variables at the
    end of the loop, or at the time of the error. *)
Fixpoint fallbackLoop (w : World) (pageOptions : PageOptions)
    (urlToScrap existingHtml : string) (scrapers : list string)
    (st : Locals) (h : History) : LoopExit * Locals * History :=
  match scrapers with
  | [] => (Exhausted, st, h)
  | scraper :: rest =>
      if longEnough existingHtml then
        let cleanedHtml := removeUnwantedElements w existingHtml pageOptions in
        (Broke,
         mkLocals (parseMarkdown w cleanedHtml) cleanedHtml (l_rawHtml st)
                  (l_screenshot st) (l_pageStatusCode st) (l_pageError st),
         h)
      else
        match attemptScraping w pageOptions urlToScrap scraper h with
        | (Throw e, h') => (Threw e, st, h')
        | (Ok attempt, h') =>
            let st' := recordAttempt st attempt in
            if stopsAfter st' then (Broke, st', h')
            else fallbackLoop w pageOptions urlToScrap existingHtml rest st' h'
        end
  end.

(** [urlSpecificParams[urlKey]?.defaultScraper ?? ""]. *)
Definition defaultScraperFor (w : World) (urlToScrap : string) : option string :=
  let urlKey := match newURL w urlToScrap with
                | Some u => JS.strip_www (hostname u)
                | None => urlToScrap
                end in
  nullish (match urlSpecificParams w urlKey with
           | Some entry => defaultScraper entry
           | None => None
           end) (Some "").

Definition scrapersInOrder (w : World) (pageOptions : PageOptions)
    (urlToScrap : string) : list string :=
  getScrapingFallbackOrder (env w) (defaultScraperFor w urlToScrap)
    (JS.truthy_number (waitFor pageOptions)
     && match waitFor pageOptions with Some n => (0 <? n)%Z | None => false end)
    (JS.truthy_bool (screenshot pageOptions))
    (match headers pageOptions with Some _ => true | None => false end).

Definition allMethodsFailed (urlToScrap : string) : JsError :=
  let m := ("All scraping methods failed for URL: " ++ urlToScrap)%string in
  mkError None (Some m) ("Error: " ++ m)%string.

(** The document the [catch] of [scrapSingleUrl] returns. *)
Definition failureDocument (urlToScrap : string) (st : Locals) : Document :=
  {| content := ""; markdown := Some ""; html := Some ""; rawHtml := None;
     linksOnPage := Some [];
     createdAt := None; updatedAt := None; type := None;
     metadata := mkMetadata [] None (Some urlToScrap)
                            (Some (l_pageStatusCode st)) (l_pageError st);
     childrenLinks := None; provider := None |}.

(** The document built after the loop. *)
Definition successDocument (w : World) (pageOptions : PageOptions)
    (extractorOptions : ExtractorOptions) (urlToScrap : string) (st : Locals)
    (links : list string) : Document :=
  {| content := l_text st;
     markdown := Some (l_text st);
     html := if JS.truthy_bool (includeHtml pageOptions)
             then Some (l_html st) else None;
     rawHtml := if JS.truthy_bool (includeRawHtml pageOptions)
                   || (mode extractorOptions =? "llm-extraction-from-raw-html")
                then Some (l_rawHtml st) else None;
     linksOnPage := Some links;
     createdAt := None; updatedAt := None; type := None;
     metadata :=
       mkMetadata (extractMetadata w (l_rawHtml st) urlToScrap)
                  (if JS.truthy_string (Some (l_screenshot st))
                      && (0 <? String.length (l_screenshot st))%nat
                   then Some (l_screenshot st) else None)
                  (Some urlToScrap)
                  (Some (l_pageStatusCode st)) (l_pageError st);
     childrenLinks := None; provider := None |}.

(** [scrapSingleUrl]: the [try] block gives a document or an error with the
    variables at the time of the error; the [catch] turns the error into
    the failure document. *)
Definition scrapSingleUrl_try (w : World) (urlToScrap : string)
    (pageOptions : PageOptions) (extractorOptions : ExtractorOptions)
    (existingHtml : string) (h : History)
  : Outcome Document * Locals * History :=
  match fallbackLoop w pageOptions urlToScrap existingHtml
          (scrapersInOrder w pageOptions urlToScrap) initialLocals h with
  | (Threw e, st, h') => (Throw e, st, h')
  | (_, st, h') =>
      if negb (JS.truthy_string (Some (l_text st)))
      then (Throw (allMethodsFailed urlToScrap), st, h')
      else
        match extractLinks w (l_rawHtml st) urlToScrap with
        | Throw e => (Throw e, st, h')
        | Ok links =>
            (Ok (successDocument w pageOptions extractorOptions urlToScrap st links),
             st, h')
        end
  end.

Definition scrapSingleUrl (w : World) (urlToScrap : string)
    (pageOptions : PageOptions) (extractorOptions : ExtractorOptions)
    (existingHtml : string) : M Document :=
  fun h =>
  let urlToScrap := JS.trim urlToScrap in
  match scrapSingleUrl_try w urlToScrap pageOptions extractorOptions existingHtml h with
  | (Ok document, _, h') => (Ok document, h')
  | (Throw _, st, h') => (Ok (failureDocument urlToScrap st), h')
  end.

(* ================================================================== *)
(** * Sitemap traversal ([getLinksFromSitemap]) *)
(* ================================================================== *)

Inductive SitemapMode : Type := ModeAxios | ModeFireEngine.

(** The inner [try] block: the request for the sitemap. With [axios] a
    failed request throws; Fire-Engine answers with empty [html]. *)
Definition requestSitemap (w : World) (mode : SitemapMode) (sitemapUrl : string)
  : M string :=
  match mode with
  | ModeAxios =>
      call (EvAxiosGet sitemapUrl) (fun h => axios_get w h sitemapUrl)
  | ModeFireEngine =>
      response <- liftFE (scrapWithFireEngine w
                    (mkFEArgs sitemapUrl None None (Some true) (Some "request"))) ;;
      ret (fe_html response)
  end.

(** [entry.loc && entry.loc.length > 0], then [entry.loc[0]]. *)
Definition firstLoc (entry : XmlEntry) : option string :=
  match loc entry with
  | Some (l :: _) => Some l
  | _ => None
  end.

(** The loop over [root.url]: every first [loc] is pushed on [allUrls]. *)
Definition pushUrls (entries : list XmlEntry) (allUrls : list string)
  : list string :=
  fold_left (fun all entry =>
               match firstLoc entry with
               | Some l => all ++ [l]
               | None => all
               end) entries allUrls.

(** [getLinksFromSitemap]. The array [allUrls] is shared by all the calls
    of one traversal, which the model renders by passing it in and out.
    The recursion of the source is unbounded (an index may list itself), so
    the model takes [fuel], the depth it may descend; [None] means that the
    depth was not enough. The outer [catch] makes every error a return of
    [allUrls] as it stands. *)
Fixpoint getLinksFromSitemap (fuel : nat) (w : World) (mode : SitemapMode)
    (sitemapUrl : string) (allUrls : list string) (h : History)
  : option (list string * History) :=
  match fuel with
  | O => None
  | S fuel' =>
      match requestSitemap w mode sitemapUrl h with
      | (Throw _, h1) => Some (allUrls, h1)
      | (Ok content, h1) =>
          match parseStringPromise w content with
          | None => Some (allUrls, h1)
          | Some parsed =>
              match nullish (urlset parsed) (sitemapindex parsed) with
              | None => Some (allUrls, h1)
              | Some root =>
                  match sitemap root, url root with
                  | Some children, _ =>
                      fold_left
                        (fun acc child =>
                           match acc with
                           | None => None
                           | Some (all, h2) =>
                               match firstLoc child with
                               | Some l =>
                                   getLinksFromSitemap fuel' w mode l all h2
                               | None => Some (all, h2)
                               end
                           end)
                        children (Some (allUrls, h1))
                  | None, Some entries => Some (pushUrls entries allUrls, h1)
                  | None, None => Some (allUrls, h1)
                  end
              end
          end
      end
  end.

(** The loop over [root.sitemap] of a call that has [fuel] left for its
    children. *)
Definition visitChildren (fuel : nat) (w : World) (mode : SitemapMode)
    (children : list XmlEntry) (start : option (list string * History))
  : option (list string * History) :=
  fold_left
    (fun acc child =>
       match acc with
       | None => None
       | Some (all, h2) =>
           match firstLoc child with
           | Some l => getLinksFromSitemap fuel w mode l all h2
           | None => Some (all, h2)
           end
       end)
    children start.

(** The sitemap URLs requested, in order. *)
Definition requested (h : History) : list string :=
  flat_map (fun e => match e with
                     | EvAxiosGet u => [u]
                     | EvFireEngine _ u => [u]
                     | _ => []
                     end) h.

(* ================================================================== *)
(** * Cancelling a crawl ([crawlCancelController]) *)
(* ================================================================== *)

Module Cancel.

(** [AuthResponse], the answer of [authenticateUser]. *)
Record AuthResponse := mkAuthResponse {
  success : bool;
  team_id : option string;
  error : option string;
  status : option Z
}.

(** A job of the queue: its state and the [partialDocs] of its progress. *)
Record Job := mkJob {
  state : string;
  partialDocs : option (list Document)
}.

(** The queue: its jobs by id, and whether its lookup [getJob] throws (the
    store behind the queue does not answer). *)
Record Queue := mkQueue {
  getJob_fails : option JsError;
  stored : list (string * Job)
}.

(** The state the controller may change: the queue, and the calls of
    [billTeam] so far. *)
Record System := mkSystem {
  jobs : Queue;
  billed : list (option string * nat)
}.

(** The answer of the query on [bulljobs_teams]: the client throws when it
    is not configured, else it gives the rows and an error. *)
Inductive QueryResult : Type :=
| QueryThrows (e : JsError)
| QueryAnswer (data : list (string * string)) (supaError : option string).
(* [supaError] stands for [supaError.message] of an error object. *)

(** The collaborators of the controller: authentication, the ownership
    query, and whether the calls on the job throw: [job.getState()] before
    billing (l.37), [job.progress()] (l.38), [billTeam] (l.44),
    [job.moveToFailed] (l.48) and [job.getState()] after it (l.53). *)
Record Services := mkServices {
  authenticateUser : Outcome AuthResponse;
  bulljobs_teams : string -> option string -> QueryResult;
  getState_fails : option JsError;
  progress_fails : option JsError;
  billTeam_fails : option JsError;
  moveToFailed_fails : option JsError;
  getState_again_fails : option JsError
}.

Inductive Body : Type :=
| BodyError (error : option string)
| BodyStatus (status : string).

Record Response := mkResponse {
  code : option Z;
  body : Body
}.

Fixpoint lookup (js : list (string * Job)) (jobId : string) : option Job :=
  match js with
  | [] => None
  | (id, j) :: rest => if id =? jobId then Some j else lookup rest jobId
  end.

(** What [getJob] resolves with: the job of that id, when the lookup answers
    and the queue has one. *)
Definition getJob (q : Queue) (jobId : string) : option Job :=
  match getJob_fails q with
  | Some _ => None
  | None => lookup (stored q) jobId
  end.

Fixpoint failJob (js : list (string * Job)) (jobId : string)
  : list (string * Job) :=
  match js with
  | [] => []
  | (id, j) :: rest =>
      if id =? jobId then (id, mkJob "failed" (partialDocs j)) :: rest
      else (id, j) :: failJob rest jobId
  end.

(** [job.moveToFailed]: the job of that id gets the state [failed]. *)
Definition moveToFailed (q : Queue) (jobId : string) : Queue :=
  mkQueue (getJob_fails q) (failJob (stored q) jobId).

Definition serverError (e : JsError) : Response :=
  mkResponse (Some 500%Z) (BodyError (err_message e)).

(** Every [await] of the body lies in the outer [try]: what one of them
    throws is answered by the [catch] (l.58-61) with status 500, whatever
    was done before.  Only [moveToFailed] has a [try] of its own. *)
Definition crawlCancelController (sv : Services) (jobId : string) (sys : System)
  : Response * System :=
  match authenticateUser sv with
  | Throw e => (serverError e, sys)
  | Ok auth =>
      if negb (success auth) then
        (mkResponse (status auth) (BodyError (error auth)), sys)
      else
        match getJob_fails (jobs sys) with
        | Some e => (serverError e, sys)
        | None =>
        match getJob (jobs sys) jobId with
        | None => (mkResponse (Some 404%Z) (BodyError (Some "Job not found")), sys)
        | Some job =>
            match bulljobs_teams sv jobId (team_id auth) with
            | QueryThrows e => (serverError e, sys)
            | QueryAnswer data supaError =>
                if match supaError with Some _ => true | None => false end then
                  (mkResponse (Some 500%Z) (BodyError supaError), sys)
                else if (List.length data =? 0)%nat then
                  (mkResponse (Some 403%Z) (BodyError (Some "Unauthorized")), sys)
                else
                  match getState_fails sv with
                  | Some e => (serverError e, sys)
                  | None =>
                  match progress_fails sv with
                  | Some e => (serverError e, sys)
                  | None =>
                  let jobState := state job in
                  let bills :=
                    match partialDocs job with
                    | Some docs =>
                        (0 <? List.length docs)%nat && (jobState =? "active")
                    | None => false
                    end in
                  let n := match partialDocs job with
                           | Some docs => List.length docs | None => O end in
                  match (if bills then billTeam_fails sv else None) with
                  | Some e => (serverError e, sys)
                  | None =>
                      let sys1 :=
                        if bills
                        then mkSystem (jobs sys) (billed sys ++ [(team_id auth, n)])
                        else sys in
                      let sys2 :=
                        match moveToFailed_fails sv with
                        | Some _ => sys1
                        | None => mkSystem (moveToFailed (jobs sys1) jobId)
                                           (billed sys1)
                        end in
                      match getState_again_fails sv with
                      | Some e => (serverError e, sys2)
                      | None =>
                          let newJobState :=
                            match getJob (jobs sys2) jobId with
                            | Some j => state j
                            | None => ""
                            end in
                          (mkResponse None
                             (BodyStatus (if newJobState =? "failed"
                                          then "cancelled" else "Cancelling...")),
                           sys2)
                      end
                  end
                  end
                  end
            end
        end
        end
  end.

End Cancel.

(* ================================================================== *)
(** * Notions used to state the properties *)
(* ================================================================== *)

(** Every attempt the fallback loop can make times out: whatever the
    history, each scraper of the order yields empty text and no HTTP status
    code. *)
Definition timesOut (w : World) (pageOptions : PageOptions)
    (urlToScrap : string) : Prop :=
  forall method h,
    In method (scrapersInOrder w pageOptions urlToScrap) ->
    exists a h',
      attemptScraping w pageOptions urlToScrap method h = (Ok a, h')
      /\ at_text a = "" /\ at_pageStatusCode a = None.

(** The text [scrapSingleUrl] derives from [existingHtml]. *)
Definition fromExistingHtml (w : World) (pageOptions : PageOptions)
    (existingHtml : string) : string :=
  parseMarkdown w (removeUnwantedElements w existingHtml pageOptions).

(** Is the [href] an absolute http(s) URL. *)
Definition isHttp (href : string) : bool :=
  JS.startsWith href "http://" || JS.startsWith href "https://".

(** The links one [href] gives, case by case: an empty [href] gives none;
    an absolute http(s) URL is kept; a path from the root is put after the
    origin; a [mailto:] link is kept; a fragment gives none; everything
    else, whatever scheme it may carry, is put after the base URL and a
    slash. *)
Definition resolveHref (origin baseUrl : string) (href : option string)
  : list string :=
  match href with
  | None => []
  | Some "" => []
  | Some href =>
      if isHttp href then [href]
      else if JS.startsWith href "/" then [(origin ++ href)%string]
      else if JS.startsWith href "mailto:" then [href]
      else if JS.startsWith href "#" then []
      else [(baseUrl ++ "/" ++ href)%string]
  end.

(** The list without the repetitions of what was [seen] or came earlier. *)
Fixpoint keepFirstFrom (seen l : list string) : list string :=
  match l with
  | [] => []
  | x :: xs =>
      if JS.includes seen x then keepFirstFrom seen xs
      else x :: keepFirstFrom (x :: seen) xs
  end.

(** Duplicates removed, the first occurrence of each value kept. *)
Definition keepFirst (l : list string) : list string := keepFirstFrom [] l.

(* ================================================================== *)
(** * Example worlds *)
(* ================================================================== *)

(** A URL parser that knows two hosts and rejects everything else. *)
Definition exampleURL (s : string) : option URL :=
  if JS.startsWith s "https://example.com"
  then Some (mkURL "example.com" "https://example.com")
  else if JS.startsWith s "https://www.docs.example.com"
  then Some (mkURL "www.docs.example.com" "https://www.docs.example.com")
  else None.

Definition timedOut : JsError :=
  mkError (Some "ECONNABORTED") (Some "timeout of 15000ms exceeded") "AxiosError".

Definition timedOutResponse : ScrapeResponse :=
  mkScrapeResponse "" None (Some "Request timed out").

(** A world in which every request times out, no custom rule fires, and
    cleaning and Markdown conversion leave the text as it is. *)
Definition timeoutWorld (e : Env) : World :=
  {| env := e;
     urlSpecificParams := fun _ => None;
     newURL := exampleURL;
     axios_post := fun _ _ _ _ _ => Throw timedOut;
     axios_get := fun _ _ => Throw timedOut;
     fetchAndProcessPdf := fun _ _ _ => Throw timedOut;
     scrapWithScrapingBee := fun _ _ _ _ => Ok timedOutResponse;
     scrapWithPlaywright := fun _ _ _ _ => Ok timedOutResponse;
     scrapWithFetch := fun _ _ => Ok timedOutResponse;
     handleCustomScraping := fun _ _ _ => Ok None;
     removeUnwantedElements := fun s _ => s;
     parseMarkdown := fun s => s;
     extractMetadata := fun _ _ => [];
     anchors := fun _ => [];
     parseStringPromise := fun _ => None |}.

Definition noEnv : Env := mkEnv None None None.

Definition fullEnv : Env :=
  mkEnv (Some "bee-key") (Some "http://fire-engine") (Some "http://playwright").

Definition fireEngineEnv : Env := mkEnv None (Some "http://fire-engine") None.

(** A text of 120 characters. *)
Definition longText : string :=
  Eval cbv in String.concat "" (repeat "0123456789ab" 10).

(** The plain fetch answers with a long page; nothing else is configured. *)
Definition pageWorld : World :=
  {| env := noEnv;
     urlSpecificParams := fun _ => None;
     newURL := exampleURL;
     axios_post := fun _ _ _ _ _ => Throw timedOut;
     axios_get := fun _ _ => Throw timedOut;
     fetchAndProcessPdf := fun _ _ _ => Throw timedOut;
     scrapWithScrapingBee := fun _ _ _ _ => Ok timedOutResponse;
     scrapWithPlaywright := fun _ _ _ _ => Ok timedOutResponse;
     scrapWithFetch := fun _ _ => Ok (mkScrapeResponse longText (Some 200%Z) None);
     handleCustomScraping := fun _ _ _ => Ok None;
     removeUnwantedElements := fun s _ => s;
     parseMarkdown := fun s => s;
     extractMetadata := fun _ _ => [];
     anchors := fun _ =>
       [Some "https://a.example/x"; Some "/about"; Some "mailto:me@example.com";
        Some "#top"; Some "tel:+15551234"; Some "/about"; None; Some "";
        Some "docs/intro"];
     parseStringPromise := fun _ => None |}.

(** ScrapingBee times out, Fire-Engine answers 404 with a short body; the
    plain fetch would answer with a long page. *)
Definition notFoundWorld : World :=
  {| env := mkEnv (Some "bee-key") (Some "http://fire-engine") None;
     urlSpecificParams := fun _ => None;
     newURL := exampleURL;
     axios_post := fun _ _ _ _ _ =>
       Ok (mkAxiosResponse 200 (Some "application/json")
             (Some (mkFEData (Some "Not found") None (Some 404%Z)
                             (Some "Not Found"))));
     axios_get := fun _ _ => Throw timedOut;
     fetchAndProcessPdf := fun _ _ _ => Throw timedOut;
     scrapWithScrapingBee := fun _ _ _ _ => Ok timedOutResponse;
     scrapWithPlaywright := fun _ _ _ _ => Ok timedOutResponse;
     scrapWithFetch := fun _ _ => Ok (mkScrapeResponse longText (Some 200%Z) None);
     handleCustomScraping := fun _ _ _ => Ok None;
     removeUnwantedElements := fun s _ => s;
     parseMarkdown := fun s => s;
     extractMetadata := fun _ _ => [];
     anchors := fun _ => [];
     parseStringPromise := fun _ => None |}.

(** The per-domain table sends one host to Playwright, which is not
    configured. *)
Definition overrideWorld : World :=
  {| env := noEnv;
     urlSpecificParams := fun k =>
       if k =? "docs.example.com"
       then Some (mkSiteParams (Some "playwright") None) else None;
     newURL := exampleURL;
     axios_post := fun _ _ _ _ _ => Throw timedOut;
     axios_get := fun _ _ => Throw timedOut;
     fetchAndProcessPdf := fun _ _ _ => Throw timedOut;
     scrapWithScrapingBee := fun _ _ _ _ => Ok timedOutResponse;
     scrapWithPlaywright := fun _ _ _ _ => Ok timedOutResponse;
     scrapWithFetch := fun _ _ => Ok timedOutResponse;
     handleCustomScraping := fun _ _ _ => Ok None;
     removeUnwantedElements := fun s _ => s;
     parseMarkdown := fun s => s;
     extractMetadata := fun _ _ => [];
     anchors := fun _ => [];
     parseStringPromise := fun _ => None |}.

(** A site whose sitemap index lists a child that cannot be fetched and a
    child with two pages. *)
Definition sitemapWorld : World :=
  {| env := noEnv;
     urlSpecificParams := fun _ => None;
     newURL := exampleURL;
     axios_post := fun _ _ _ _ _ => Throw timedOut;
     axios_get := fun _ u =>
       if u =? "https://example.com/sitemap.xml" then Ok "INDEX"
       else if u =? "https://example.com/posts.xml" then Ok "POSTS"
       else Throw timedOut;
     fetchAndProcessPdf := fun _ _ _ => Throw timedOut;
     scrapWithScrapingBee := fun _ _ _ _ => Ok timedOutResponse;
     scrapWithPlaywright := fun _ _ _ _ => Ok timedOutResponse;
     scrapWithFetch := fun _ _ => Ok timedOutResponse;
     handleCustomScraping := fun _ _ _ => Ok None;
     removeUnwantedElements := fun s _ => s;
     parseMarkdown := fun s => s;
     extractMetadata := fun _ _ => [];
     anchors := fun _ => [];
     parseStringPromise := fun c =>
       if c =? "INDEX" then
         Some (mkXmlParsed None
                 (Some (mkXmlRoot
                          (Some [mkXmlEntry (Some ["https://example.com/gone.xml"]);
                                 mkXmlEntry (Some ["https://example.com/posts.xml"])])
                          None)))
       else if c =? "POSTS" then
         Some (mkXmlParsed
                 (Some (mkXmlRoot None
                          (Some [mkXmlEntry (Some ["https://example.com/a"]);
                                 mkXmlEntry (Some ["https://example.com/b"])])))
                 None)
       else None |}.

(** A queue with one active job that has produced one document, owned by
    the team [team-a]. *)
Definition exampleSystem : Cancel.System :=
  Cancel.mkSystem
    (Cancel.mkQueue None
       [("job-1", Cancel.mkJob "active"
                    (Some [failureDocument "https://example.com/" initialLocals]))])
    [].

Definition ownership (jobId : string) (team : option string)
  : Cancel.QueryResult :=
  match team with
  | Some t =>
      if (jobId =? "job-1") && (t =? "team-a")
      then Cancel.QueryAnswer [("job-1", "team-a")] None
      else Cancel.QueryAnswer [] None
  | None => Cancel.QueryAnswer [] None
  end.

(** The services as the caller of the team [team] sees them. *)
Definition servicesFor (team : string) : Cancel.Services :=
  Cancel.mkServices
    (Ok (Cancel.mkAuthResponse true (Some team) None None))
    ownership None None None None None.

(** The argument of a constructor call with a content. *)
Definition helloData : PartialDocument :=
  mkPartialDocument (Some "hello") None None None None None None None.

(** The service behind the plain fetch is down in a way its client does not
    catch; ScrapingBee is configured and answers 500 with an error. *)
Definition socketHangUp : JsError :=
  mkError (Some "ECONNRESET") (Some "socket hang up") "Error: socket hang up".

Definition throwingWorld : World :=
  {| env := mkEnv (Some "bee-key") None None;
     urlSpecificParams := fun _ => None;
     newURL := exampleURL;
     axios_post := fun _ _ _ _ _ => Throw timedOut;
     axios_get := fun _ _ => Throw timedOut;
     fetchAndProcessPdf := fun _ _ _ => Throw timedOut;
     scrapWithScrapingBee := fun _ _ wait_browser _ =>
       if wait_browser =? "domcontentloaded"
       then Ok (mkScrapeResponse "" (Some 500%Z) (Some "Internal Server Error"))
       else Throw socketHangUp;
     scrapWithPlaywright := fun _ _ _ _ => Ok timedOutResponse;
     scrapWithFetch := fun _ _ => Ok (mkScrapeResponse longText (Some 200%Z) None);
     handleCustomScraping := fun _ _ _ => Ok None;
     removeUnwantedElements := fun s _ => s;
     parseMarkdown := fun s => s;
     extractMetadata := fun _ _ => [];
     anchors := fun _ => [];
     parseStringPromise := fun _ => None |}.

(** The per-domain table asks Fire-Engine to wait two seconds on one host;
    Fire-Engine echoes the wait it was asked for in its answer. *)
Definition waitingWorld : World :=
  {| env := fireEngineEnv;
     urlSpecificParams := fun k =>
       if k =? "example.com"
       then Some (mkSiteParams None (Some (mkSiteRequestParams (Some 2000%Z) None)))
       else None;
     newURL := exampleURL;
     axios_post := fun _ _ _ wait _ =>
       Ok (mkAxiosResponse 200 (Some "application/json")
             (Some (mkFEData (Some "<p>ready</p>") None wait None)));
     axios_get := fun _ _ => Throw timedOut;
     fetchAndProcessPdf := fun _ _ _ => Throw timedOut;
     scrapWithScrapingBee := fun _ _ _ _ => Ok timedOutResponse;
     scrapWithPlaywright := fun _ _ _ _ => Ok timedOutResponse;
     scrapWithFetch := fun _ _ => Ok timedOutResponse;
     handleCustomScraping := fun _ _ _ => Ok None;
     removeUnwantedElements := fun s _ => s;
     parseMarkdown := fun s => s;
     extractMetadata := fun _ _ => [];
     anchors := fun _ => [];
     parseStringPromise := fun _ => None |}.

(** A URL parser that knows one host with and without [www.]. *)
Definition wwwURL (s : string) : option URL :=
  if JS.startsWith s "https://www.example.com"
  then Some (mkURL "www.example.com" "https://www.example.com")
  else if JS.startsWith s "https://example.com"
  then Some (mkURL "example.com" "https://example.com")
  else None.

(** The per-domain table has an entry for that host. *)
Definition wwwWorld : World :=
  {| env := fullEnv;
     urlSpecificParams := fun k =>
       if k =? "example.com"
       then Some (mkSiteParams (Some "playwright")
                    (Some (mkSiteRequestParams (Some 2000%Z) (Some true))))
       else None;
     newURL := wwwURL;
     axios_post := fun _ _ _ _ _ => Throw timedOut;
     axios_get := fun _ _ => Throw timedOut;
     fetchAndProcessPdf := fun _ _ _ => Throw timedOut;
     scrapWithScrapingBee := fun _ _ _ _ => Ok timedOutResponse;
     scrapWithPlaywright := fun _ _ _ _ => Ok timedOutResponse;
     scrapWithFetch := fun _ _ => Ok timedOutResponse;
     handleCustomScraping := fun _ _ _ => Ok None;
     removeUnwantedElements := fun s _ => s;
     parseMarkdown := fun s => s;
     extractMetadata := fun _ _ => [];
     anchors := fun _ => [];
     parseStringPromise := fun _ => None |}.

(** A site whose sitemap is not XML. *)
Definition brokenSitemapWorld : World :=
  {| env := noEnv;
     urlSpecificParams := fun _ => None;
     newURL := exampleURL;
     axios_post := fun _ _ _ _ _ => Throw timedOut;
     axios_get := fun _ _ => Ok "<!doctype html><title>Not found</title>";
     fetchAndProcessPdf := fun _ _ _ => Throw timedOut;
     scrapWithScrapingBee := fun _ _ _ _ => Ok timedOutResponse;
     scrapWithPlaywright := fun _ _ _ _ => Ok timedOutResponse;
     scrapWithFetch := fun _ _ => Ok timedOutResponse;
     handleCustomScraping := fun _ _ _ => Ok None;
     removeUnwantedElements := fun s _ => s;
     parseMarkdown := fun s => s;
     extractMetadata := fun _ _ => [];
     anchors := fun _ => [];
     parseStringPromise := fun _ => None |}.

(** A queue with two jobs of two teams. *)
Definition twoJobs : Cancel.System :=
  Cancel.mkSystem
    (Cancel.mkQueue None
       [("job-1", Cancel.mkJob "active"
                    (Some [failureDocument "https://example.com/" initialLocals;
                           failureDocument "https://example.com/a" initialLocals]));
        ("job-2", Cancel.mkJob "waiting" None)])
    [(Some "team-z", 4%nat)].

(** The owner's request when the state of the job cannot be read after
    [moveToFailed] (l.53). *)
Definition lostConnection : JsError :=
  mkError None (Some "Connection is closed.") "Error: Connection is closed.".

Definition servicesLosingState : Cancel.Services :=
  Cancel.mkServices
    (Ok (Cancel.mkAuthResponse true (Some "team-a") None None))
    ownership None None None None (Some lostConnection).

(* ================================================================== *)
(** * Reading one sitemap with its annotations ([fetchSitemapData]) *)
(* ================================================================== *)

(** [String.prototype.endsWith]. *)
Definition endsWith (s suffix : string) : bool :=
  let n := String.length s in
  let m := String.length suffix in
  (m <=? n)%nat && (substring (n - m) m s =? suffix).

(** The URL [fetchSitemapData] requests for [url]. *)
Definition sitemapUrlOf (url : string) : string :=
  if endsWith url "/sitemap.xml" then url else (url ++ "/sitemap.xml")%string.

(** A [url] element of a [urlset] as [xml2js] returns it. *)
Record UrlElement := mkUrlElement {
  ue_loc : option (list string);
  ue_lastmod : option (list string);
  ue_changefreq : option (list string);
  ue_priority : option (list string)
}.

Record UrlsetRoot := mkUrlsetRoot { ur_url : option (list UrlElement) }.

Record SitemapXml := mkSitemapXml { sx_urlset : option UrlsetRoot }.

(** The number [Number(text)], kept as the text it is read from. *)
Inductive JsNumber : Type := NumberOf (text : option string).

Record SitemapEntry := mkSitemapEntry {
  se_loc : option string;
  se_lastmod : option string;
  se_changefreq : option string;
  se_priority : option JsNumber
}.

(** What the server answers to a GET (status and body), or the error of a
    request without an answer, and the XML parser ([None]: it rejects or
    yields [null]). *)
Record SitemapServices := mkSitemapServices {
  sd_get : string -> Outcome (Z * string);
  sd_parse : string -> option SitemapXml
}.

(** [a[0]]. *)
Definition first {A} (a : list A) : option A :=
  match a with x :: _ => Some x | [] => None end.

(** [a && a[0]] for an optional array. *)
Definition firstOf (a : option (list string)) : option string :=
  match a with Some l => first l | None => None end.

(** The loop over [parsedXml.urlset.url]; [None] when [urlElement.loc[0]]
    throws because an element has no [loc]. *)
Fixpoint sitemapEntries (elements : list UrlElement)
    (sitemapData : list SitemapEntry) : option (list SitemapEntry) :=
  match elements with
  | [] => Some sitemapData
  | urlElement :: rest =>
      match ue_loc urlElement with
      | None => None
      | Some locs =>
          let sitemapEntry :=
            mkSitemapEntry (first locs)
              (firstOf (ue_lastmod urlElement))
              (firstOf (ue_changefreq urlElement))
              (match ue_priority urlElement with
               | Some p => Some (NumberOf (first p))
               | None => None
               end) in
          sitemapEntries rest (sitemapData ++ [sitemapEntry])
      end
  end.

(** [axios.get] is called without a [validateStatus] option: it resolves
    with an answer whose status is from 200 to 299 and rejects every
    other. *)
Definition validateStatus (status : Z) : bool :=
  (200 <=? status)%Z && (status <? 300)%Z.

(** [fetchSitemapData]: the entries, or [None] for [null]. Every error,
    the rejection of [axios.get] included, ends in the empty [catch] and
    the final [return []]. *)
Definition fetchSitemapData (sv : SitemapServices) (url : string)
  : option (list SitemapEntry) :=
  let sitemapUrl := sitemapUrlOf url in
  match sd_get sv sitemapUrl with
  | Throw _ => Some []
  | Ok (status, xml) =>
      if negb (validateStatus status) then Some []
      else if (status =? 200)%Z then
        match sd_parse sv xml with
        | None => Some []
        | Some parsedXml =>
            match sx_urlset parsedXml with
            | Some urlset =>
                match ur_url urlset with
                | Some elements =>
                    match sitemapEntries elements [] with
                    | Some sitemapData => Some sitemapData
                    | None => Some []
                    end
                | None => Some []
                end
            | None => Some []
            end
        end
      else None
  end.

(* ================================================================== *)
(** * Authentication ([supaAuthenticateUser]) *)
(* ================================================================== *)

Module Auth.

Inductive RateLimiterMode : Type := Crawl | CrawlStatus | Scrape | Preview | Search.

(** The parts of the request the function reads. *)
Record Request := mkRequest {
  authorization : option string;
  x_forwarded_for : option string;
  remoteAddress : option string
}.

(** A row of the key lookup; [None] in [price_id] is SQL [null]. *)
Record KeyRow := mkKeyRow {
  row_team_id : option string;
  row_price_id : option string
}.

Record QueryAnswer := mkQueryAnswer {
  data : option (list KeyRow);
  error : option string
}.

(** [subscriptionData]: the team, and the plan when the first lookup set
    it. *)
Record Subscription := mkSubscription {
  team_id : option string;
  plan : option string
}.

(** What the function asks of its collaborators, in order. *)
Inductive Event : Type :=
| EvRpc (api_key : string)
| EvConsume (mode : RateLimiterMode) (token : string) (plan : option string)
            (key : string)
| EvApiKeys (key : string).

(** The collaborators: the key normaliser, the two database queries, the
    rate limiter [getRateLimiter(mode, token, plan)] asked to consume for a
    key ([true]: admitted), and the two price ids of the environment. *)
Record Services := mkServices {
  parseApi : string -> string;
  get_key_and_price_id_2 : string -> Outcome QueryAnswer;
  api_keys : string -> Outcome QueryAnswer;
  consume : RateLimiterMode -> string -> option string -> string -> bool;
  STRIPE_PRICE_ID_STANDARD : option string;
  STRIPE_PRICE_ID_SCALE : option string
}.

Definition previewToken : string := "this_is_just_a_preview_token".

Definition isSpace (c : ascii) : bool := (nat_of_ascii c =? 32)%nat.

Fixpoint untilSpace (s : string) : string :=
  match s with
  | String c r => if isSpace c then "" else String c (untilSpace r)
  | EmptyString => ""
  end.

Fixpoint afterSpace (s : string) : option string :=
  match s with
  | String c r => if isSpace c then Some r else afterSpace r
  | EmptyString => None
  end.

(** [s.split(" ")[1]]. *)
Definition secondField (s : string) : option string :=
  match afterSpace s with
  | Some r => Some (untilSpace r)
  | None => None
  end.

(** [getPlanByPriceId]: the [switch] compares with [===], so a [null]
    price id matches neither price id of the environment. *)
Definition getPlanByPriceId (sv : Services) (price_id : option string) : string :=
  match price_id with
  | Some p =>
      if match STRIPE_PRICE_ID_STANDARD sv with
         | Some e => p =? e | None => false end
      then "standard"
      else if match STRIPE_PRICE_ID_SCALE sv with
              | Some e => p =? e | None => false end
      then "scale"
      else "starter"
  | None => "starter"
  end.

(** [data[0]] unless [error || !data || data.length === 0]. *)
Definition firstRow (a : QueryAnswer) : option KeyRow :=
  match error a, data a with
  | Some _, _ => None
  | None, Some (r :: _) => Some r
  | None, _ => None
  end.

Definition refused (message : string) (code : Z) : Cancel.AuthResponse :=
  Cancel.mkAuthResponse false None (Some message) (Some code).

Definition granted (team : option string) : Cancel.AuthResponse :=
  Cancel.mkAuthResponse true team None None.

(** The rate limiter chosen by the [switch] on [mode], as the mode and the
    plan it is created with. *)
Definition limiterFor (mode : option RateLimiterMode) (plan : string)
  : RateLimiterMode * option string :=
  match mode with
  | Some Crawl => (Crawl, Some plan)
  | Some Scrape => (Scrape, Some plan)
  | Some CrawlStatus => (CrawlStatus, None)
  | Some Search => (Search, None)
  | Some Preview => (Preview, None)
  | None => (Crawl, None)
  end.

(** The part of [supaAuthenticateUser] after the rate limiter is chosen:
    consumption, the preview shortcut, the second key lookup. *)
Definition afterLimiter (sv : Services) (mode : option RateLimiterMode)
    (token iptoken : string) (limiter : RateLimiterMode * option string)
    (subscriptionData : option Subscription) (events : list Event)
  : Outcome Cancel.AuthResponse * list Event :=
  let events1 := events ++ [EvConsume (fst limiter) token (snd limiter) iptoken] in
  if negb (consume sv (fst limiter) token (snd limiter) iptoken) then
    (Ok (refused "Rate limit exceeded. Too many requests, try again in 1 minute."
           429), events1)
  else if (token =? previewToken)
          && match mode with
             | Some Scrape | Some Preview | Some Search => true
             | _ => false
             end
  then (Ok (granted (Some "preview")), events1)
  else
    match subscriptionData with
    | Some subscription => (Ok (granted (team_id subscription)), events1)
    | None =>
        let normalizedApi := parseApi sv token in
        let events2 := events1 ++ [EvApiKeys normalizedApi] in
        match api_keys sv normalizedApi with
        | Throw e => (Throw e, events2)
        | Ok answer =>
            match firstRow answer with
            | None => (Ok (refused "Unauthorized: Invalid token" 401), events2)
            | Some row => (Ok (granted (row_team_id row)), events2)
            end
        end
    end.

Definition supaAuthenticateUser (sv : Services) (req : Request)
    (mode : option RateLimiterMode)
  : Outcome Cancel.AuthResponse * list Event :=
  match authorization req with
  | None => (Ok (refused "Unauthorized" 401), [])
  | Some authHeader =>
      if negb (JS.truthy_string (Some authHeader))
      then (Ok (refused "Unauthorized" 401), [])
      else
        match secondField authHeader with
        | None => (Ok (refused "Unauthorized: Token missing" 401), [])
        | Some token =>
            if negb (JS.truthy_string (Some token))
            then (Ok (refused "Unauthorized: Token missing" 401), [])
            else
              let incomingIP :=
                if JS.truthy_string (x_forwarded_for req)
                then x_forwarded_for req else remoteAddress req in
              let iptoken :=
                ((match incomingIP with Some ip => ip | None => "undefined" end)
                 ++ token)%string in
              if token =? previewToken then
                afterLimiter sv mode token iptoken (Preview, None) None []
              else
                let normalizedApi := parseApi sv token in
                match get_key_and_price_id_2 sv normalizedApi with
                | Throw e => (Throw e, [EvRpc normalizedApi])
                | Ok answer =>
                    match firstRow answer with
                    | None =>
                        (Ok (refused "Unauthorized: Invalid token" 401),
                         [EvRpc normalizedApi])
                    | Some row =>
                        let plan := getPlanByPriceId sv (row_price_id row) in
                        afterLimiter sv mode token iptoken
                          (limiterFor mode plan)
                          (Some (mkSubscription (row_team_id row) (Some plan)))
                          [EvRpc normalizedApi]
                    end
                end
        end
  end.

End Auth.

(** A sitemap service for the examples: the site answers on
    [/sitemap.xml]; the second entry of the second sitemap has no [loc]. *)
Definition exampleSitemapServices : SitemapServices :=
  mkSitemapServices
    (fun u =>
       if u =? "https://example.com/sitemap.xml" then Ok (200%Z, "GOOD")
       else if u =? "https://partial.example/sitemap.xml" then Ok (200%Z, "HOLE")
       else if u =? "https://moved.example/sitemap.xml" then Ok (204%Z, "")
       else if u =? "https://gone.example/sitemap.xml"
       then Ok (404%Z, "Not Found")
       else Throw timedOut)
    (fun xml =>
       if xml =? "GOOD" then
         Some (mkSitemapXml (Some (mkUrlsetRoot (Some
           [mkUrlElement (Some ["https://example.com/a"]) (Some ["2024-05-01"])
                         None (Some ["0.8"]);
            mkUrlElement (Some ["https://example.com/b"]) None None None]))))
       else if xml =? "HOLE" then
         Some (mkSitemapXml (Some (mkUrlsetRoot (Some
           [mkUrlElement (Some ["https://partial.example/a"]) None None None;
            mkUrlElement None (Some ["2024-05-01"]) None None]))))
       else None).

(** Authentication services for the examples: one key of one team on the
    scale plan; the rate limiter admits every key but a blocked one. *)
Definition exampleAuthServices : Auth.Services :=
  Auth.mkServices
    (fun token => token)
    (fun key =>
       if key =? "fc-key-1"
       then Ok (Auth.mkQueryAnswer
                  (Some [Auth.mkKeyRow (Some "team-a") (Some "price_scale")]) None)
       else Ok (Auth.mkQueryAnswer (Some []) None))
    (fun key => Ok (Auth.mkQueryAnswer (Some []) None))
    (fun _ _ _ key => negb (key =? "10.0.0.9fc-key-1"))
    (Some "price_standard") (Some "price_scale").

Definition requestWith (header : string) : Auth.Request :=
  Auth.mkRequest (Some header) None (Some "10.0.0.1").

(* ================================================================== *)
(** * The earlier [single_url.ts]: scrapers that return text only *)
(* ================================================================== *)

(** The version of [single_url.ts] that holds its four scrapers itself,
    knows no status codes and extracts no links. *)
Module Earlier.

Record PageOptions := mkPageOptions {
  onlyMainContent : option bool;
  noLinks : option bool;
  includeHtml : option bool;
  waitFor : option Z;
  screenshot : option bool;
  headers : option Headers;
  fallback : option bool
}.

Definition defaultPageOptions : PageOptions :=
  mkPageOptions (Some true) (Some false) (Some false) (Some 0%Z) (Some false)
                None None.

(** [FireEngineResponse] of [lib/entities.ts]. *)
Record FireEngineResponse := mkFEResponse {
  html_of : string;
  screenshot_of : string
}.

(** An HTTP answer whose body is read as text. *)
Record HttpAnswer := mkHttpAnswer {
  status : Z;
  contentType : option string;
  body : string
}.

(** The collaborators: the environment, the per-domain table, the URL
    parser, the four HTTP clients, the PDF fetcher, [JSON.parse(text).content]
    ([None]: the text is not JSON), the custom scraping rules, the HTML
    parser used to remove the elements of a list of selectors one after
    the other, the list [excludeNonMainTags], Markdown conversion and
    metadata extraction. *)
Record World := mkWorld {
  env : Env;
  urlSpecificParams : string -> option SiteParams;
  newURL : string -> option URL;
  fireEnginePost : History -> string -> option Z -> option bool
                   -> Outcome AxiosResponse;
  scrapingBeeGet : History -> string -> string -> Z -> Outcome HttpAnswer;
  playwrightPost : History -> string -> option Z -> option Headers
                   -> Outcome HttpAnswer;
  axiosGet : History -> string -> Outcome HttpAnswer;
  fetchAndProcessPdf : History -> string -> Outcome string;
  jsonContent : string -> option (option string);
  handleCustomScraping : History -> string -> string
                         -> Outcome (option CustomScraper);
  removeSelectors : list string -> string -> string;
  excludeNonMainTags : list string;
  parseMarkdown : string -> option bool -> string;
  extractMetadata : string -> string -> list (string * string)
}.

Definition universalTimeout : Z := 15000.

(** [generateRequestParams(url)["params"]], as far as [wait] and
    [screenshot] go. *)
Definition generateRequestParams (w : World) (url : string) : SiteRequestParams :=
  let defaultParams := mkSiteRequestParams None None in
  match newURL w url with
  | Some u =>
      let urlKey := JS.strip_www (hostname u) in
      match urlSpecificParams w urlKey with
      | Some entry =>
          match params entry with
          | Some p => p
          | None => defaultParams
          end
      | None => defaultParams
      end
  | None => defaultParams
  end.

(** The PDF branch of [scrapWithFireEngine], which awaits the PDF inside
    its [try]: the text of the PDF, or the empty text when fetching it
    throws into the [catch]. *)
Definition pdfOr (w : World) (url : string) (h : History) : string * History :=
  match fetchAndProcessPdf w h url with
  | Ok text => (text, h ++ [EvPdf url])
  | Throw _ => ("", h ++ [EvPdf url])
  end.

(** The PDF branch of the three other scrapers, which return the promise
    of the PDF without awaiting it: when fetching it throws, the scraper's
    [catch] is already left and the error reaches the caller. *)
Definition pdfOf (w : World) (url : string) : M string :=
  call (EvPdf url) (fun h => fetchAndProcessPdf w h url).

Definition scrapWithFireEngine (w : World) (url : string) (waitFor : option Z)
    (screenshot : option bool) : History -> FireEngineResponse * History :=
  fun h =>
  let reqParams := generateRequestParams w url in
  let waitParam := nullish (sp_wait reqParams) (nullish waitFor (Some 0%Z)) in
  let screenshotParam :=
    nullish (sp_screenshot reqParams) (nullish screenshot (Some false)) in
  let h1 := h ++ [EvFireEngine "/scrape" url] in
  match fireEnginePost w h url waitParam screenshotParam with
  | Throw _ => (mkFEResponse "" "", h1)
  | Ok response =>
      if negb (ax_status response =? 200)%Z then (mkFEResponse "" "", h1)
      else if isPdf (ax_contentType response) then
        let (text, h2) := pdfOr w url h1 in (mkFEResponse text "", h2)
      else
        match ax_data response with
        | Some data =>
            (mkFEResponse
               (match data_content data with Some c => c | None => "" end)
               (match data_screenshot data with Some s => s | None => "" end),
             h1)
        | None => (mkFEResponse "" "", h1)
        end
  end.

Definition scrapWithScrapingBee (w : World) (url wait_browser : string)
    (timeout : Z) : M string :=
  fun h =>
  let h1 := h ++ [EvScrapingBee url wait_browser] in
  match scrapingBeeGet w h url wait_browser timeout with
  | Throw _ => (Ok "", h1)
  | Ok response =>
      if negb (status response =? 200)%Z && negb (status response =? 404)%Z
      then (Ok "", h1)
      else if isPdf (contentType response) then pdfOf w url h1
      else (Ok (body response), h1)
  end.

Definition scrapWithPlaywright (w : World) (url : string) (waitFor : option Z)
    (headers : option Headers) : M string :=
  fun h =>
  let reqParams := generateRequestParams w url in
  let waitParam := nullish (sp_wait reqParams) (nullish waitFor (Some 0%Z)) in
  let h1 := h ++ [EvPlaywright url] in
  match playwrightPost w h url waitParam headers with
  | Throw _ => (Ok "", h1)
  | Ok response =>
      if negb (status response =? 200)%Z then (Ok "", h1)
      else if isPdf (contentType response) then pdfOf w url h1
      else
        match jsonContent w (body response) with
        | Some (Some html) => (Ok html, h1)
        | Some None => (Ok "", h1)
        | None => (Ok "", h1)
        end
  end.

Definition scrapWithFetch (w : World) (url : string) : M string :=
  fun h =>
  let h1 := h ++ [EvFetch url] in
  match axiosGet w h url with
  | Throw _ => (Ok "", h1)
  | Ok response =>
      if negb (status response =? 200)%Z then (Ok "", h1)
      else if isPdf (contentType response) then pdfOf w url h1
      else (Ok (body response), h1)
  end.

(** The inline [removeUnwantedElements]. *)
Definition removeUnwantedElements (w : World) (html : string)
    (pageOptions : PageOptions) : string :=
  removeSelectors w
    ("script, style, iframe, noscript, meta, head"
       :: (if JS.truthy_bool (onlyMainContent pageOptions)
           then excludeNonMainTags w else []))
    html.

Definition liftText (m : M string) : M (string * string) :=
  text <- m ;; ret (text, "").

(** The first [switch] of [attemptScraping]: the text and the screenshot
    of the backend named [method]. *)
Definition scrapeWith (w : World) (pageOptions : PageOptions)
    (url method : string) : M (string * string) :=
  if method =? "fire-engine" then
    if JS.truthy_string (FIRE_ENGINE_BETA_URL (env w)) then
      fun h =>
        let (response, h') :=
          scrapWithFireEngine w url (waitFor pageOptions)
            (screenshot pageOptions) h in
        (Ok (html_of response, screenshot_of response), h')
    else ret ("", "")
  else if method =? "scrapingBee" then
    if JS.truthy_string (SCRAPING_BEE_API_KEY (env w)) then
      liftText (scrapWithScrapingBee w url "domcontentloaded"
                  (match fallback pageOptions with
                   | Some false => 7000%Z
                   | _ => 15000%Z
                   end))
    else ret ("", "")
  else if method =? "playwright" then
    if JS.truthy_string (PLAYWRIGHT_MICROSERVICE_URL (env w)) then
      liftText (scrapWithPlaywright w url (waitFor pageOptions)
                  (headers pageOptions))
    else ret ("", "")
  else if method =? "scrapingBeeLoad" then
    if JS.truthy_string (SCRAPING_BEE_API_KEY (env w)) then
      liftText (scrapWithScrapingBee w url "networkidle2" universalTimeout)
    else ret ("", "")
  else if method =? "fetch" then
    liftText (scrapWithFetch w url)
  else ret ("", "").

(** The custom scraping hook: the response that supersedes text and
    screenshot, if the rules ask for one. *)
Definition customScrape (w : World) (text screenshot url : string)
  : M (option FireEngineResponse) :=
  customScraperResult <- (fun h => (handleCustomScraping w h text url, h)) ;;
  match customScraperResult with
  | Some c =>
      if cs_scraper c =? "fire-engine" then
        fun h =>
          let (r, h') :=
            scrapWithFireEngine w (cs_url c) (cs_waitAfterLoad c) (Some false) h in
          (Ok (Some (if JS.truthy_string (Some screenshot)
                     then mkFEResponse (html_of r) screenshot else r)), h')
      else if cs_scraper c =? "pdf" then
        pdf <- call (EvPdf (cs_url c))
                 (fun h => fetchAndProcessPdf w h (cs_url c)) ;;
        ret (Some (mkFEResponse pdf screenshot))
      else ret None
  | None => ret None
  end.

(** [attemptScraping]: the Markdown, the text and the screenshot. *)
Definition attemptScraping (w : World) (pageOptions : PageOptions)
    (url method : string) : M (string * string * string) :=
  _ <- emit (EvAttempt method url) ;;
  fetched <- scrapeWith w pageOptions url method ;;
  customScrapedContent <- customScrape w (fst fetched) (snd fetched) url ;;
  let text := match customScrapedContent with
              | Some c => html_of c
              | None => fst fetched
              end in
  let screenshot := match customScrapedContent with
                    | Some c => screenshot_of c
                    | None => snd fetched
                    end in
  let cleanedHtml := removeUnwantedElements w text pageOptions in
  ret (parseMarkdown w cleanedHtml (noLinks pageOptions), text, screenshot).

(** The [for] loop over [scrapersInOrder], on the variables [text], [html]
    and [screenshot]. *)
Fixpoint fallbackLoop (w : World) (pageOptions : PageOptions)
    (urlToScrap existingHtml : string) (scrapers : list string)
    (st : string * string * string) (h : History)
  : Outcome (string * string * string) * History :=
  match scrapers with
  | [] => (Ok st, h)
  | scraper :: rest =>
      if longEnough existingHtml then
        let cleanedHtml := removeUnwantedElements w existingHtml pageOptions in
        (Ok (parseMarkdown w cleanedHtml None, existingHtml, snd st), h)
      else
        match attemptScraping w pageOptions urlToScrap scraper h with
        | (Throw e, h') => (Throw e, h')
        | (Ok attempt, h') =>
            if longEnough (fst (fst attempt)) then (Ok attempt, h')
            else fallbackLoop w pageOptions urlToScrap existingHtml rest
                   attempt h'
        end
  end.

Definition scrapersInOrder (w : World) (pageOptions : PageOptions)
    (urlToScrap : string) : list string :=
  let urlKey := match newURL w urlToScrap with
                | Some u => JS.strip_www (hostname u)
                | None => urlToScrap
                end in
  getScrapingFallbackOrder (env w)
    (nullish (match urlSpecificParams w urlKey with
              | Some entry => defaultScraper entry
              | None => None
              end) (Some ""))
    (JS.truthy_number (waitFor pageOptions)
     && match waitFor pageOptions with Some n => (0 <? n)%Z | None => false end)
    (JS.truthy_bool (screenshot pageOptions))
    (match headers pageOptions with Some _ => true | None => false end).

(** The document of the [catch]. *)
Definition failureDocument (urlToScrap : string) : Document :=
  {| content := ""; markdown := Some ""; html := Some ""; rawHtml := None;
     linksOnPage := None;
     createdAt := None; updatedAt := None; type := None;
     metadata := mkMetadata [] None (Some urlToScrap) None None;
     childrenLinks := None; provider := None |}.

Definition scrapSingleUrl (w : World) (urlToScrap : string)
    (pageOptions : PageOptions) (existingHtml : string) : M Document :=
  fun h =>
  let urlToScrap := JS.trim urlToScrap in
  match fallbackLoop w pageOptions urlToScrap existingHtml
          (scrapersInOrder w pageOptions urlToScrap) ("", "", "") h with
  | (Throw _, h') => (Ok (failureDocument urlToScrap), h')
  | (Ok (text, html, screenshot), h') =>
      if negb (JS.truthy_string (Some text))
      then (Ok (failureDocument urlToScrap), h')
      else
        (Ok {| content := text;
               markdown := Some text;
               html := if JS.truthy_bool (includeHtml pageOptions)
                           then Some html else None;
               rawHtml := None;
               linksOnPage := None;
               createdAt := None; updatedAt := None; type := None;
               metadata :=
                 mkMetadata (extractMetadata w html urlToScrap)
                   (if JS.truthy_string (Some screenshot)
                       && (0 <? String.length screenshot)%nat
                    then Some screenshot else None)
                   (Some urlToScrap) None None;
               childrenLinks := None; provider := None |}, h')
  end.

End Earlier.

(** An earlier world in which ScrapingBee and the plain fetch are answered
    200 with the page. *)
Definition earlierWorld : Earlier.World :=
  {| Earlier.env := mkEnv (Some "bee-key") None None;
     Earlier.urlSpecificParams := fun _ => None;
     Earlier.newURL := exampleURL;
     Earlier.fireEnginePost := fun _ _ _ _ => Throw timedOut;
     Earlier.scrapingBeeGet := fun _ _ _ _ =>
       Ok (Earlier.mkHttpAnswer 200 (Some "text/html") "<h1>Welcome</h1>");
     Earlier.playwrightPost := fun _ _ _ _ => Throw timedOut;
     Earlier.axiosGet := fun _ _ =>
       Ok (Earlier.mkHttpAnswer 200 (Some "text/html") "<h1>Welcome</h1>");
     Earlier.fetchAndProcessPdf := fun _ _ => Throw timedOut;
     Earlier.jsonContent := fun _ => None;
     Earlier.handleCustomScraping := fun _ _ _ => Ok None;
     Earlier.removeSelectors := fun _ s => s;
     Earlier.excludeNonMainTags := ["nav"; "footer"];
     Earlier.parseMarkdown := fun s _ => s;
     Earlier.extractMetadata := fun _ _ => [] |}.

(** The same world with a Markdown conversion that finds no text. *)
Definition emptyMarkdownWorld : Earlier.World :=
  {| Earlier.env := Earlier.env earlierWorld;
     Earlier.urlSpecificParams := Earlier.urlSpecificParams earlierWorld;
     Earlier.newURL := Earlier.newURL earlierWorld;
     Earlier.fireEnginePost := Earlier.fireEnginePost earlierWorld;
     Earlier.scrapingBeeGet := Earlier.scrapingBeeGet earlierWorld;
     Earlier.playwrightPost := Earlier.playwrightPost earlierWorld;
     Earlier.axiosGet := Earlier.axiosGet earlierWorld;
     Earlier.fetchAndProcessPdf := Earlier.fetchAndProcessPdf earlierWorld;
     Earlier.jsonContent := Earlier.jsonContent earlierWorld;
     Earlier.handleCustomScraping := Earlier.handleCustomScraping earlierWorld;
     Earlier.removeSelectors := Earlier.removeSelectors earlierWorld;
     Earlier.excludeNonMainTags := Earlier.excludeNonMainTags earlierWorld;
     Earlier.parseMarkdown := fun _ _ => "";
     Earlier.extractMetadata := Earlier.extractMetadata earlierWorld |}.

(** An earlier world in which the page is a PDF that cannot be fetched. *)
Definition pdfWorld : Earlier.World :=
  {| Earlier.env := noEnv;
     Earlier.urlSpecificParams := fun _ => None;
     Earlier.newURL := exampleURL;
     Earlier.fireEnginePost := fun _ _ _ _ => Throw timedOut;
     Earlier.scrapingBeeGet := fun _ _ _ _ => Throw timedOut;
     Earlier.playwrightPost := fun _ _ _ _ => Throw timedOut;
     Earlier.axiosGet := fun _ _ =>
       Ok (Earlier.mkHttpAnswer 200 (Some "application/pdf") "%PDF-1.7");
     Earlier.fetchAndProcessPdf := fun _ _ => Throw socketHangUp;
     Earlier.jsonContent := fun _ => None;
     Earlier.handleCustomScraping := fun _ _ _ => Ok None;
     Earlier.removeSelectors := fun _ s => s;
     Earlier.excludeNonMainTags := ["nav"; "footer"];
     Earlier.parseMarkdown := fun s _ => s;
     Earlier.extractMetadata := fun _ _ => [] |}.

(* ================================================================== *)
(** * Requests of the fallback loop *)
(* ================================================================== *)

(** The requests that only the first [switch] of [attemptScraping] sends:
    those to ScrapingBee, to Playwright and the plain fetch.  Fire-Engine
    and the PDF fetcher are also called by the custom scraping hook. *)
Definition isLoopRequest (e : Event) : bool :=
  match e with
  | EvScrapingBee _ _ | EvPlaywright _ | EvFetch _ => true
  | _ => false
  end.

(** The request of that kind that an attempt with [method] sends, when it
    sends one. *)
Definition loopRequest (url method : string) : option Event :=
  if method =? "scrapingBee" then Some (EvScrapingBee url "domcontentloaded")
  else if method =? "playwright" then Some (EvPlaywright url)
  else if method =? "scrapingBeeLoad" then Some (EvScrapingBee url "networkidle2")
  else if method =? "fetch" then Some (EvFetch url)
  else None.

(** [h'] extends [h] by events none of which is a request of the loop's
    own. *)
Definition silent (h h' : History) : Prop :=
  exists t, h' = h ++ t /\ filter isLoopRequest t = [].

Definition silentM {A} (m : M A) : Prop := forall h, silent h (snd (m h)).

(** A page of 180 characters whose text, once scripts are removed, is one
    word. *)
Definition scriptedPage : string :=
  "<html><head><script>window.dataLayer = window.dataLayer || []; function track(){dataLayer.push(arguments);} track('js', new Date());</script></head><body><p>Hello</p></body></html>".

(** Every service is configured. ScrapingBee, Playwright and the plain
    fetch all answer 200 with [scriptedPage]; Fire-Engine times out.
    Cleaning removes the script and the Markdown of the page is [Hello]. *)
Definition thinWorld : World :=
  {| env := fullEnv;
     urlSpecificParams := fun _ => None;
     newURL := exampleURL;
     axios_post := fun _ _ _ _ _ => Throw timedOut;
     axios_get := fun _ _ => Throw timedOut;
     fetchAndProcessPdf := fun _ _ _ => Throw timedOut;
     scrapWithScrapingBee := fun _ _ _ _ =>
       Ok (mkScrapeResponse scriptedPage (Some 200%Z) None);
     scrapWithPlaywright := fun _ _ _ _ =>
       Ok (mkScrapeResponse scriptedPage (Some 200%Z) None);
     scrapWithFetch := fun _ _ =>
       Ok (mkScrapeResponse scriptedPage (Some 200%Z) None);
     handleCustomScraping := fun _ _ _ => Ok None;
     removeUnwantedElements := fun s _ =>
       if s =? scriptedPage then "<html><body><p>Hello</p></body></html>" else s;
     parseMarkdown := fun s =>
       if s =? "<html><body><p>Hello</p></body></html>" then "Hello" else s;
     extractMetadata := fun _ _ => [];
     anchors := fun _ => [];
     parseStringPromise := fun _ => None |}.

(** Every service is configured and ScrapingBee, the first of the order,
    answers with a page whose Markdown is long. *)
Definition beeWorld : World :=
  {| env := fullEnv;
     urlSpecificParams := fun _ => None;
     newURL := exampleURL;
     axios_post := fun _ _ _ _ _ => Throw timedOut;
     axios_get := fun _ _ => Throw timedOut;
     fetchAndProcessPdf := fun _ _ _ => Throw timedOut;
     scrapWithScrapingBee := fun _ _ _ _ =>
       Ok (mkScrapeResponse longText (Some 200%Z) None);
     scrapWithPlaywright := fun _ _ _ _ => Ok timedOutResponse;
     scrapWithFetch := fun _ _ => Ok timedOutResponse;
     handleCustomScraping := fun _ _ _ => Ok None;
     removeUnwantedElements := fun s _ => s;
     parseMarkdown := fun s => s;
     extractMetadata := fun _ _ => [];
     anchors := fun _ => [];
     parseStringPromise := fun _ => None |}.

(* ================================================================== *)
(** * Failed sitemap requests *)
(* ================================================================== *)

(** The first [loc] of each entry that has one, in order. *)
Definition firstLocs (entries : list XmlEntry) : list string :=
  flat_map (fun entry => match firstLoc entry with
                         | Some l => [l]
                         | None => []
                         end) entries.

(** The POST that [scrapWithFireEngine] sends for a sitemap throws, or is
    answered with a status other than 200. *)
Definition fireEngineRequestFails (w : World) (sitemapUrl : string)
    (h : History) : Prop :=
  let reqParams := generateRequestParams w sitemapUrl in
  let waitParam := nullish (sp_wait reqParams) (nullish None (Some 0%Z)) in
  let screenshotParam :=
    nullish (sp_screenshot reqParams) (nullish None (Some false)) in
  match axios_post w h "/request" sitemapUrl waitParam screenshotParam with
  | Throw _ => True
  | Ok response => ax_status response <> 200%Z
  end.

(** The HTTP fetch of a sitemap fails and leaves the history [h'].  With
    [axios] the request throws.  Fire-Engine reports its failure as an
    answer with an empty text, of which the XML parser makes no
    document. *)
Definition fetchFails (w : World) (mode : SitemapMode) (sitemapUrl : string)
    (h h' : History) : Prop :=
  match mode with
  | ModeAxios =>
      (exists e, axios_get w h sitemapUrl = Throw e)
      /\ h' = h ++ [EvAxiosGet sitemapUrl]
  | ModeFireEngine =>
      fireEngineRequestFails w sitemapUrl h
      /\ parseStringPromise w "" = None
      /\ h' = h ++ [EvFireEngine "/request" sitemapUrl]
  end.

(** The sitemaps of [sitemapWorld] behind Fire-Engine: the index and the
    sitemap of the posts are answered, the request for [gone.xml] times
    out. *)
Definition fireSitemapWorld : World :=
  {| env := fireEngineEnv;
     urlSpecificParams := fun _ => None;
     newURL := exampleURL;
     axios_post := fun _ _ u _ _ =>
       if u =? "https://example.com/sitemap.xml"
       then Ok (mkAxiosResponse 200 (Some "application/json")
                  (Some (mkFEData (Some "INDEX") None (Some 200%Z) None)))
       else if u =? "https://example.com/posts.xml"
       then Ok (mkAxiosResponse 200 (Some "application/json")
                  (Some (mkFEData (Some "POSTS") None (Some 200%Z) None)))
       else Throw timedOut;
     axios_get := fun _ _ => Throw timedOut;
     fetchAndProcessPdf := fun _ _ _ => Throw timedOut;
     scrapWithScrapingBee := fun _ _ _ _ => Ok timedOutResponse;
     scrapWithPlaywright := fun _ _ _ _ => Ok timedOutResponse;
     scrapWithFetch := fun _ _ => Ok timedOutResponse;
     handleCustomScraping := fun _ _ _ => Ok None;
     removeUnwantedElements := fun s _ => s;
     parseMarkdown := fun s => s;
     extractMetadata := fun _ _ => [];
     anchors := fun _ => [];
     parseStringPromise := parseStringPromise sitemapWorld |}.

(* ================================================================== *)
(** * Facts about JavaScript sets *)
(* ================================================================== *)

Section SetFacts.

Lemma includes_In (l : list string) (x : string) :
  JS.includes l x = true <-> In x l.
Proof.
  unfold JS.includes. rewrite existsb_exists. split.
  - intros [y [Hy He]]. apply String.eqb_eq in He. now subst.
  - intros H. exists x. split; [assumption | apply String.eqb_refl].
Qed.

Lemma includes_false (l : list string) (x : string) :
  JS.includes l x = false <-> ~ In x l.
Proof.
  rewrite <- includes_In. destruct (JS.includes l x); split; congruence.
Qed.

Lemma set_add_In (s : list string) (x y : string) :
  In y (JS.set_add s x) <-> In y s \/ y = x.
Proof.
  unfold JS.set_add. destruct (JS.includes s x) eqn:E.
  - apply includes_In in E. split; [tauto | intros [H | ->]; assumption].
  - rewrite in_app_iff. simpl. intuition congruence.
Qed.

Lemma fold_set_add_In (l s : list string) (y : string) :
  In y (fold_left JS.set_add l s) <-> In y s \/ In y l.
Proof.
  revert s. induction l as [| x l IH]; intros s; simpl.
  - tauto.
  - rewrite IH, set_add_In. split; intros H; intuition (subst; auto).
Qed.

Lemma set_of_array_In (l : list string) (y : string) :
  In y (JS.set_of_array l) <-> In y l.
Proof.
  unfold JS.set_of_array. rewrite fold_set_add_In. simpl. tauto.
Qed.

Lemma set_add_NoDup (s : list string) (x : string) :
  NoDup s -> NoDup (JS.set_add s x).
Proof.
  intros H. unfold JS.set_add. destruct (JS.includes s x) eqn:E; [assumption |].
  apply includes_false in E.
  apply NoDup_app; [assumption | repeat constructor; intros [] | ].
  intros a Ha [<- | []]. contradiction.
Qed.

Lemma fold_set_add_NoDup (l s : list string) :
  NoDup s -> NoDup (fold_left JS.set_add l s).
Proof.
  revert s. induction l as [| x l IH]; intros s H; simpl; [assumption |].
  apply IH. now apply set_add_NoDup.
Qed.

Lemma set_of_array_NoDup (l : list string) : NoDup (JS.set_of_array l).
Proof. apply fold_set_add_NoDup. constructor. Qed.

End SetFacts.

(* ================================================================== *)
(** * Properties of the backend order *)
(* ================================================================== *)

Section BackendOrder.

Variable e : Env.
Variables isWaitPresent isScreenshotPresent isHeadersPresent : bool.

Lemma fetch_available : In "fetch" (availableScrapers e).
Proof.
  unfold availableScrapers. apply filter_In. split.
  - simpl. tauto.
  - reflexivity.
Qed.

Lemma available_configured (s : string) :
  In s (availableScrapers e) -> scraperConfigured e s = true.
Proof. unfold availableScrapers. intros H. now apply filter_In in H. Qed.

(** Without a per-domain override every scraper of the order is
    configured. *)
Lemma order_configured_without_override (d : option string) (s : string) :
  JS.truthy_string d = false ->
  In s (getScrapingFallbackOrder e d isWaitPresent isScreenshotPresent
          isHeadersPresent) ->
  scraperConfigured e s = true.
Proof.
  intros Hd. unfold getScrapingFallbackOrder. rewrite set_of_array_In.
  assert (H : In s (filter (JS.includes (availableScrapers e))
                      (defaultOrder isWaitPresent isScreenshotPresent
                         isHeadersPresent) ++ availableScrapers e) ->
              scraperConfigured e s = true).
  { rewrite in_app_iff. intros [H | H].
    - apply filter_In in H. destruct H as [_ H].
      apply includes_In in H. now apply available_configured.
    - now apply available_configured. }
  destruct d as [d |]; [rewrite Hd |]; exact H.
Qed.

(** The order never lists a scraper twice. *)
Lemma order_NoDup (d : option string) :
  NoDup (getScrapingFallbackOrder e d isWaitPresent isScreenshotPresent
           isHeadersPresent).
Proof. apply set_of_array_NoDup. Qed.

Lemma fetch_in_order (d : option string) :
  In "fetch" (getScrapingFallbackOrder e d isWaitPresent isScreenshotPresent
                isHeadersPresent).
Proof.
  unfold getScrapingFallbackOrder. apply set_of_array_In.
  destruct d as [d |]; [destruct (JS.truthy_string (Some d)) |];
    repeat first [ apply in_cons | apply in_or_app; right ];
    apply fetch_available.
Qed.

(** C9. For every [defaultScraper] argument, every environment and every
    combination of the three option hints, [getScrapingFallbackOrder]
    returns a sequence that is not empty and contains the plain-HTTP
    backend ["fetch"]. *)
Theorem order_contains_fetch (d : option string) :
  In "fetch" (getScrapingFallbackOrder e d isWaitPresent isScreenshotPresent
                isHeadersPresent)
  /\ getScrapingFallbackOrder e d isWaitPresent isScreenshotPresent
       isHeadersPresent <> [].
Proof.
  split; [apply fetch_in_order |].
  intros E. pose proof (fetch_in_order d) as H. rewrite E in H. destruct H.
Qed.

End BackendOrder.

(** C1. The per-domain override is put in front of the order without the
    check the other scrapers go through: with no service configured and
    the override ["playwright"], the order is Playwright then fetch,
    although Playwright lacks its service URL. *)
Theorem override_escapes_filter :
  getScrapingFallbackOrder noEnv (Some "playwright") false false false
    = ["playwright"; "fetch"]
  /\ scraperConfigured noEnv "playwright" = false
  /\ scrapersInOrder overrideWorld defaultPageOptions
       "https://www.docs.example.com/guide" = ["playwright"; "fetch"].
Proof. repeat split; reflexivity. Qed.

(* ================================================================== *)
(** * The history of a fetch *)
(* ================================================================== *)

Section FetchHistory.

Variable w : World.
Variable pageOptions : PageOptions.

Lemma attempted_app (a b : History) :
  attempted (a ++ b) = attempted a ++ attempted b.
Proof. unfold attempted. apply flat_map_app. Qed.

Lemma quiet_refl (h : History) : quiet h h.
Proof. exists []. split; [now rewrite app_nil_r | reflexivity]. Qed.

Lemma quiet_trans (h1 h2 h3 : History) :
  quiet h1 h2 -> quiet h2 h3 -> quiet h1 h3.
Proof.
  intros [t1 [-> H1]] [t2 [-> H2]]. exists (t1 ++ t2). split.
  - now rewrite app_assoc.
  - now rewrite attempted_app, H1, H2.
Qed.

Lemma quiet_request (h : History) (e : Event) :
  isNetworkCall e = true -> quiet h (h ++ [e]).
Proof.
  intros H. exists [e]. split; [reflexivity |].
  destruct e; simpl in *; congruence.
Qed.

Lemma quiet_attempted (h h' : History) :
  quiet h h' -> attempted h' = attempted h.
Proof. intros [t [-> H]]. now rewrite attempted_app, H, app_nil_r. Qed.

Lemma quietM_ret {A} (a : A) : quietM (ret a).
Proof. intros h. apply quiet_refl. Qed.

Lemma quietM_bind {A B} (m : M A) (k : A -> M B) :
  quietM m -> (forall a, quietM (k a)) -> quietM (bind m k).
Proof.
  intros Hm Hk h. unfold bind. specialize (Hm h).
  destruct (m h) as [[a | e] h1]; simpl in *; [| exact Hm].
  eapply quiet_trans; [exact Hm | apply Hk].
Qed.

Lemma quietM_call {A} (e : Event) (oracle : History -> Outcome A) :
  isNetworkCall e = true -> quietM (call e oracle).
Proof. intros H h. simpl. now apply quiet_request. Qed.

Lemma scrapWithFireEngine_quiet (a : FireEngineArgs) (h : History) :
  quiet h (snd (scrapWithFireEngine w a h)).
Proof.
  unfold scrapWithFireEngine.
  set (h1 := h ++ [EvFireEngine _ _]).
  assert (Q1 : quiet h h1) by (now apply quiet_request).
  assert (Q2 : quiet h (h1 ++ [EvPdf (fa_url a)])).
  { eapply quiet_trans; [exact Q1 | now apply quiet_request]. }
  destruct (axios_post w h _ _ _ _) as [response | err]; [| exact Q1].
  destruct (negb (ax_status response =? 200)%Z); [exact Q1 |].
  destruct (isPdf (ax_contentType response)).
  - destruct (fetchAndProcessPdf w h1 _ _); exact Q2.
  - destruct (ax_data response); exact Q1.
Qed.

Lemma quietM_liftFE (a : FireEngineArgs) :
  quietM (liftFE (scrapWithFireEngine w a)).
Proof.
  intros h. unfold liftFE. pose proof (scrapWithFireEngine_quiet a h) as Q.
  destruct (scrapWithFireEngine w a h) as [r h']. exact Q.
Qed.

Create HintDb quiet.
#[local] Hint Resolve quietM_ret quietM_call quietM_liftFE : quiet.

Lemma scrapeWith_quiet (url method : string) :
  quietM (scrapeWith w pageOptions url method).
Proof.
  unfold scrapeWith.
  repeat match goal with
         | |- quietM (if ?c then _ else _) => destruct c
         | |- quietM (bind _ _) => apply quietM_bind; [| intros ?]
         end; auto with quiet.
Qed.

Lemma customScrape_quiet (text url : string) :
  quietM (customScrape w pageOptions text url).
Proof.
  unfold customScrape. apply quietM_bind.
  - intros h. apply quiet_refl.
  - intros [c |]; [| auto with quiet].
    repeat match goal with
           | |- quietM (if ?c then _ else _) => destruct c
           | |- quietM (bind _ _) => apply quietM_bind; [| intros ?]
           end; auto with quiet.
Qed.

(** One call of [attemptScraping] is one turn of the loop: its history
    gains the attempt and requests. *)
Lemma attemptScraping_attempted (url method : string) (h : History) :
  attempted (snd (attemptScraping w pageOptions url method h))
  = attempted h ++ [method].
Proof.
  unfold attemptScraping.
  set (rest := fun _ : unit => bind (scrapeWith w pageOptions url method) _).
  assert (Q : quietM (rest tt)).
  { unfold rest. apply quietM_bind; [apply scrapeWith_quiet | intros r].
    apply quietM_bind; [apply customScrape_quiet | intros c].
    apply quietM_ret. }
  unfold bind at 1, emit. specialize (Q (h ++ [EvAttempt method url])).
  apply quiet_attempted in Q. rewrite Q, attempted_app. reflexivity.
Qed.

Variables urlToScrap existingHtml : string.

Local Abbreviation loop := (fallbackLoop w pageOptions urlToScrap existingHtml).

(** The loop over a concatenation is the loop over the first part and,
    when that part was exhausted, the loop over the second. *)
Lemma fallbackLoop_app (pre post : list string) (st : Locals) (h : History) :
  loop (pre ++ post) st h
  = match loop pre st h with
    | (Exhausted, st1, h1) => loop post st1 h1
    | r => r
    end.
Proof.
  revert st h. induction pre as [| s pre IH]; intros st h; simpl.
  - reflexivity.
  - destruct (longEnough existingHtml); [reflexivity |].
    destruct (attemptScraping w pageOptions urlToScrap s h) as [[a | e] h'];
      [| reflexivity].
    destruct (stopsAfter (recordAttempt st a)); [reflexivity | apply IH].
Qed.

(** The loop attempts a prefix of the scrapers it is given, in order. *)
Lemma fallbackLoop_attempted (scrapers : list string) (st : Locals) (h : History) :
  exists pre post,
    scrapers = pre ++ post
    /\ attempted (snd (loop scrapers st h)) = attempted h ++ pre.
Proof.
  revert st h. induction scrapers as [| s rest IH]; intros st h; simpl.
  - exists [], []. split; [reflexivity | now rewrite app_nil_r].
  - destruct (longEnough existingHtml).
    + exists [], (s :: rest). split; [reflexivity | simpl; now rewrite app_nil_r].
    + pose proof (attemptScraping_attempted urlToScrap s h) as A.
      destruct (attemptScraping w pageOptions urlToScrap s h) as [[a | e] h'];
        simpl in A.
      * destruct (stopsAfter (recordAttempt st a)).
        -- exists [s], rest. split; [reflexivity | exact A].
        -- destruct (IH (recordAttempt st a) h') as [pre [post [E H]]].
           exists (s :: pre), post. split; [simpl; now rewrite E |].
           rewrite H, A, <- app_assoc. reflexivity.
      * exists [s], rest. split; [reflexivity | exact A].
Qed.

(** When the loop is exhausted after real attempts, it attempted every
    scraper it was given. *)
Lemma fallbackLoop_exhausted (scrapers : list string) (st st1 : Locals)
    (h h1 : History) :
  longEnough existingHtml = false ->
  loop scrapers st h = (Exhausted, st1, h1) ->
  attempted h1 = attempted h ++ scrapers.
Proof.
  intros Hex. revert st h. induction scrapers as [| s rest IH]; intros st h; simpl.
  - intros E. inversion E. now rewrite app_nil_r.
  - rewrite Hex.
    pose proof (attemptScraping_attempted urlToScrap s h) as A.
    destruct (attemptScraping w pageOptions urlToScrap s h) as [[a | e] h'];
      simpl in A; [| discriminate].
    destruct (stopsAfter (recordAttempt st a)); [discriminate |].
    intros E. apply IH in E. rewrite E, A, <- app_assoc. reflexivity.
Qed.

(** A turn whose attempt makes [stopsAfter] true is the last one. *)
Lemma fallbackLoop_stops (scraper : string) (rest : list string) (st : Locals)
    (h h1 : History) (a : Attempt) :
  longEnough existingHtml = false ->
  attemptScraping w pageOptions urlToScrap scraper h = (Ok a, h1) ->
  stopsAfter (recordAttempt st a) = true ->
  loop (scraper :: rest) st h = (Broke, recordAttempt st a, h1).
Proof. intros Hex Ha Hs. simpl. now rewrite Hex, Ha, Hs. Qed.

(** ** The requests of the loop's own *)

Lemma silent_refl (h : History) : silent h h.
Proof. exists []. split; [now rewrite app_nil_r | reflexivity]. Qed.

Lemma silent_trans (h1 h2 h3 : History) :
  silent h1 h2 -> silent h2 h3 -> silent h1 h3.
Proof.
  intros [t1 [-> H1]] [t2 [-> H2]]. exists (t1 ++ t2). split.
  - now rewrite app_assoc.
  - now rewrite filter_app, H1, H2.
Qed.

Lemma silent_event (h : History) (e : Event) :
  isLoopRequest e = false -> silent h (h ++ [e]).
Proof. intros H. exists [e]. split; [reflexivity |]. simpl. now rewrite H. Qed.

Lemma silentM_ret {A} (a : A) : silentM (ret a).
Proof. intros h. apply silent_refl. Qed.

Lemma silentM_bind {A B} (m : M A) (k : A -> M B) :
  silentM m -> (forall a, silentM (k a)) -> silentM (bind m k).
Proof.
  intros Hm Hk h. unfold bind. specialize (Hm h).
  destruct (m h) as [[a | e] h1]; simpl in *; [| exact Hm].
  eapply silent_trans; [exact Hm | apply Hk].
Qed.

Lemma silentM_call {A} (e : Event) (oracle : History -> Outcome A) :
  isLoopRequest e = false -> silentM (call e oracle).
Proof. intros H h. simpl. now apply silent_event. Qed.

Lemma silentM_liftFE (a : FireEngineArgs) :
  silentM (liftFE (scrapWithFireEngine w a)).
Proof.
  intros h. unfold liftFE, scrapWithFireEngine.
  set (h1 := h ++ [EvFireEngine _ _]).
  assert (Q1 : silent h h1) by (now apply silent_event).
  assert (Q2 : silent h (h1 ++ [EvPdf (fa_url a)])).
  { eapply silent_trans; [exact Q1 | now apply silent_event]. }
  destruct (axios_post w h _ _ _ _) as [response | err]; [| exact Q1].
  destruct (negb (ax_status response =? 200)%Z); [exact Q1 |].
  destruct (isPdf (ax_contentType response)).
  - destruct (fetchAndProcessPdf w h1 _ _); exact Q2.
  - destruct (ax_data response); exact Q1.
Qed.

(** The custom scraping hook sends requests to Fire-Engine and to the PDF
    fetcher only. *)
Lemma customScrape_silent (text url : string) :
  silentM (customScrape w pageOptions text url).
Proof.
  unfold customScrape. apply silentM_bind.
  - intros h. apply silent_refl.
  - intros [c |]; [| apply silentM_ret].
    repeat match goal with
           | |- silentM (if ?c then _ else _) => destruct c
           | |- silentM (bind _ _) => apply silentM_bind; [| intros ?]
           | |- silentM (ret _) => apply silentM_ret
           | |- silentM (liftFE _) => apply silentM_liftFE
           | |- silentM (call _ _) => now apply silentM_call
           end.
Qed.

(** A call followed by a pure step records the one request. *)
Lemma call_then_ret {A B} (e : Event) (oracle : History -> Outcome A)
    (f : A -> B) (h : History) :
  snd (bind (call e oracle) (fun r => ret (f r)) h) = h ++ [e].
Proof. unfold bind, call, ret. destruct (oracle h); reflexivity. Qed.

(** The first [switch] sends at most one request of the loop's own, the
    one of its method. *)
Lemma scrapeWith_requests (url method : string) (h : History) :
  exists t,
    snd (scrapeWith w pageOptions url method h) = h ++ t
    /\ (filter isLoopRequest t = []
        \/ exists e, loopRequest url method = Some e
                     /\ filter isLoopRequest t = [e]).
Proof.
  assert (Nothing : exists t : History,
             h = h ++ t
             /\ (filter isLoopRequest t = []
                 \/ exists e, loopRequest url method = Some e
                              /\ filter isLoopRequest t = [e])).
  { exists []. split; [now rewrite app_nil_r | now left]. }
  unfold scrapeWith. cbv zeta.
  destruct (method =? "fire-engine") eqn:E1.
  { destruct (JS.truthy_string (FIRE_ENGINE_BETA_URL (env w)));
      [| exact Nothing].
    assert (S : silentM (bind (liftFE (scrapWithFireEngine w
                   (mkFEArgs url (waitFor pageOptions) (screenshot pageOptions)
                             (parsePDF pageOptions) None)))
                 (fun response =>
                    ret (mkScraperResponse (fe_html response)
                           (fe_screenshot response) (fe_pageStatusCode response)
                           (fe_pageError response))))).
    { apply silentM_bind; [apply silentM_liftFE | intros r; apply silentM_ret]. }
    destruct (S h) as [t [E F]]. exists t. split; [exact E | now left]. }
  destruct (method =? "scrapingBee") eqn:E2.
  { destruct (JS.truthy_string (SCRAPING_BEE_API_KEY (env w)));
      [| exact Nothing].
    rewrite call_then_ret. eexists. split; [reflexivity |]. right.
    eexists. split; [| reflexivity].
    unfold loopRequest. now rewrite ?E2, ?E3, ?E4. }
  destruct (method =? "playwright") eqn:E3.
  { destruct (JS.truthy_string (PLAYWRIGHT_MICROSERVICE_URL (env w)));
      [| exact Nothing].
    rewrite call_then_ret. eexists. split; [reflexivity |]. right.
    eexists. split; [| reflexivity].
    unfold loopRequest. now rewrite ?E2, ?E3, ?E4. }
  destruct (method =? "scrapingBeeLoad") eqn:E4.
  { destruct (JS.truthy_string (SCRAPING_BEE_API_KEY (env w)));
      [| exact Nothing].
    rewrite call_then_ret. eexists. split; [reflexivity |]. right.
    eexists. split; [| reflexivity].
    unfold loopRequest. now rewrite ?E2, ?E3, ?E4. }
  destruct (method =? "fetch") eqn:E5; [| exact Nothing].
  rewrite call_then_ret. eexists. split; [reflexivity |]. right.
  eexists. split; [| reflexivity].
  unfold loopRequest. now rewrite E2, E3, E4, E5.
Qed.

(** So does a whole attempt, whatever the custom scraping hook does. *)
Lemma attemptScraping_requests (url method : string) (h : History) :
  exists t,
    snd (attemptScraping w pageOptions url method h) = h ++ t
    /\ (filter isLoopRequest t = []
        \/ exists e, loopRequest url method = Some e
                     /\ filter isLoopRequest t = [e]).
Proof.
  unfold attemptScraping, bind at 1, emit.
  destruct (scrapeWith_requests url method (h ++ [EvAttempt method url]))
    as [t1 [E1 F1]].
  unfold bind at 1.
  destruct (scrapeWith w pageOptions url method (h ++ [EvAttempt method url]))
    as [[r | e] h1]; simpl in E1; subst h1.
  - unfold bind.
    destruct (customScrape_silent (rs_text r) url
                ((h ++ [EvAttempt method url]) ++ t1)) as [t2 [E2 F2]].
    destruct (customScrape w pageOptions (rs_text r) url
                ((h ++ [EvAttempt method url]) ++ t1)) as [[c | e] h2];
      simpl in E2; subst h2; simpl;
      exists ([EvAttempt method url] ++ t1 ++ t2);
      (split; [now rewrite !app_assoc |]);
      rewrite !filter_app, F2, app_nil_r; simpl; exact F1.
  - simpl. exists ([EvAttempt method url] ++ t1).
    split; [now rewrite !app_assoc |]. rewrite filter_app. simpl. exact F1.
Qed.

Lemma loopRequest_inj (url m m' : string) (e : Event) :
  loopRequest url m = Some e -> loopRequest url m' = Some e -> m = m'.
Proof.
  unfold loopRequest.
  destruct (m =? "scrapingBee") eqn:A1;
    [| destruct (m =? "playwright") eqn:A2;
       [| destruct (m =? "scrapingBeeLoad") eqn:A3;
          [| destruct (m =? "fetch") eqn:A4; [| discriminate]]]];
  (destruct (m' =? "scrapingBee") eqn:B1;
    [| destruct (m' =? "playwright") eqn:B2;
       [| destruct (m' =? "scrapingBeeLoad") eqn:B3;
          [| destruct (m' =? "fetch") eqn:B4; [| intros _; discriminate]]]]);
  intros H1 H2; rewrite <- H1 in H2; try discriminate;
  repeat match goal with
         | H : (_ =? _) = true |- _ => apply String.eqb_eq in H
         end; congruence.
Qed.

(** In a loop over scrapers none of which is listed twice, no request of
    the loop's own is sent twice, and each is the request of a scraper of
    the list. *)
Lemma fallbackLoop_requests (scrapers : list string) (st : Locals)
    (h : History) :
  NoDup scrapers ->
  exists t,
    snd (loop scrapers st h) = h ++ t
    /\ NoDup (filter isLoopRequest t)
    /\ forall e, In e (filter isLoopRequest t) ->
         exists m, In m scrapers /\ loopRequest urlToScrap m = Some e.
Proof.
  assert (Nothing : forall (l : list string) (h0 : History),
             exists t : History,
               h0 = h0 ++ t
               /\ NoDup (filter isLoopRequest t)
               /\ forall e, In e (filter isLoopRequest t) ->
                    exists m, In m l /\ loopRequest urlToScrap m = Some e).
  { intros l h0. exists []. split; [now rewrite app_nil_r |].
    split; [constructor | intros e []]. }
  revert st h. induction scrapers as [| s rest IH]; intros st h N; simpl.
  - exact (Nothing [] h).
  - destruct (longEnough existingHtml); [exact (Nothing (s :: rest) h) |].
    inversion N as [| x l Hnot Hrest]; subst.
    destruct (attemptScraping_requests urlToScrap s h) as [t1 [E1 F1]].
    assert (One : NoDup (filter isLoopRequest t1)
                  /\ forall e, In e (filter isLoopRequest t1) ->
                       loopRequest urlToScrap s = Some e).
    { destruct F1 as [F1 | [e1 [L1 F1]]]; rewrite F1.
      - split; [constructor | intros e []].
      - split; [repeat constructor; intros [] |].
        intros e [<- | []]. exact L1. }
    destruct One as [N1 O1].
    assert (Stop : exists t : History,
               h ++ t1 = h ++ t
               /\ NoDup (filter isLoopRequest t)
               /\ forall e, In e (filter isLoopRequest t) ->
                    exists m, In m (s :: rest)
                              /\ loopRequest urlToScrap m = Some e).
    { exists t1. split; [reflexivity |]. split; [exact N1 |].
      intros e He. exists s. split; [now left | now apply O1]. }
    destruct (attemptScraping w pageOptions urlToScrap s h) as [[a | e] h'];
      simpl in E1; subst h'; simpl; [| exact Stop].
    destruct (stopsAfter (recordAttempt st a)); simpl; [exact Stop |].
    destruct (IH (recordAttempt st a) (h ++ t1) Hrest) as [t2 [E2 [N2 O2]]].
    exists (t1 ++ t2). split; [now rewrite E2, app_assoc |].
    rewrite filter_app. split.
    + apply NoDup_app; [exact N1 | exact N2 |].
      intros e He1 He2. apply O1 in He1.
      destruct (O2 e He2) as [m [Hm Lm]].
      assert (m = s) by (eapply loopRequest_inj; eassumption).
      subst m. contradiction.
    + intros e He. apply in_app_or in He. destruct He as [He | He].
      * exists s. split; [now left | now apply O1].
      * destruct (O2 e He) as [m [Hm Lm]]. exists m. split; [now right | exact Lm].
Qed.

End FetchHistory.

(* ================================================================== *)
(** * Properties of [scrapSingleUrl] *)
(* ================================================================== *)

Section PageFetcher.

Variable w : World.
Variable pageOptions : PageOptions.
Variable extractorOptions : ExtractorOptions.

(** [scrapSingleUrl] always returns a document: its [catch] absorbs every
    error. *)
Lemma scrapSingleUrl_returns (urlToScrap existingHtml : string) (h : History) :
  exists d, fst (scrapSingleUrl w urlToScrap pageOptions extractorOptions
                   existingHtml h) = Ok d.
Proof.
  unfold scrapSingleUrl.
  destruct (scrapSingleUrl_try w (JS.trim urlToScrap) pageOptions
              extractorOptions existingHtml h) as [[[d | e] st] h'];
    eexists; reflexivity.
Qed.

(** The history of a fetch is the history of its loop. *)
Lemma scrapSingleUrl_history (urlToScrap existingHtml : string) (h : History) :
  snd (scrapSingleUrl w urlToScrap pageOptions extractorOptions existingHtml h)
  = snd (fallbackLoop w pageOptions (JS.trim urlToScrap) existingHtml
           (scrapersInOrder w pageOptions (JS.trim urlToScrap)) initialLocals h).
Proof.
  unfold scrapSingleUrl, scrapSingleUrl_try.
  destruct (fallbackLoop w pageOptions (JS.trim urlToScrap) existingHtml
              (scrapersInOrder w pageOptions (JS.trim urlToScrap))
              initialLocals h) as [[[| | e] st] h'];
    try reflexivity;
    destruct (negb (JS.truthy_string (Some (l_text st)))); try reflexivity;
    destruct (extractLinks w (l_rawHtml st) (JS.trim urlToScrap)); reflexivity.
Qed.

Lemma scrapersInOrder_NoDup (urlToScrap : string) :
  NoDup (scrapersInOrder w pageOptions urlToScrap).
Proof. apply order_NoDup. Qed.

Lemma scrapersInOrder_not_empty (urlToScrap : string) :
  exists s rest, scrapersInOrder w pageOptions urlToScrap = s :: rest.
Proof.
  destruct (scrapersInOrder w pageOptions urlToScrap) as [| s rest] eqn:E.
  - exfalso. unfold scrapersInOrder in E.
    match type of E with ?o = [] =>
      assert (F : In "fetch" o) by apply fetch_in_order; rewrite E in F
    end. destruct F.
  - now exists s, rest.
Qed.

Lemma recordAttempt_404 (st : Locals) (a : Attempt) :
  at_pageStatusCode a = Some 404%Z -> stopsAfter (recordAttempt st a) = true.
Proof.
  intros H. unfold stopsAfter, recordAttempt. simpl. rewrite H. simpl.
  apply orb_true_r.
Qed.

Lemma recordAttempt_long (st : Locals) (a : Attempt) :
  longEnough (at_text a) = true -> stopsAfter (recordAttempt st a) = true.
Proof. intros H. unfold stopsAfter, recordAttempt. simpl. now rewrite H. Qed.

(** A turn of the loop of a fetch that ends the loop ends the fetch's
    history too: nothing is attempted after it. *)
Lemma last_turn (urlToScrap existingHtml : string) (pre post : list string)
    (m : string) (st1 : Locals) (h h1 h2 : History) (a : Attempt) :
  scrapersInOrder w pageOptions (JS.trim urlToScrap) = pre ++ m :: post ->
  longEnough existingHtml = false ->
  fallbackLoop w pageOptions (JS.trim urlToScrap) existingHtml pre
    initialLocals h = (Exhausted, st1, h1) ->
  attemptScraping w pageOptions (JS.trim urlToScrap) m h1 = (Ok a, h2) ->
  stopsAfter (recordAttempt st1 a) = true ->
  snd (scrapSingleUrl w urlToScrap pageOptions extractorOptions existingHtml h)
    = h2
  /\ attempted h2 = attempted h ++ pre ++ [m].
Proof.
  intros Horder Hex Hpre Ha Hstop. split.
  - rewrite scrapSingleUrl_history, Horder, fallbackLoop_app, Hpre.
    now rewrite (fallbackLoop_stops _ _ _ _ _ _ _ _ _ _ Hex Ha Hstop).
  - apply (fallbackLoop_exhausted _ _ _ _ _ _ _ _ _ Hex) in Hpre.
    pose proof (attemptScraping_attempted w pageOptions (JS.trim urlToScrap) m h1) as A.
    rewrite Ha in A. simpl in A. rewrite A, Hpre, <- app_assoc. reflexivity.
Qed.

(** C3. In every fetch, when the loop has gone through the scrapers [pre]
    without stopping and the attempt of the next scraper [m] reports the
    status code 404, the fetch ends with the history of that attempt: the
    scrapers attempted are [pre] and [m], none of those after [m] in the
    fallback order is invoked, whatever the length of the text the attempt
    returned. *)
Theorem not_found_stops_fallback (urlToScrap existingHtml : string)
    (pre post : list string) (m : string) (st1 : Locals) (h h1 h2 : History)
    (a : Attempt) :
  scrapersInOrder w pageOptions (JS.trim urlToScrap) = pre ++ m :: post ->
  longEnough existingHtml = false ->
  fallbackLoop w pageOptions (JS.trim urlToScrap) existingHtml pre
    initialLocals h = (Exhausted, st1, h1) ->
  attemptScraping w pageOptions (JS.trim urlToScrap) m h1 = (Ok a, h2) ->
  at_pageStatusCode a = Some 404%Z ->
  snd (scrapSingleUrl w urlToScrap pageOptions extractorOptions existingHtml h)
    = h2
  /\ attempted h2 = attempted h ++ pre ++ [m].
Proof.
  intros Horder Hex Hpre Ha H404.
  eapply last_turn; eauto using recordAttempt_404.
Qed.

(** The text of an attempt is the Markdown of its cleaned text, and the
    cleaned text is made from the raw text the attempt ends with. *)
Lemma attemptScraping_text (url method : string) (h h1 : History)
    (a : Attempt) :
  attemptScraping w pageOptions url method h = (Ok a, h1) ->
  at_text a = parseMarkdown w (at_html a)
  /\ at_html a = removeUnwantedElements w (at_rawHtml a) pageOptions.
Proof.
  unfold attemptScraping, bind, emit, ret.
  destruct (scrapeWith w pageOptions url method (h ++ [EvAttempt method url]))
    as [[r | e] h2]; [| discriminate].
  destruct (customScrape w pageOptions (rs_text r) url h2)
    as [[c | e] h3]; [| discriminate].
  intros H. inversion H. split; reflexivity.
Qed.

(** C4, as the code has it. The text the loop tests after an attempt is
    the text of the attempt, that is the Markdown of the cleaned text the
    attempt ends with, not the text the backend returned.  In every fetch,
    when the attempt of the first scraper of the order has a Markdown text
    whose trimmed length is at least 100, the fetch ends with the history
    of that attempt: the first scraper is the only one attempted and no
    request of any kind follows.  In every fetch the scrapers attempted are
    a prefix of the order, which lists no scraper twice, so none is
    attempted more than once; and no request to ScrapingBee (in either of
    its two modes), to Playwright or of the plain fetch is sent twice.
    Fire-Engine and the PDF fetcher can be requested once more inside an
    attempt, by the custom scraping hook. *)
Theorem long_text_stops_fallback (urlToScrap existingHtml : string)
    (h : History) :
  (forall m post a h1,
      scrapersInOrder w pageOptions (JS.trim urlToScrap) = m :: post ->
      longEnough existingHtml = false ->
      attemptScraping w pageOptions (JS.trim urlToScrap) m h = (Ok a, h1) ->
      longEnough (parseMarkdown w
                    (removeUnwantedElements w (at_rawHtml a) pageOptions))
        = true ->
      snd (scrapSingleUrl w urlToScrap pageOptions extractorOptions
             existingHtml h) = h1
      /\ attempted h1 = attempted h ++ [m])
  /\ (exists pre post,
      scrapersInOrder w pageOptions (JS.trim urlToScrap) = pre ++ post
      /\ attempted (snd (scrapSingleUrl w urlToScrap pageOptions
                           extractorOptions existingHtml h))
         = attempted h ++ pre
      /\ NoDup pre)
  /\ (exists t,
      snd (scrapSingleUrl w urlToScrap pageOptions extractorOptions
             existingHtml h) = h ++ t
      /\ NoDup (filter isLoopRequest t)).
Proof.
  split; [| split].
  - intros m post a h1 Horder Hex Ha Hlong.
    apply (last_turn urlToScrap existingHtml [] post m initialLocals h h h1 a);
      auto.
    apply recordAttempt_long.
    destruct (attemptScraping_text _ _ _ _ _ Ha) as [T C].
    now rewrite T, C.
  - rewrite scrapSingleUrl_history.
    destruct (fallbackLoop_attempted w pageOptions (JS.trim urlToScrap)
                existingHtml (scrapersInOrder w pageOptions (JS.trim urlToScrap))
                initialLocals h) as [pre [post [E H]]].
    exists pre, post. repeat split; [exact E | exact H |].
    pose proof (scrapersInOrder_NoDup (JS.trim urlToScrap)) as N.
    rewrite E in N. now apply NoDup_app_remove_r in N.
  - rewrite scrapSingleUrl_history.
    destruct (fallbackLoop_requests w pageOptions (JS.trim urlToScrap)
                existingHtml (scrapersInOrder w pageOptions (JS.trim urlToScrap))
                initialLocals h (scrapersInOrder_NoDup (JS.trim urlToScrap)))
      as [t [E [N _]]].
    exists t. split; [exact E | exact N].
Qed.

(** A loop all of whose attempts time out is exhausted and leaves the text
    empty and the status code and the error as they were. *)
Lemma fallbackLoop_timeouts (urlToScrap existingHtml : string)
    (scrapers : list string) (st : Locals) (h : History) :
  longEnough existingHtml = false ->
  (forall m h0, In m scrapers ->
     exists a h',
       attemptScraping w pageOptions urlToScrap m h0 = (Ok a, h')
       /\ at_text a = "" /\ at_pageStatusCode a = None) ->
  l_text st = "" ->
  (l_pageStatusCode st =? 404)%Z = false ->
  exists st' h',
    fallbackLoop w pageOptions urlToScrap existingHtml scrapers st h
      = (Exhausted, st', h')
    /\ l_text st' = ""
    /\ l_pageStatusCode st' = l_pageStatusCode st
    /\ l_pageError st' = l_pageError st.
Proof.
  intros Hex. revert st h.
  induction scrapers as [| s rest IH]; intros st h Hall Htext Hstatus; simpl.
  - exists st, h. auto.
  - rewrite Hex.
    destruct (Hall s h (or_introl eq_refl)) as [a [h' [Ha [Ht Hs]]]].
    rewrite Ha.
    assert (Hstop : stopsAfter (recordAttempt st a) = false).
    { unfold stopsAfter, recordAttempt. simpl. rewrite Ht, Hs. simpl.
      rewrite Hstatus. apply andb_false_r. }
    rewrite Hstop.
    assert (Hkeep : l_pageStatusCode (recordAttempt st a) = l_pageStatusCode st
                    /\ l_pageError (recordAttempt st a) = l_pageError st).
    { unfold recordAttempt. simpl. rewrite Hs. simpl.
      rewrite andb_false_r. auto. }
    destruct Hkeep as [K1 K2].
    destruct (IH (recordAttempt st a) h') as [st' [h'' [E [T [S P]]]]].
    + intros m h0 Hm. apply Hall. now right.
    + exact Ht.
    + now rewrite K1.
    + exists st', h''. repeat split; congruence.
Qed.

(** C2, as the code has it. When no usable [existingHtml] is given and
    every attempt of the fallback order times out (empty text, no HTTP
    status code), [scrapSingleUrl] returns, without throwing, a document
    whose content is empty and whose [sourceURL] is the trimmed input URL;
    its [pageStatusCode] is the initial 200 and its [pageError] is
    undefined, because an error is recorded only with a status code of at
    least 400. *)
Theorem all_timeouts_give_failure_document (urlToScrap existingHtml : string)
    (h : History) :
  longEnough existingHtml = false ->
  timesOut w pageOptions (JS.trim urlToScrap) ->
  exists d h',
    scrapSingleUrl w urlToScrap pageOptions extractorOptions existingHtml h
      = (Ok d, h')
    /\ content d = ""
    /\ sourceURL (metadata d) = Some (JS.trim urlToScrap)
    /\ pageStatusCode (metadata d) = Some 200%Z
    /\ pageError (metadata d) = None.
Proof.
  intros Hex Hall.
  destruct (fallbackLoop_timeouts (JS.trim urlToScrap) existingHtml
              (scrapersInOrder w pageOptions (JS.trim urlToScrap))
              initialLocals h Hex Hall eq_refl eq_refl)
    as [st' [h' [E [T [S P]]]]].
  exists (failureDocument (JS.trim urlToScrap) st'), h'.
  split.
  - unfold scrapSingleUrl, scrapSingleUrl_try. rewrite E, T. reflexivity.
  - simpl. rewrite S, P. auto.
Qed.

(** What the code does with an [existingHtml] whose trimmed length is at
    least 100: [scrapSingleUrl] returns with the history unchanged (no
    backend, no custom scraping, no attempt at all).  When the URL parses,
    the content of the document is the Markdown of the cleaned
    [existingHtml].  When the URL does not parse, the unguarded [new URL]
    of [extractLinks] (l.117) throws after the conversion and the document
    is the one of the [catch], with empty content. *)
Theorem existing_html_bypasses_backends (urlToScrap existingHtml : string)
    (h : History) :
  longEnough existingHtml = true ->
  exists d,
    scrapSingleUrl w urlToScrap pageOptions extractorOptions existingHtml h
      = (Ok d, h)
    /\ (newURL w (JS.trim urlToScrap) <> None ->
        content d = fromExistingHtml w pageOptions existingHtml)
    /\ (newURL w (JS.trim urlToScrap) = None -> content d = "").
Proof.
  intros Hex.
  destruct (scrapersInOrder_not_empty (JS.trim urlToScrap)) as [s [rest E]].
  unfold scrapSingleUrl, scrapSingleUrl_try. rewrite E. simpl fallbackLoop.
  rewrite Hex. cbv beta iota zeta. unfold extractLinks. simpl l_text. simpl l_rawHtml.
  fold (fromExistingHtml w pageOptions existingHtml).
  destruct (fromExistingHtml w pageOptions existingHtml) as [| c t] eqn:T.
  - simpl. eexists. split; [reflexivity |]. simpl. auto.
  - simpl negb. cbv iota.
    destruct (newURL w (JS.trim urlToScrap)) as [u |] eqn:U.
    + eexists. split; [reflexivity |]. simpl. split; [auto | discriminate].
    + eexists. split; [reflexivity |]. simpl. split; [congruence | auto].
Qed.

End PageFetcher.

(* ================================================================== *)
(** * [scrapSingleUrl] on the example worlds *)
(* ================================================================== *)

Ltac each_scraper H :=
  vm_compute in H;
  repeat (destruct H as [H | H]; [subst | ]); try contradiction.

Lemma timeoutWorld_timesOut :
  timesOut (timeoutWorld fullEnv) defaultPageOptions "https://example.com/".
Proof.
  intros m h0 Hin. each_scraper Hin;
    (eexists; eexists; split; [reflexivity | split; reflexivity]).
Qed.

(** C2 as stated fails: with every service configured and every request
    timing out (Fire-Engine through its own [catch], which reports
    ["Request timed out"] without a status code), the document returned has
    an undefined [pageError], not a non-empty one; and its [sourceURL] is
    the trimmed URL, which differs from an input with blanks around it. *)
Lemma timeouts_leave_pageError_undefined :
  timesOut (timeoutWorld fullEnv) defaultPageOptions "https://example.com/"
  /\ exists d h',
      scrapSingleUrl (timeoutWorld fullEnv) "  https://example.com/ "
        defaultPageOptions defaultExtractorOptions "" [] = (Ok d, h')
      /\ attempted h'
         = ["scrapingBee"; "fire-engine"; "playwright"; "scrapingBeeLoad"; "fetch"]
      /\ content d = ""
      /\ pageError (metadata d) = None
      /\ JS.truthy_string (pageError (metadata d)) = false
      /\ sourceURL (metadata d) = Some "https://example.com/"
      /\ sourceURL (metadata d) <> Some "  https://example.com/ ".
Proof.
  split; [exact timeoutWorld_timesOut |].
  eexists; eexists. split; [vm_compute; reflexivity |].
  repeat split; try reflexivity. discriminate.
Qed.

Lemma all_timeouts_give_failure_document_witness :
  longEnough "" = false
  /\ timesOut (timeoutWorld fireEngineEnv) defaultPageOptions
       (JS.trim "  https://example.com/ ")
  /\ exists d h',
      scrapSingleUrl (timeoutWorld fireEngineEnv) "  https://example.com/ "
        defaultPageOptions defaultExtractorOptions "" [] = (Ok d, h')
      /\ content d = ""
      /\ sourceURL (metadata d) = Some (JS.trim "  https://example.com/ ")
      /\ pageStatusCode (metadata d) = Some 200%Z
      /\ pageError (metadata d) = None.
Proof.
  assert (H1 : longEnough "" = false) by reflexivity.
  assert (H2 : timesOut (timeoutWorld fireEngineEnv) defaultPageOptions
                 (JS.trim "  https://example.com/ ")).
  { intros m h0 Hin. each_scraper Hin;
      (eexists; eexists; split; [reflexivity | split; reflexivity]). }
  split; [exact H1 | split; [exact H2 |]].
  exact (all_timeouts_give_failure_document (timeoutWorld fireEngineEnv)
           defaultPageOptions defaultExtractorOptions
           "  https://example.com/ " "" [] H1 H2).
Defined.

Lemma not_found_stops_fallback_witness :
  snd (scrapSingleUrl notFoundWorld "https://example.com/missing"
         defaultPageOptions defaultExtractorOptions "" [])
    = [EvAttempt "scrapingBee" "https://example.com/missing";
       EvScrapingBee "https://example.com/missing" "domcontentloaded";
       EvAttempt "fire-engine" "https://example.com/missing";
       EvFireEngine "/scrape" "https://example.com/missing"]
  /\ attempted [EvAttempt "scrapingBee" "https://example.com/missing";
                EvScrapingBee "https://example.com/missing" "domcontentloaded";
                EvAttempt "fire-engine" "https://example.com/missing";
                EvFireEngine "/scrape" "https://example.com/missing"]
     = attempted [] ++ ["scrapingBee"] ++ ["fire-engine"].
Proof.
  apply (not_found_stops_fallback notFoundWorld defaultPageOptions
           defaultExtractorOptions "https://example.com/missing" ""
           ["scrapingBee"] ["scrapingBeeLoad"; "fetch"] "fire-engine"
           (mkLocals "" "" "" "" 200%Z None) []
           [EvAttempt "scrapingBee" "https://example.com/missing";
            EvScrapingBee "https://example.com/missing" "domcontentloaded"]
           [EvAttempt "scrapingBee" "https://example.com/missing";
            EvScrapingBee "https://example.com/missing" "domcontentloaded";
            EvAttempt "fire-engine" "https://example.com/missing";
            EvFireEngine "/scrape" "https://example.com/missing"]
           (mkAttempt "Not found" "Not found" "Not found" "" (Some 404%Z)
                      (Some "Not Found")));
    reflexivity.
Defined.

(** C4 as stated fails: ScrapingBee, the first backend invoked, returns a
    page of 180 characters, and yet the four scrapers after it are all
    attempted and Playwright, ScrapingBee again and the plain fetch are all
    requested, because the Markdown of the page is the one word [Hello]. *)
Lemma long_backend_text_does_not_stop :
  scrapersInOrder thinWorld defaultPageOptions (JS.trim "https://example.com/")
    = ["scrapingBee"; "fire-engine"; "playwright"; "scrapingBeeLoad"; "fetch"]
  /\ scrapWithScrapingBee thinWorld
       [EvAttempt "scrapingBee" "https://example.com/"]
       "https://example.com/" "domcontentloaded" (Some 15000%Z)
     = Ok (mkScrapeResponse scriptedPage (Some 200%Z) None)
  /\ (100 <= String.length (JS.trim scriptedPage))%nat
  /\ scrapSingleUrl thinWorld "https://example.com/" defaultPageOptions
       defaultExtractorOptions "" []
     = (Ok (successDocument thinWorld defaultPageOptions defaultExtractorOptions
              "https://example.com/"
              (mkLocals "Hello" "<html><body><p>Hello</p></body></html>"
                        scriptedPage "" 200%Z None) []),
        [EvAttempt "scrapingBee" "https://example.com/";
         EvScrapingBee "https://example.com/" "domcontentloaded";
         EvAttempt "fire-engine" "https://example.com/";
         EvFireEngine "/scrape" "https://example.com/";
         EvAttempt "playwright" "https://example.com/";
         EvPlaywright "https://example.com/";
         EvAttempt "scrapingBeeLoad" "https://example.com/";
         EvScrapingBee "https://example.com/" "networkidle2";
         EvAttempt "fetch" "https://example.com/";
         EvFetch "https://example.com/"]).
Proof.
  split; [reflexivity |]. split; [reflexivity |].
  split; [apply Nat.leb_le; reflexivity |]. reflexivity.
Qed.

Lemma long_text_stops_fallback_witness :
  (snd (scrapSingleUrl beeWorld "https://example.com/" defaultPageOptions
          defaultExtractorOptions "" [])
     = [EvAttempt "scrapingBee" "https://example.com/";
        EvScrapingBee "https://example.com/" "domcontentloaded"]
   /\ attempted [EvAttempt "scrapingBee" "https://example.com/";
                 EvScrapingBee "https://example.com/" "domcontentloaded"]
      = attempted [] ++ ["scrapingBee"])
  /\ NoDup ["scrapingBee"; "fire-engine"; "playwright"; "scrapingBeeLoad";
            "fetch"]
  /\ NoDup [EvScrapingBee "https://example.com/" "domcontentloaded";
            EvPlaywright "https://example.com/";
            EvScrapingBee "https://example.com/" "networkidle2";
            EvFetch "https://example.com/"].
Proof.
  split; [| split].
  - destruct (long_text_stops_fallback beeWorld defaultPageOptions
                defaultExtractorOptions "https://example.com/" "" [])
      as [H _].
    apply (H "scrapingBee"
             ["fire-engine"; "playwright"; "scrapingBeeLoad"; "fetch"]
             (mkAttempt longText longText longText "" (Some 200%Z) None));
      reflexivity.
  - destruct (long_text_stops_fallback thinWorld defaultPageOptions
                defaultExtractorOptions "https://example.com/" "" [])
      as [_ [[pre [post [E [A N]]]] _]].
    vm_compute in A. rewrite A. exact N.
  - destruct (long_text_stops_fallback thinWorld defaultPageOptions
                defaultExtractorOptions "https://example.com/" "" [])
      as [_ [_ [t [E N]]]].
    vm_compute in E. rewrite <- E in N. exact N.
Defined.

(** C5. The code departs from the claim for an address that does not
    parse as a URL.  Called with ["not a url"] and an [existingHtml] of 120
    characters, [scrapSingleUrl] makes no request and converts the
    crawler's HTML to the text the claim speaks of; then [extractLinks]
    runs [new URL(baseUrl)] without a guard (l.117), the error reaches the
    [catch] of [scrapSingleUrl] (l.388) and the document returned is the
    one of the [catch]: its content is empty and the text derived from
    [existingHtml] is lost.  The other two calls of [new URL] of the file
    (l.42, l.292) are guarded, and the earlier version of the file uses
    [existingHtml] for every URL. *)
Theorem existing_html_lost_on_invalid_url :
  longEnough longText = true
  /\ newURL pageWorld (JS.trim "not a url") = None
  /\ fromExistingHtml pageWorld defaultPageOptions longText = longText
  /\ extractLinks pageWorld "" (JS.trim "not a url") = Throw invalidURL
  /\ scrapSingleUrl pageWorld "not a url" defaultPageOptions
       defaultExtractorOptions longText []
     = (Ok (failureDocument "not a url"
              (mkLocals longText longText "" "" 200%Z None)), [])
  /\ exists d,
      scrapSingleUrl pageWorld "not a url" defaultPageOptions
        defaultExtractorOptions longText [] = (Ok d, [])
      /\ content d = ""
      /\ content d <> fromExistingHtml pageWorld defaultPageOptions longText.
Proof.
  repeat split; try reflexivity.
  eexists. split; [vm_compute; reflexivity |].
  split; [reflexivity | discriminate].
Qed.

Lemma existing_html_bypasses_backends_witness :
  longEnough longText = true
  /\ exists d,
      scrapSingleUrl pageWorld "https://example.com/" defaultPageOptions
        defaultExtractorOptions longText [] = (Ok d, [])
      /\ (newURL pageWorld (JS.trim "https://example.com/") <> None ->
          content d = fromExistingHtml pageWorld defaultPageOptions longText)
      /\ (newURL pageWorld (JS.trim "https://example.com/") = None ->
          content d = "").
Proof.
  assert (H : longEnough longText = true) by reflexivity.
  split; [exact H |].
  exact (existing_html_bypasses_backends pageWorld defaultPageOptions
           defaultExtractorOptions "https://example.com/" longText [] H).
Defined.

(* ================================================================== *)
(** * Properties of [extractLinks] *)
(* ================================================================== *)

Section Links.

Lemma includes_same (s seen : list string) (x : string) :
  (forall y, In y seen <-> In y s) -> JS.includes seen x = JS.includes s x.
Proof.
  intros H. destruct (JS.includes s x) eqn:E.
  - apply includes_In. apply H. now apply includes_In.
  - apply includes_false. intros F. apply H in F.
    apply includes_false in E. contradiction.
Qed.

(** Filling a set from an array keeps the first occurrence of each value,
    in the order of the array. *)
Lemma fold_set_add_keepFirst (l s seen : list string) :
  (forall y, In y seen <-> In y s) ->
  fold_left JS.set_add l s = s ++ keepFirstFrom seen l.
Proof.
  revert s seen. induction l as [| x l IH]; intros s seen H; simpl.
  - now rewrite app_nil_r.
  - unfold JS.set_add at 2. rewrite (includes_same s seen x H).
    destruct (JS.includes s x).
    + now apply IH.
    + rewrite (IH (s ++ [x]) (x :: seen)).
      * now rewrite <- app_assoc.
      * intros y. rewrite in_app_iff. simpl. rewrite H. intuition.
Qed.

Lemma set_of_array_keepFirst (l : list string) :
  JS.set_of_array l = keepFirst l.
Proof.
  unfold JS.set_of_array, keepFirst.
  now rewrite (fold_set_add_keepFirst l [] []).
Qed.

Variables origin baseUrl : string.

Lemma pushLink_resolve (links : list string) (href : option string) :
  pushLink origin baseUrl links href
  = links ++ resolveHref origin baseUrl href.
Proof.
  destruct href as [[| c href] |]; try (simpl; now rewrite app_nil_r).
  cbv beta iota delta [pushLink resolveHref isHttp JS.truthy_string].
  destruct (JS.startsWith (String c href) "http://"
            || JS.startsWith (String c href) "https://"); [reflexivity |].
  destruct (JS.startsWith (String c href) "/"); [reflexivity |].
  destruct (JS.startsWith (String c href) "#"),
           (JS.startsWith (String c href) "mailto:");
    cbv beta iota delta [negb andb]; try reflexivity.
  now rewrite app_nil_r.
Qed.

Lemma fold_pushLink (hrefs : list (option string)) (links : list string) :
  fold_left (pushLink origin baseUrl) hrefs links
  = links ++ flat_map (resolveHref origin baseUrl) hrefs.
Proof.
  revert links. induction hrefs as [| a hrefs IH]; intros links; simpl.
  - now rewrite app_nil_r.
  - now rewrite IH, pushLink_resolve, <- app_assoc.
Qed.

End Links.

(** C6, as the code has it. For every HTML text and every base URL that
    parses, [extractLinks] returns the links of the anchors in document
    order, duplicates removed and first occurrences kept, where an absolute
    http(s) [href] is kept verbatim, an [href] beginning with a slash is
    put after the page's origin, a [mailto:] link is kept verbatim, a
    fragment-only [href] is dropped, and every other [href], including one
    of another scheme, is put after the base URL and a slash. *)
Theorem extractLinks_resolves (w : World) (html baseUrl : string) (u : URL) :
  newURL w baseUrl = Some u ->
  exists links,
    extractLinks w html baseUrl = Ok links
    /\ links = keepFirst (flat_map (resolveHref (origin u) baseUrl)
                            (anchors w html))
    /\ NoDup links
    /\ (forall l, In l links <->
                  exists href, In href (anchors w html)
                               /\ In l (resolveHref (origin u) baseUrl href)).
Proof.
  intros Hu. unfold extractLinks. rewrite Hu. eexists. split; [reflexivity |].
  rewrite fold_pushLink. simpl. split; [apply set_of_array_keepFirst |].
  split; [apply set_of_array_NoDup |].
  intros l. rewrite set_of_array_In, in_flat_map. reflexivity.
Qed.

Example keepFirst_example :
  keepFirst ["a"; "b"; "a"; "c"; "b"] = ["a"; "b"; "c"].
Proof. reflexivity. Qed.

(** With a base URL that does not parse, [extractLinks] throws. *)
Lemma extractLinks_invalid (w : World) (html baseUrl : string) :
  newURL w baseUrl = None -> extractLinks w html baseUrl = Throw invalidURL.
Proof. intros H. unfold extractLinks. now rewrite H. Qed.

Lemma extractLinks_resolves_witness :
  newURL pageWorld "https://example.com" = Some (mkURL "example.com" "https://example.com")
  /\ extractLinks pageWorld "<html>" "https://example.com"
     = Ok ["https://a.example/x"; "https://example.com/about";
           "mailto:me@example.com"; "https://example.com/tel:+15551234";
           "https://example.com/docs/intro"].
Proof.
  assert (H : newURL pageWorld "https://example.com"
              = Some (mkURL "example.com" "https://example.com"))
    by reflexivity.
  split; [exact H |].
  destruct (extractLinks_resolves pageWorld "<html>" "https://example.com" _ H)
    as [links [E [K _]]].
  rewrite E, K. reflexivity.
Defined.

(** C6 as stated fails: an [href] of the scheme [tel:], which is neither
    http(s) nor [mailto:] nor a fragment, is not dropped; it comes out as a
    link under the base URL. *)
Lemma other_scheme_not_dropped :
  In (Some "tel:+15551234") (anchors pageWorld "<html>")
  /\ isHttp "tel:+15551234" = false
  /\ JS.startsWith "tel:+15551234" "mailto:" = false
  /\ extractLinks pageWorld "<html>" "https://example.com"
     = Ok ["https://a.example/x"; "https://example.com/about";
           "mailto:me@example.com"; "https://example.com/tel:+15551234";
           "https://example.com/docs/intro"]
  /\ pushLink "https://example.com" "https://example.com" []
       (Some "tel:+15551234") = ["https://example.com/tel:+15551234"].
Proof. repeat split; try reflexivity. simpl. tauto. Qed.

(* ================================================================== *)
(** * Properties of [getLinksFromSitemap] *)
(* ================================================================== *)

Section Sitemap.

Variable w : World.
Variable mode : SitemapMode.

(** One call, with the loop over the children named. *)
Lemma getLinksFromSitemap_S (fuel : nat) (sitemapUrl : string)
    (allUrls : list string) (h : History) :
  getLinksFromSitemap (S fuel) w mode sitemapUrl allUrls h
  = match requestSitemap w mode sitemapUrl h with
    | (Throw _, h1) => Some (allUrls, h1)
    | (Ok content, h1) =>
        match parseStringPromise w content with
        | None => Some (allUrls, h1)
        | Some parsed =>
            match nullish (urlset parsed) (sitemapindex parsed) with
            | None => Some (allUrls, h1)
            | Some root =>
                match sitemap root, url root with
                | Some children, _ =>
                    visitChildren fuel w mode children (Some (allUrls, h1))
                | None, Some entries => Some (pushUrls entries allUrls, h1)
                | None, None => Some (allUrls, h1)
                end
            end
        end
    end.
Proof. reflexivity. Qed.

Lemma visitChildren_app (fuel : nat) (pre post : list XmlEntry)
    (start : option (list string * History)) :
  visitChildren fuel w mode (pre ++ post) start
  = visitChildren fuel w mode post (visitChildren fuel w mode pre start).
Proof. unfold visitChildren. apply fold_left_app. Qed.

Lemma visitChildren_cons (fuel : nat) (child : XmlEntry) (rest : list XmlEntry)
    (all : list string) (h : History) :
  visitChildren fuel w mode (child :: rest) (Some (all, h))
  = visitChildren fuel w mode rest
      (match firstLoc child with
       | Some l => getLinksFromSitemap fuel w mode l all h
       | None => Some (all, h)
       end).
Proof. reflexivity. Qed.

Lemma visitChildren_None (fuel : nat) (children : list XmlEntry) :
  visitChildren fuel w mode children None = None.
Proof. induction children as [| c cs IH]; [reflexivity | exact IH]. Qed.

Lemma pushUrls_appends (entries : list XmlEntry) (allUrls : list string) :
  pushUrls entries allUrls
  = allUrls ++ flat_map (fun entry => match firstLoc entry with
                                      | Some l => [l]
                                      | None => []
                                      end) entries.
Proof.
  unfold pushUrls. revert allUrls.
  induction entries as [| x entries IH]; intros allUrls; simpl.
  - now rewrite app_nil_r.
  - rewrite IH. destruct (firstLoc x); [now rewrite <- app_assoc |].
    reflexivity.
Qed.

(** A sitemap whose request fails gives back the list it was given. *)
Lemma failed_request_returns (fuel : nat) (sitemapUrl : string)
    (allUrls : list string) (h h1 : History) (e : JsError) :
  requestSitemap w mode sitemapUrl h = (Throw e, h1) ->
  getLinksFromSitemap (S fuel) w mode sitemapUrl allUrls h = Some (allUrls, h1).
Proof. intros H. rewrite getLinksFromSitemap_S, H. reflexivity. Qed.

(** A sitemap that is a [urlset] adds the first [loc] of each of its
    entries to the list. *)
Lemma urlset_collected (fuel : nat) (sitemapUrl content : string)
    (allUrls : list string) (h h1 : History) (parsed : XmlParsed)
    (root : XmlRoot) (entries : list XmlEntry) :
  requestSitemap w mode sitemapUrl h = (Ok content, h1) ->
  parseStringPromise w content = Some parsed ->
  nullish (urlset parsed) (sitemapindex parsed) = Some root ->
  sitemap root = None ->
  url root = Some entries ->
  getLinksFromSitemap (S fuel) w mode sitemapUrl allUrls h
  = Some (pushUrls entries allUrls, h1).
Proof.
  intros H1 H2 H3 H4 H5.
  now rewrite getLinksFromSitemap_S, H1, H2, H3, H4, H5.
Qed.

(** The list of URLs only grows: what a traversal returns begins with what
    it was given. *)
Lemma getLinksFromSitemap_grows (fuel : nat) :
  forall sitemapUrl allUrls h r h',
    getLinksFromSitemap fuel w mode sitemapUrl allUrls h = Some (r, h') ->
    exists added, r = allUrls ++ added.
Proof.
  induction fuel as [| fuel IH]; intros sitemapUrl allUrls h r h' H.
  - discriminate.
  - rewrite getLinksFromSitemap_S in H.
    assert (Same : forall x, Some (allUrls, x) = Some (r, h') ->
                             exists added, r = allUrls ++ added).
    { intros x E. inversion E. exists []. now rewrite app_nil_r. }
    destruct (requestSitemap w mode sitemapUrl h) as [[content | e] h1];
      [| eauto].
    destruct (parseStringPromise w content) as [parsed |]; [| eauto].
    destruct (nullish (urlset parsed) (sitemapindex parsed)) as [root |];
      [| eauto].
    destruct (sitemap root) as [children |].
    + clear Same. revert allUrls h1 H.
      induction children as [| c cs IHc]; intros allUrls h1 H.
      * inversion H. exists []. now rewrite app_nil_r.
      * rewrite visitChildren_cons in H.
        destruct (firstLoc c) as [l |].
        -- destruct (getLinksFromSitemap fuel w mode l allUrls h1)
             as [[r1 h2] |] eqn:E.
           ++ apply IH in E. destruct E as [a1 ->].
              apply IHc in H. destruct H as [a2 ->].
              exists (a1 ++ a2). now rewrite app_assoc.
           ++ rewrite visitChildren_None in H. discriminate.
        -- now apply IHc in H.
    + destruct (url root) as [entries |]; [| eauto].
      inversion H. rewrite pushUrls_appends. eauto.
Qed.

Lemma requested_app (a b : History) :
  requested (a ++ b) = requested a ++ requested b.
Proof. unfold requested. apply flat_map_app. Qed.

(** The request for a sitemap is recorded, whatever its outcome. *)
Lemma requestSitemap_requested (sitemapUrl : string) (h : History) :
  exists t,
    snd (requestSitemap w mode sitemapUrl h) = h ++ t
    /\ In sitemapUrl (requested t).
Proof.
  destruct mode.
  - exists [EvAxiosGet sitemapUrl]. split; [reflexivity | now left].
  - unfold requestSitemap, bind, liftFE, ret, scrapWithFireEngine. cbv zeta.
    simpl fa_url. simpl fa_endpoint. cbv iota beta.
    destruct (axios_post w h _ _ _ _) as [response | e].
    + destruct (negb (ax_status response =? 200)%Z).
      * eexists. split; [reflexivity | now left].
      * destruct (isPdf (ax_contentType response)).
        -- destruct (fetchAndProcessPdf w _ _ _); simpl;
             rewrite <- app_assoc; eexists; (split; [reflexivity | now left]).
        -- destruct (ax_data response); eexists;
             (split; [reflexivity | now left]).
    + eexists. split; [reflexivity | now left].
Qed.

(** A loop over children extends the list and the history when each call
    for a child does. *)
Lemma visitChildren_extends_if (fuel : nat) :
  (forall l all h r h',
      getLinksFromSitemap fuel w mode l all h = Some (r, h') ->
      (exists added, r = all ++ added) /\ (exists t, h' = h ++ t)) ->
  forall children all h r h',
    visitChildren fuel w mode children (Some (all, h)) = Some (r, h') ->
    (exists added, r = all ++ added) /\ (exists t, h' = h ++ t).
Proof.
  intros Hcall children.
  induction children as [| c cs IH]; intros all h r h' H.
  - inversion H. split; exists []; now rewrite app_nil_r.
  - rewrite visitChildren_cons in H. destruct (firstLoc c) as [l |].
    + destruct (getLinksFromSitemap fuel w mode l all h) as [[r1 h1] |] eqn:E.
      * apply Hcall in E. destruct E as [[a1 ->] [t1 ->]].
        apply IH in H. destruct H as [[a2 ->] [t2 ->]].
        split; [exists (a1 ++ a2) | exists (t1 ++ t2)]; now rewrite app_assoc.
      * rewrite visitChildren_None in H. discriminate.
    + now apply IH in H.
Qed.

(** What a traversal returns begins with the list and the history it was
    given. *)
Lemma getLinksFromSitemap_extends (fuel : nat) :
  forall sitemapUrl allUrls h r h',
    getLinksFromSitemap fuel w mode sitemapUrl allUrls h = Some (r, h') ->
    (exists added, r = allUrls ++ added) /\ (exists t, h' = h ++ t).
Proof.
  induction fuel as [| fuel IH]; intros sitemapUrl allUrls h r h' H.
  - discriminate.
  - rewrite getLinksFromSitemap_S in H.
    destruct (requestSitemap_requested sitemapUrl h) as [t1 [E1 _]].
    assert (Same : Some (allUrls, h ++ t1) = Some (r, h') ->
                   (exists added, r = allUrls ++ added)
                   /\ (exists t, h' = h ++ t)).
    { intros E. inversion E. split; [exists [] | exists t1];
        [now rewrite app_nil_r | reflexivity]. }
    destruct (requestSitemap w mode sitemapUrl h) as [[content | e] h1];
      simpl in E1; subst h1; [| auto].
    destruct (parseStringPromise w content) as [parsed |]; [| auto].
    destruct (nullish (urlset parsed) (sitemapindex parsed)) as [root |];
      [| auto].
    destruct (sitemap root) as [children |].
    + apply (visitChildren_extends_if fuel IH) in H.
      destruct H as [Hr [t2 ->]]. split; [exact Hr |].
      exists (t1 ++ t2). now rewrite app_assoc.
    + destruct (url root) as [entries |]; [| auto].
      inversion H. rewrite pushUrls_appends. split; eauto.
Qed.

Lemma visitChildren_extends (fuel : nat) (children : list XmlEntry)
    (all : list string) (h : History) (r : list string) (h' : History) :
  visitChildren fuel w mode children (Some (all, h)) = Some (r, h') ->
  (exists added, r = all ++ added) /\ (exists t, h' = h ++ t).
Proof.
  apply visitChildren_extends_if. apply getLinksFromSitemap_extends.
Qed.

(** A sitemap whose fetch fails gives back the list it was given, in
    either mode. *)
Lemma fetchFails_returns (fuel : nat) (sitemapUrl : string)
    (allUrls : list string) (h h' : History) :
  fetchFails w mode sitemapUrl h h' ->
  getLinksFromSitemap (S fuel) w mode sitemapUrl allUrls h = Some (allUrls, h').
Proof.
  intros H. rewrite getLinksFromSitemap_S. destruct mode; simpl in H.
  - destruct H as [[e He] ->]. unfold requestSitemap, call. now rewrite He.
  - destruct H as [Hf [Hp ->]].
    unfold fireEngineRequestFails in Hf. cbv zeta in Hf.
    unfold requestSitemap, bind, liftFE, ret, scrapWithFireEngine. cbv zeta.
    simpl fa_url. simpl fa_endpoint. simpl fa_waitFor. simpl fa_screenshot.
    cbv iota beta.
    destruct (axios_post w h "/request" sitemapUrl _ _) as [response | e].
    + destruct (Z.eqb_spec (ax_status response) 200) as [S | S];
        [contradiction |].
      simpl. now rewrite Hp.
    + simpl. now rewrite Hp.
Qed.

End Sitemap.

(** Fire-Engine reports a failed request as an answer with empty [html]. *)
Lemma scrapWithFireEngine_failure (w : World) (a : FireEngineArgs)
    (h : History) (e : JsError) :
  (forall endpoint target wait shot,
      axios_post w h endpoint target wait shot = Throw e) ->
  scrapWithFireEngine w a h
  = (fireEngineFailure e,
     h ++ [EvFireEngine (match fa_endpoint a with
                         | Some "request" => "/request"
                         | _ => "/scrape"
                         end) (fa_url a)]).
Proof. intros H. unfold scrapWithFireEngine. now rewrite H. Qed.

(** C7. For every sitemap URL whose HTTP fetch fails, in either mode,
    [getLinksFromSitemap] returns (it does not raise) the list it was
    given, so that branch adds no URL: with [axios] the request throws into
    the inner [catch]; with Fire-Engine, which reports a failed request as
    an answer with an empty text, the XML parser makes no document of that
    text and the outer [catch] is reached.  And in a sitemap index in which
    the fetch of the child [bad] fails after the children [pre] gave the
    list [all1], and the next child [good] is a [urlset], the traversal of
    the index returns when that of the remaining children [post] does;
    [good] was requested after [bad]; and the list returned holds, right
    after [all1], the first [loc] of every entry of [good]: the sibling is
    still traversed and its URLs are still collected. *)
Theorem failed_sitemap_contributes_nothing (w : World) (mode : SitemapMode) :
  (forall fuel sitemapUrl allUrls h h',
      fetchFails w mode sitemapUrl h h' ->
      getLinksFromSitemap (S fuel) w mode sitemapUrl allUrls h
        = Some (allUrls, h'))
  /\ (forall fuel index content allUrls h h1 parsed root pre bad good post
             l g all1 h2 h3 gcontent h4 gparsed groot entries r h5,
      requestSitemap w mode index h = (Ok content, h1) ->
      parseStringPromise w content = Some parsed ->
      nullish (urlset parsed) (sitemapindex parsed) = Some root ->
      sitemap root = Some (pre ++ bad :: good :: post) ->
      visitChildren (S fuel) w mode pre (Some (allUrls, h1)) = Some (all1, h2) ->
      firstLoc bad = Some l ->
      fetchFails w mode l h2 h3 ->
      firstLoc good = Some g ->
      requestSitemap w mode g h3 = (Ok gcontent, h4) ->
      parseStringPromise w gcontent = Some gparsed ->
      nullish (urlset gparsed) (sitemapindex gparsed) = Some groot ->
      sitemap groot = None ->
      url groot = Some entries ->
      visitChildren (S fuel) w mode post
        (Some (all1 ++ firstLocs entries, h4)) = Some (r, h5) ->
      getLinksFromSitemap (S (S fuel)) w mode index allUrls h = Some (r, h5)
      /\ (exists added, r = all1 ++ firstLocs entries ++ added)
      /\ (forall u, In u (firstLocs entries) -> In u r)
      /\ (exists t3 t4 t5,
            h3 = h2 ++ t3 /\ h4 = h3 ++ t4 /\ h5 = h4 ++ t5
            /\ In l (requested t3) /\ In g (requested t4))).
Proof.
  split.
  - intros. now apply fetchFails_returns.
  - intros fuel index content allUrls h h1 parsed root pre bad good post
           l g all1 h2 h3 gcontent h4 gparsed groot entries r h5
           Hreq Hparse Hroot Hidx Hpre Hloc Hbad Hg Hgreq Hgparse Hgroot
           Hleaf Hentries Hpost.
    pose proof (fetchFails_returns w mode fuel l all1 h2 h3 Hbad) as B.
    pose proof (urlset_collected w mode fuel g gcontent all1 h3 h4 gparsed
                  groot entries Hgreq Hgparse Hgroot Hleaf Hentries) as G.
    rewrite pushUrls_appends in G. fold (firstLocs entries) in G.
    destruct (visitChildren_extends w mode _ _ _ _ _ _ Hpost)
      as [[added Hr] [t5 Hh]].
    split; [| split; [| split]].
    + rewrite getLinksFromSitemap_S, Hreq, Hparse, Hroot, Hidx.
      rewrite visitChildren_app, Hpre, visitChildren_cons, Hloc, B.
      rewrite visitChildren_cons, Hg, G. exact Hpost.
    + exists added. now rewrite Hr, app_assoc.
    + intros u Hu. rewrite Hr. apply in_or_app. left.
      apply in_or_app. now right.
    + destruct (requestSitemap_requested w mode g h3) as [t4 [E4 R4]].
      rewrite Hgreq in E4. simpl in E4.
      assert (R3 : exists t3, h3 = h2 ++ t3 /\ In l (requested t3)).
      { destruct mode; simpl in Hbad.
        - destruct Hbad as [_ ->]. eexists. split; [reflexivity | now left].
        - destruct Hbad as [_ [_ ->]]. eexists.
          split; [reflexivity | now left]. }
      destruct R3 as [t3 [E3 R3]].
      exists t3, t4, t5. auto.
Qed.

Lemma failed_sitemap_contributes_nothing_witness :
  getLinksFromSitemap 1 sitemapWorld ModeAxios "https://example.com/gone.xml"
    ["https://example.com/"] []
  = Some (["https://example.com/"], [EvAxiosGet "https://example.com/gone.xml"])
  /\ getLinksFromSitemap 1 fireSitemapWorld ModeFireEngine
       "https://example.com/gone.xml" ["https://example.com/"] []
     = Some (["https://example.com/"],
             [EvFireEngine "/request" "https://example.com/gone.xml"])
  /\ getLinksFromSitemap 2 sitemapWorld ModeAxios
       "https://example.com/sitemap.xml" [] []
     = Some (["https://example.com/a"; "https://example.com/b"],
             [EvAxiosGet "https://example.com/sitemap.xml";
              EvAxiosGet "https://example.com/gone.xml";
              EvAxiosGet "https://example.com/posts.xml"])
  /\ getLinksFromSitemap 2 fireSitemapWorld ModeFireEngine
       "https://example.com/sitemap.xml" [] []
     = Some (["https://example.com/a"; "https://example.com/b"],
             [EvFireEngine "/request" "https://example.com/sitemap.xml";
              EvFireEngine "/request" "https://example.com/gone.xml";
              EvFireEngine "/request" "https://example.com/posts.xml"]).
Proof.
  destruct (failed_sitemap_contributes_nothing sitemapWorld ModeAxios)
    as [A1 A2].
  destruct (failed_sitemap_contributes_nothing fireSitemapWorld ModeFireEngine)
    as [F1 F2].
  split; [| split; [| split]].
  - apply (A1 0%nat "https://example.com/gone.xml" ["https://example.com/"] []
             [EvAxiosGet "https://example.com/gone.xml"]).
    split; [exists timedOut; reflexivity | reflexivity].
  - apply (F1 0%nat "https://example.com/gone.xml" ["https://example.com/"] []
             [EvFireEngine "/request" "https://example.com/gone.xml"]).
    split; [exact I | split; reflexivity].
  - refine (proj1 (A2 0%nat "https://example.com/sitemap.xml" "INDEX" [] []
                [EvAxiosGet "https://example.com/sitemap.xml"]
                (mkXmlParsed None
                   (Some (mkXmlRoot
                            (Some [mkXmlEntry (Some ["https://example.com/gone.xml"]);
                                   mkXmlEntry (Some ["https://example.com/posts.xml"])])
                            None)))
                (mkXmlRoot
                   (Some [mkXmlEntry (Some ["https://example.com/gone.xml"]);
                          mkXmlEntry (Some ["https://example.com/posts.xml"])])
                   None)
                [] (mkXmlEntry (Some ["https://example.com/gone.xml"]))
                (mkXmlEntry (Some ["https://example.com/posts.xml"])) []
                "https://example.com/gone.xml" "https://example.com/posts.xml"
                []
                [EvAxiosGet "https://example.com/sitemap.xml"]
                [EvAxiosGet "https://example.com/sitemap.xml";
                 EvAxiosGet "https://example.com/gone.xml"]
                "POSTS"
                [EvAxiosGet "https://example.com/sitemap.xml";
                 EvAxiosGet "https://example.com/gone.xml";
                 EvAxiosGet "https://example.com/posts.xml"]
                (mkXmlParsed
                   (Some (mkXmlRoot None
                            (Some [mkXmlEntry (Some ["https://example.com/a"]);
                                   mkXmlEntry (Some ["https://example.com/b"])])))
                   None)
                (mkXmlRoot None
                   (Some [mkXmlEntry (Some ["https://example.com/a"]);
                          mkXmlEntry (Some ["https://example.com/b"])]))
                [mkXmlEntry (Some ["https://example.com/a"]);
                 mkXmlEntry (Some ["https://example.com/b"])]
                ["https://example.com/a"; "https://example.com/b"]
                [EvAxiosGet "https://example.com/sitemap.xml";
                 EvAxiosGet "https://example.com/gone.xml";
                 EvAxiosGet "https://example.com/posts.xml"]
                eq_refl eq_refl eq_refl eq_refl eq_refl eq_refl
                (conj (ex_intro _ timedOut eq_refl) eq_refl)
                eq_refl eq_refl eq_refl eq_refl eq_refl eq_refl eq_refl)).
  - refine (proj1 (F2 0%nat "https://example.com/sitemap.xml" "INDEX" [] []
                [EvFireEngine "/request" "https://example.com/sitemap.xml"]
                (mkXmlParsed None
                   (Some (mkXmlRoot
                            (Some [mkXmlEntry (Some ["https://example.com/gone.xml"]);
                                   mkXmlEntry (Some ["https://example.com/posts.xml"])])
                            None)))
                (mkXmlRoot
                   (Some [mkXmlEntry (Some ["https://example.com/gone.xml"]);
                          mkXmlEntry (Some ["https://example.com/posts.xml"])])
                   None)
                [] (mkXmlEntry (Some ["https://example.com/gone.xml"]))
                (mkXmlEntry (Some ["https://example.com/posts.xml"])) []
                "https://example.com/gone.xml" "https://example.com/posts.xml"
                []
                [EvFireEngine "/request" "https://example.com/sitemap.xml"]
                [EvFireEngine "/request" "https://example.com/sitemap.xml";
                 EvFireEngine "/request" "https://example.com/gone.xml"]
                "POSTS"
                [EvFireEngine "/request" "https://example.com/sitemap.xml";
                 EvFireEngine "/request" "https://example.com/gone.xml";
                 EvFireEngine "/request" "https://example.com/posts.xml"]
                (mkXmlParsed
                   (Some (mkXmlRoot None
                            (Some [mkXmlEntry (Some ["https://example.com/a"]);
                                   mkXmlEntry (Some ["https://example.com/b"])])))
                   None)
                (mkXmlRoot None
                   (Some [mkXmlEntry (Some ["https://example.com/a"]);
                          mkXmlEntry (Some ["https://example.com/b"])]))
                [mkXmlEntry (Some ["https://example.com/a"]);
                 mkXmlEntry (Some ["https://example.com/b"])]
                ["https://example.com/a"; "https://example.com/b"]
                [EvFireEngine "/request" "https://example.com/sitemap.xml";
                 EvFireEngine "/request" "https://example.com/gone.xml";
                 EvFireEngine "/request" "https://example.com/posts.xml"]
                eq_refl eq_refl eq_refl eq_refl eq_refl eq_refl
                (conj I (conj eq_refl eq_refl))
                eq_refl eq_refl eq_refl eq_refl eq_refl eq_refl eq_refl)).
Defined.

(* ================================================================== *)
(** * Properties of [crawlCancelController] *)
(* ================================================================== *)

Section Cancellation.

Variable sv : Cancel.Services.
Variable jobId : string.
Variable sys : Cancel.System.

(** A job that [getJob] resolved with was looked up without an error. *)
Lemma getJob_answered (q : Cancel.Queue) (id : string) (job : Cancel.Job) :
  Cancel.getJob q id = Some job ->
  Cancel.getJob_fails q = None /\ Cancel.lookup (Cancel.stored q) id = Some job.
Proof.
  unfold Cancel.getJob. destruct (Cancel.getJob_fails q); [discriminate |].
  auto.
Qed.

(** C8. For every cancellation request of an authenticated caller where
    the job exists and the ownership query answers without an error and
    with no row for that job and the caller's team, the controller answers
    403 with the error ["Unauthorized"] and leaves the system as it was: no
    billing call is made and the job keeps its state. *)
Theorem foreign_team_cannot_cancel (auth : Cancel.AuthResponse)
    (job : Cancel.Job) :
  Cancel.authenticateUser sv = Ok auth ->
  Cancel.success auth = true ->
  Cancel.getJob (Cancel.jobs sys) jobId = Some job ->
  Cancel.bulljobs_teams sv jobId (Cancel.team_id auth)
    = Cancel.QueryAnswer [] None ->
  Cancel.crawlCancelController sv jobId sys
    = (Cancel.mkResponse (Some 403%Z) (Cancel.BodyError (Some "Unauthorized")),
       sys)
  /\ Cancel.billed (snd (Cancel.crawlCancelController sv jobId sys))
     = Cancel.billed sys
  /\ Cancel.getJob (Cancel.jobs (snd (Cancel.crawlCancelController sv jobId sys)))
       jobId = Some job.
Proof.
  intros Hauth Hok Hjob Hquery.
  assert (E : Cancel.crawlCancelController sv jobId sys
              = (Cancel.mkResponse (Some 403%Z)
                   (Cancel.BodyError (Some "Unauthorized")), sys)).
  { unfold Cancel.crawlCancelController.
    destruct (getJob_answered _ _ _ Hjob) as [Hup _].
    rewrite Hauth, Hok, Hup, Hjob, Hquery. reflexivity. }
  rewrite E. simpl. auto.
Qed.

End Cancellation.

Lemma foreign_team_cannot_cancel_witness :
  Cancel.crawlCancelController (servicesFor "team-b") "job-1" exampleSystem
    = (Cancel.mkResponse (Some 403%Z) (Cancel.BodyError (Some "Unauthorized")),
       exampleSystem)
  /\ Cancel.billed (snd (Cancel.crawlCancelController (servicesFor "team-b")
                           "job-1" exampleSystem))
     = Cancel.billed exampleSystem
  /\ Cancel.getJob
       (Cancel.jobs (snd (Cancel.crawlCancelController (servicesFor "team-b")
                            "job-1" exampleSystem))) "job-1"
     = Some (Cancel.mkJob "active"
               (Some [failureDocument "https://example.com/" initialLocals])).
Proof.
  apply (foreign_team_cannot_cancel (servicesFor "team-b") "job-1" exampleSystem
           (Cancel.mkAuthResponse true (Some "team-b") None None));
    reflexivity.
Defined.

(** The owner's cancellation, for comparison: the team is billed for the
    one partial document and the job is moved to [failed]. *)
Example owner_cancels :
  Cancel.crawlCancelController (servicesFor "team-a") "job-1" exampleSystem
  = (Cancel.mkResponse None (Cancel.BodyStatus "cancelled"),
     Cancel.mkSystem
       (Cancel.mkQueue None
          [("job-1", Cancel.mkJob "failed"
                       (Some [failureDocument "https://example.com/"
                                initialLocals]))])
       [(Some "team-a", 1%nat)]).
Proof. reflexivity. Qed.

(* ================================================================== *)
(** * Properties of the [Document] constructor *)
(* ================================================================== *)

Section Constructor.

Variable now : Z.

Lemma constructor_throws_iff (data : PartialDocument) :
  (exists e, Document_constructor now data = Throw e)
  <-> (pd_content data = None \/ pd_content data = Some "").
Proof.
  unfold Document_constructor.
  destruct (pd_content data) as [[| c s] |]; simpl; split.
  - auto.
  - intros _. eexists. reflexivity.
  - intros [e H]. discriminate.
  - intros [H | H]; discriminate.
  - auto.
  - intros _. eexists. reflexivity.
Qed.

Lemma constructor_content (data : PartialDocument) (d : Document) :
  Document_constructor now data = Ok d ->
  pd_content data = Some (content d) /\ content d <> "".
Proof.
  unfold Document_constructor.
  destruct (pd_content data) as [[| c s] |]; simpl; try discriminate.
  intros H. inversion H. simpl. split; [reflexivity | discriminate].
Qed.

End Constructor.

(** C10. The constructor of [Document] throws exactly when the [content]
    of its argument is absent or empty; so every document it builds has the
    content of its argument, which is not empty; and no call of the
    constructor gives the empty-content document that [scrapSingleUrl]
    returns on failure. *)
Theorem constructor_requires_content :
  (forall now data,
      (exists e, Document_constructor now data = Throw e)
      <-> (pd_content data = None \/ pd_content data = Some ""))
  /\ (forall now data d,
      Document_constructor now data = Ok d ->
      pd_content data = Some (content d) /\ content d <> "")
  /\ (forall now data urlToScrap st,
      Document_constructor now data <> Ok (failureDocument urlToScrap st)).
Proof.
  split; [exact constructor_throws_iff |].
  split; [exact constructor_content |].
  intros now data urlToScrap st H.
  apply constructor_content in H. destruct H as [_ H]. now apply H.
Qed.

Lemma constructor_requires_content_witness :
  Document_constructor 1700000000 helloData
    = Ok {| content := "hello"; markdown := Some ""; html := None;
            rawHtml := None; linksOnPage := None;
            createdAt := Some 1700000000%Z; updatedAt := Some 1700000000%Z;
            type := Some "unknown";
            metadata := mkMetadata [] None (Some "") None None;
            childrenLinks := None; provider := None |}
  /\ pd_content helloData = Some "hello"
  /\ "hello" <> "".
Proof.
  assert (E : Document_constructor 1700000000 helloData
              = Ok {| content := "hello"; markdown := Some ""; html := None;
                      rawHtml := None; linksOnPage := None;
                      createdAt := Some 1700000000%Z;
                      updatedAt := Some 1700000000%Z;
                      type := Some "unknown";
                      metadata := mkMetadata [] None (Some "") None None;
                      childrenLinks := None; provider := None |})
    by reflexivity.
  split; [exact E |].
  destruct constructor_requires_content as [_ [H _]].
  exact (H _ _ _ E).
Defined.

(* ================================================================== *)
(** * The backend order in closed form *)
(* ================================================================== *)

Section OrderClosedForm.

Lemma keepFirstFrom_not_seen (seen l : list string) (y : string) :
  In y (keepFirstFrom seen l) -> ~ In y seen.
Proof.
  revert seen. induction l as [| x l IH]; intros seen H; simpl in H.
  - destruct H.
  - destruct (JS.includes seen x) eqn:E.
    + now apply IH.
    + destruct H as [<- | H].
      * now apply includes_false.
      * apply IH in H. intros F. apply H. now right.
Qed.

Lemma keepFirstFrom_ext (s1 s2 l : list string) :
  (forall y, In y s1 <-> In y s2) ->
  keepFirstFrom s1 l = keepFirstFrom s2 l.
Proof.
  revert s1 s2. induction l as [| x l IH]; intros s1 s2 H; simpl.
  - reflexivity.
  - rewrite (includes_same s2 s1 x H).
    destruct (JS.includes s2 x).
    + now apply IH.
    + f_equal. apply IH. intros y. simpl. now rewrite H.
Qed.

Lemma filter_absent (d : string) (l : list string) :
  ~ In d l -> filter (fun y => negb (y =? d)) l = l.
Proof.
  induction l as [| x l IH]; intros H; simpl.
  - reflexivity.
  - destruct (x =? d) eqn:E.
    + apply String.eqb_eq in E. subst. exfalso. apply H. now left.
    + simpl. f_equal. apply IH. intros F. apply H. now right.
Qed.

(** Seeing one more value beforehand is filtering it out afterwards. *)
Lemma keepFirstFrom_cons (d : string) (seen l : list string) :
  keepFirstFrom (d :: seen) l
  = filter (fun y => negb (y =? d)) (keepFirstFrom seen l).
Proof.
  revert seen. induction l as [| x l IH]; intros seen; simpl.
  - reflexivity.
  - destruct (JS.includes seen x) eqn:E.
    + rewrite orb_true_r. apply IH.
    + rewrite orb_false_r. destruct (x =? d) eqn:D.
      * apply String.eqb_eq in D. subst x. simpl. rewrite String.eqb_refl. simpl.
        rewrite filter_absent; [reflexivity |].
        intros F. apply keepFirstFrom_not_seen in F. apply F. now left.
      * simpl. rewrite D. simpl. f_equal. rewrite <- IH.
        apply keepFirstFrom_ext. intros y. simpl. tauto.
Qed.

Lemma set_of_array_cons (d : string) (l : list string) :
  JS.set_of_array (d :: l)
  = d :: filter (fun y => negb (y =? d)) (JS.set_of_array l).
Proof.
  rewrite !set_of_array_keepFirst. unfold keepFirst. simpl.
  now rewrite keepFirstFrom_cons.
Qed.

(** The two arrays the set is filled from, one after the other, give the
    configured scrapers in the default order. *)
Lemma default_part_closed (e : Env) (a b c : bool) :
  JS.set_of_array
    (filter (JS.includes (availableScrapers e)) (defaultOrder a b c)
     ++ availableScrapers e)
  = filter (scraperConfigured e) (defaultOrder a b c).
Proof.
  destruct e as [[[| ? ?] |] [[| ? ?] |] [[| ? ?] |]];
    destruct a, b, c; reflexivity.
Qed.

End OrderClosedForm.

(** X1. Without a per-domain override (absent or empty), the fallback order
    is the default order restricted to the configured scrapers: ScrapingBee,
    Fire-Engine, Playwright, ScrapingBee with load, fetch, or, when a wait,
    a screenshot or headers are asked for, Fire-Engine and Playwright
    first. *)
Theorem order_without_override (e : Env) (d : option string) (a b c : bool) :
  JS.truthy_string d = false ->
  getScrapingFallbackOrder e d a b c
  = filter (scraperConfigured e) (defaultOrder a b c).
Proof.
  intros H. unfold getScrapingFallbackOrder.
  destruct d as [d |]; [rewrite H |]; apply default_part_closed.
Qed.

Lemma order_without_override_witness :
  getScrapingFallbackOrder fireEngineEnv (Some "") true false false
  = filter (scraperConfigured fireEngineEnv) (defaultOrder true false false).
Proof. apply order_without_override. reflexivity. Defined.

(** X2. A per-domain override that is not empty comes first and occurs
    once; after it come the configured scrapers of the default order other
    than the override itself. *)
Theorem order_with_override (e : Env) (s : string) (a b c : bool) :
  JS.truthy_string (Some s) = true ->
  getScrapingFallbackOrder e (Some s) a b c
  = s :: filter (fun y => negb (y =? s))
           (filter (scraperConfigured e) (defaultOrder a b c)).
Proof.
  intros H. unfold getScrapingFallbackOrder. rewrite H.
  now rewrite set_of_array_cons, default_part_closed.
Qed.

Lemma order_with_override_witness :
  getScrapingFallbackOrder fullEnv (Some "playwright") false false false
  = "playwright"
      :: filter (fun y => negb (y =? "playwright"))
           (filter (scraperConfigured fullEnv) (defaultOrder false false false)).
Proof. apply order_with_override. reflexivity. Defined.

(* ================================================================== *)
(** * Invariants of a fetch *)
(* ================================================================== *)

Section FetchInvariants.

Variable w : World.
Variable pageOptions : PageOptions.
Variable extractorOptions : ExtractorOptions.

Lemma trim_start_length (s : string) :
  (String.length (JS.trim_start s) <= String.length s)%nat.
Proof.
  induction s as [| c s IH]; simpl; [lia |].
  destruct (JS.is_white c); simpl; lia.
Qed.

Lemma trim_end_length (s : string) :
  (String.length (JS.trim_end s) <= String.length s)%nat.
Proof.
  induction s as [| c s IH]; simpl; [lia |].
  destruct (JS.trim_end s); [destruct (JS.is_white c) |]; simpl in *; lia.
Qed.

Lemma trim_length (s : string) :
  (String.length (JS.trim s) <= String.length s)%nat.
Proof.
  unfold JS.trim. etransitivity; [apply trim_end_length | apply trim_start_length].
Qed.

Lemma short_not_longEnough (s : string) :
  (String.length s < 100)%nat -> longEnough s = false.
Proof.
  intros H. unfold longEnough. apply andb_false_iff. right.
  apply Nat.leb_gt. pose proof (trim_length s). lia.
Qed.

(** The loop reads [existingHtml] only to decide whether it is usable. *)
Lemma fallbackLoop_unusable (urlToScrap ex1 ex2 : string)
    (scrapers : list string) (st : Locals) (h : History) :
  longEnough ex1 = false -> longEnough ex2 = false ->
  fallbackLoop w pageOptions urlToScrap ex1 scrapers st h
  = fallbackLoop w pageOptions urlToScrap ex2 scrapers st h.
Proof.
  intros H1 H2. revert st h.
  induction scrapers as [| s rest IH]; intros st h; simpl; [reflexivity |].
  rewrite H1, H2.
  destruct (attemptScraping w pageOptions urlToScrap s h) as [[a | e] h'];
    [| reflexivity].
  destruct (stopsAfter (recordAttempt st a)); [reflexivity | apply IH].
Qed.

(** The status code is never 0, and an error is kept only with a status
    code of at least 400. *)
Lemma recordAttempt_keeps (st : Locals) (a : Attempt) :
  l_pageStatusCode st <> 0%Z ->
  (forall e, l_pageError st = Some e -> e <> "" /\ (400 <= l_pageStatusCode st)%Z) ->
  l_pageStatusCode (recordAttempt st a) <> 0%Z
  /\ (forall e, l_pageError (recordAttempt st a) = Some e ->
                e <> "" /\ (400 <= l_pageStatusCode (recordAttempt st a))%Z).
Proof.
  intros Hs He. unfold recordAttempt. simpl.
  destruct (at_pageStatusCode a) as [c |]; simpl.
  - destruct (c =? 0)%Z eqn:Z0; simpl.
    + apply Z.eqb_eq in Z0. subst c. simpl. rewrite andb_false_r.
      split; [exact Hs | exact He].
    + apply Z.eqb_neq in Z0. split; [exact Z0 |].
      destruct (Z.leb_spec 400 c) as [L | L].
      * rewrite andb_true_r.
        destruct (at_pageError a) as [[| x s] |]; simpl; intros e E.
        -- destruct (Z.ltb_spec c 400); [lia |].
           destruct (He e E). split; [assumption | lia].
        -- inversion E. split; [discriminate | lia].
        -- destruct (Z.ltb_spec c 400); [lia |].
           destruct (He e E). split; [assumption | lia].
      * rewrite andb_false_r. destruct (Z.ltb_spec c 400); [| lia].
        intros e E. discriminate.
  - rewrite andb_false_r. split; [exact Hs | exact He].
Qed.

Lemma fallbackLoop_keeps (urlToScrap existingHtml : string)
    (scrapers : list string) (st : Locals) (h : History) :
  l_pageStatusCode st <> 0%Z ->
  (forall e, l_pageError st = Some e -> e <> "" /\ (400 <= l_pageStatusCode st)%Z) ->
  let st' := snd (fst (fallbackLoop w pageOptions urlToScrap existingHtml
                         scrapers st h)) in
  l_pageStatusCode st' <> 0%Z
  /\ (forall e, l_pageError st' = Some e ->
                e <> "" /\ (400 <= l_pageStatusCode st')%Z).
Proof.
  revert st h. induction scrapers as [| s rest IH]; intros st h Hs He; simpl.
  - auto.
  - destruct (longEnough existingHtml); [simpl; auto |].
    destruct (attemptScraping w pageOptions urlToScrap s h) as [[a | e] h'];
      [| simpl; auto].
    destruct (recordAttempt_keeps st a Hs He) as [Hs' He'].
    destruct (stopsAfter (recordAttempt st a)); [simpl; auto |].
    now apply IH.
Qed.

(** What every document [scrapSingleUrl] returns has in common: it is
    built from the variables the loop leaves, and the history is that of
    the loop. *)
Lemma scrapSingleUrl_shape (urlToScrap existingHtml : string) (h : History) :
  let r := fallbackLoop w pageOptions (JS.trim urlToScrap) existingHtml
             (scrapersInOrder w pageOptions (JS.trim urlToScrap))
             initialLocals h in
  exists d,
    scrapSingleUrl w urlToScrap pageOptions extractorOptions existingHtml h
      = (Ok d, snd r)
    /\ sourceURL (metadata d) = Some (JS.trim urlToScrap)
    /\ pageStatusCode (metadata d) = Some (l_pageStatusCode (snd (fst r)))
    /\ pageError (metadata d) = l_pageError (snd (fst r))
    /\ markdown d = Some (content d)
    /\ (exists links, linksOnPage d = Some links)
    /\ (content d = "" \/ content d = l_text (snd (fst r))).
Proof.
  unfold scrapSingleUrl, scrapSingleUrl_try.
  destruct (fallbackLoop w pageOptions (JS.trim urlToScrap) existingHtml
              (scrapersInOrder w pageOptions (JS.trim urlToScrap))
              initialLocals h) as [[x st] h'].
  assert (F : exists d,
             (Ok (failureDocument (JS.trim urlToScrap) st), h') = (Ok d, h')
             /\ sourceURL (metadata d) = Some (JS.trim urlToScrap)
             /\ pageStatusCode (metadata d) = Some (l_pageStatusCode st)
             /\ pageError (metadata d) = l_pageError st
             /\ markdown d = Some (content d)
             /\ (exists links, linksOnPage d = Some links)
             /\ (content d = "" \/ content d = l_text st)).
  { eexists. split; [reflexivity |]. simpl. repeat split; eauto. }
  assert (G : match x with
              | Threw e0 => True
              | _ =>
                  exists d,
                    (let (p, h'0) :=
                       if negb (JS.truthy_string (Some (l_text st)))
                       then (Throw (allMethodsFailed (JS.trim urlToScrap)), st, h')
                       else
                         match extractLinks w (l_rawHtml st) (JS.trim urlToScrap) with
                         | Ok links =>
                             (Ok (successDocument w pageOptions extractorOptions
                                    (JS.trim urlToScrap) st links), st, h')
                         | Throw e => (@Throw Document e, st, h')
                         end in
                     let (o, st0) := p in
                     match o with
                     | Ok document => (Ok document, h'0)
                     | Throw _ =>
                         (Ok (failureDocument (JS.trim urlToScrap) st0), h'0)
                     end) = (Ok d, h')
                    /\ sourceURL (metadata d) = Some (JS.trim urlToScrap)
                    /\ pageStatusCode (metadata d) = Some (l_pageStatusCode st)
                    /\ pageError (metadata d) = l_pageError st
                    /\ markdown d = Some (content d)
                    /\ (exists links, linksOnPage d = Some links)
                    /\ (content d = "" \/ content d = l_text st)
              end).
  { destruct x; try exact I;
      (destruct (negb (JS.truthy_string (Some (l_text st)))); [exact F |];
       destruct (extractLinks w (l_rawHtml st) (JS.trim urlToScrap)) as [links | e];
       [| exact F];
       eexists; split; [reflexivity |]; simpl; repeat split; eauto). }
  destruct x; simpl; [exact G | exact G | exact F].
Qed.

End FetchInvariants.

Section FetchProperties.

Variable w : World.
Variable pageOptions : PageOptions.
Variable extractorOptions : ExtractorOptions.

Lemma order_length (e : Env) (d : option string) (a b c : bool) :
  (List.length (getScrapingFallbackOrder e d a b c) <= 6)%nat.
Proof.
  assert (D : (List.length (filter (scraperConfigured e) (defaultOrder a b c))
               <= 5)%nat).
  { etransitivity; [apply filter_length_le |]. destruct a, b, c; simpl; lia. }
  unfold getScrapingFallbackOrder.
  destruct d as [d |]; [destruct (JS.truthy_string (Some d)) |];
    rewrite ?set_of_array_cons, default_part_closed; simpl; try lia.
  pose proof (filter_length_le (fun y => negb (y =? d))
                (filter (scraperConfigured e) (defaultOrder a b c))).
  lia.
Qed.

(** X3. Every call of [scrapSingleUrl] returns a document (its [catch]
    absorbs whatever a collaborator throws) whose [sourceURL] is the
    trimmed URL, whose [markdown] equals its [content] and whose
    [linksOnPage] is present. *)
Theorem document_names_its_source (urlToScrap existingHtml : string)
    (h : History) :
  exists d,
    fst (scrapSingleUrl w urlToScrap pageOptions extractorOptions
           existingHtml h) = Ok d
    /\ sourceURL (metadata d) = Some (JS.trim urlToScrap)
    /\ markdown d = Some (content d)
    /\ exists links, linksOnPage d = Some links.
Proof.
  destruct (scrapSingleUrl_shape w pageOptions extractorOptions urlToScrap
              existingHtml h) as [d [E [S [_ [_ [M [L _]]]]]]].
  exists d. rewrite E. auto.
Qed.

(** X4. In every document [scrapSingleUrl] returns, the status code is
    present and not 0, and a [pageError] is present only as a non-empty
    text beside a status code of at least 400. *)
Theorem page_error_needs_error_status (urlToScrap existingHtml : string)
    (h : History) :
  exists d c,
    fst (scrapSingleUrl w urlToScrap pageOptions extractorOptions
           existingHtml h) = Ok d
    /\ pageStatusCode (metadata d) = Some c
    /\ c <> 0%Z
    /\ forall e, pageError (metadata d) = Some e -> e <> "" /\ (400 <= c)%Z.
Proof.
  destruct (scrapSingleUrl_shape w pageOptions extractorOptions urlToScrap
              existingHtml h) as [d [E [_ [S [P _]]]]].
  destruct (fallbackLoop_keeps w pageOptions (JS.trim urlToScrap) existingHtml
              (scrapersInOrder w pageOptions (JS.trim urlToScrap))
              initialLocals h) as [K1 K2].
  - discriminate.
  - discriminate.
  - eexists d, _. rewrite E. split; [reflexivity |]. split; [exact S |].
    split; [exact K1 |]. intros e He. apply K2. now rewrite <- P.
Qed.

(** X5. An [existingHtml] shorter than 100 characters has no effect: the
    fetch goes as with none. *)
Theorem short_existing_html_is_ignored (urlToScrap existingHtml : string)
    (h : History) :
  (String.length existingHtml < 100)%nat ->
  scrapSingleUrl w urlToScrap pageOptions extractorOptions existingHtml h
  = scrapSingleUrl w urlToScrap pageOptions extractorOptions "" h.
Proof.
  intros H. unfold scrapSingleUrl, scrapSingleUrl_try.
  rewrite (fallbackLoop_unusable w pageOptions (JS.trim urlToScrap)
             existingHtml "" _ _ _ (short_not_longEnough _ H) eq_refl).
  reflexivity.
Qed.

(** X6. A collaborator that throws during an attempt ends the fetch: no
    scraper after it is attempted, and the document returned is the failure
    document with the status code and the error recorded before. *)
Theorem thrown_error_ends_fetch (urlToScrap existingHtml : string)
    (pre post : list string) (m : string) (st1 : Locals) (h h1 h2 : History)
    (e : JsError) :
  scrapersInOrder w pageOptions (JS.trim urlToScrap) = pre ++ m :: post ->
  longEnough existingHtml = false ->
  fallbackLoop w pageOptions (JS.trim urlToScrap) existingHtml pre
    initialLocals h = (Exhausted, st1, h1) ->
  attemptScraping w pageOptions (JS.trim urlToScrap) m h1 = (Throw e, h2) ->
  scrapSingleUrl w urlToScrap pageOptions extractorOptions existingHtml h
    = (Ok (failureDocument (JS.trim urlToScrap) st1), h2)
  /\ attempted h2 = attempted h ++ pre ++ [m].
Proof.
  intros Horder Hex Hpre Ha. split.
  - unfold scrapSingleUrl, scrapSingleUrl_try.
    rewrite Horder, fallbackLoop_app, Hpre. simpl fallbackLoop.
    rewrite Hex, Ha. reflexivity.
  - apply (fallbackLoop_exhausted _ _ _ _ _ _ _ _ _ Hex) in Hpre.
    pose proof (attemptScraping_attempted w pageOptions (JS.trim urlToScrap)
                  m h1) as A.
    rewrite Ha in A. simpl in A. rewrite A, Hpre, <- app_assoc. reflexivity.
Qed.

(** X7. For a URL that does not parse, [scrapSingleUrl] returns the
    failure document whatever the backends answer: the content is empty
    and the list of links is empty. *)
Theorem unparsable_url_always_fails (urlToScrap existingHtml : string)
    (h : History) :
  newURL w (JS.trim urlToScrap) = None ->
  exists d,
    fst (scrapSingleUrl w urlToScrap pageOptions extractorOptions
           existingHtml h) = Ok d
    /\ content d = ""
    /\ html d = Some ""
    /\ linksOnPage d = Some [].
Proof.
  intros U. unfold scrapSingleUrl, scrapSingleUrl_try.
  destruct (fallbackLoop w pageOptions (JS.trim urlToScrap) existingHtml
              (scrapersInOrder w pageOptions (JS.trim urlToScrap))
              initialLocals h) as [[x st] h'].
  assert (F : exists d,
             fst (Ok (failureDocument (JS.trim urlToScrap) st), h') = Ok d
             /\ content d = "" /\ html d = Some "" /\ linksOnPage d = Some []).
  { eexists. simpl. eauto. }
  destruct x; try exact F;
    (destruct (negb (JS.truthy_string (Some (l_text st)))); [exact F |];
     rewrite (extractLinks_invalid _ _ _ U); exact F).
Qed.

(** X8. A fetch makes at most six attempts: the five scrapers and the
    per-domain override. *)
Theorem at_most_six_attempts (urlToScrap existingHtml : string) (h : History) :
  (List.length (attempted (snd (scrapSingleUrl w urlToScrap pageOptions
                                  extractorOptions existingHtml h)))
   <= List.length (attempted h) + 6)%nat.
Proof.
  rewrite scrapSingleUrl_history.
  destruct (fallbackLoop_attempted w pageOptions (JS.trim urlToScrap)
              existingHtml (scrapersInOrder w pageOptions (JS.trim urlToScrap))
              initialLocals h) as [pre [post [E H]]].
  rewrite H, length_app.
  pose proof (order_length (env w) (defaultScraperFor w (JS.trim urlToScrap))
                (JS.truthy_number (waitFor pageOptions)
                 && match waitFor pageOptions with
                    | Some n => (0 <? n)%Z | None => false end)
                (JS.truthy_bool (screenshot pageOptions))
                (match headers pageOptions with Some _ => true | None => false end))
    as L.
  fold (scrapersInOrder w pageOptions (JS.trim urlToScrap)) in L.
  rewrite E, length_app in L. lia.
Qed.

(** The first [switch] does nothing for a scraper whose configuration is
    absent and for a name that is none of the five. *)
Lemma scrapeWith_unconfigured (url method : string) (h : History) :
  scraperConfigured (env w) method = false \/ ~ In method baseScrapers ->
  scrapeWith w pageOptions url method h
  = (Ok (mkScraperResponse "" "" None None), h).
Proof.
  unfold scrapeWith, scraperConfigured. intros H.
  destruct (method =? "fire-engine") eqn:E1.
  { apply String.eqb_eq in E1. subst method. simpl in H.
    destruct H as [H | H]; [now rewrite H | exfalso; apply H; simpl; tauto]. }
  destruct (method =? "scrapingBee") eqn:E2.
  { apply String.eqb_eq in E2. subst method. simpl in H.
    destruct H as [H | H]; [now rewrite H | exfalso; apply H; simpl; tauto]. }
  destruct (method =? "playwright") eqn:E3.
  { apply String.eqb_eq in E3. subst method. simpl in H.
    destruct H as [H | H]; [now rewrite H | exfalso; apply H; simpl; tauto]. }
  destruct (method =? "scrapingBeeLoad") eqn:E4.
  { apply String.eqb_eq in E4. subst method. simpl in H.
    destruct H as [H | H]; [now rewrite H | exfalso; apply H; simpl; tauto]. }
  destruct (method =? "fetch") eqn:E5; [| reflexivity].
  apply String.eqb_eq in E5. subst method. simpl in H.
  destruct H as [H | H]; [discriminate | exfalso; apply H; simpl; tauto].
Qed.

(** X9. An attempt with a scraper whose configuration is absent, or with a
    name that is none of the five scrapers, sends no request to a backend
    of its own: the attempt is the custom scraping hook run on the empty
    text, and it reports no status code, no error and no screenshot.  When
    the rules of the hook ask for nothing, the attempt sends no request at
    all and its raw text is empty. *)
Theorem unconfigured_backend_is_not_requested (url method : string)
    (h : History) :
  scraperConfigured (env w) method = false \/ ~ In method baseScrapers ->
  attemptScraping w pageOptions url method h
  = match customScrape w pageOptions "" url (h ++ [EvAttempt method url]) with
    | (Ok custom, h') =>
        let text := match custom with
                    | Some c => fe_html c
                    | None => ""
                    end in
        let cleanedHtml := removeUnwantedElements w text pageOptions in
        (Ok (mkAttempt (parseMarkdown w cleanedHtml) cleanedHtml text ""
                       None None), h')
    | (Throw e, h') => (Throw e, h')
    end
  /\ (handleCustomScraping w (h ++ [EvAttempt method url]) "" url = Ok None ->
      snd (attemptScraping w pageOptions url method h)
      = h ++ [EvAttempt method url]
      /\ exists a,
          fst (attemptScraping w pageOptions url method h) = Ok a
          /\ at_rawHtml a = "").
Proof.
  intros H.
  assert (E : attemptScraping w pageOptions url method h
    = match customScrape w pageOptions "" url (h ++ [EvAttempt method url]) with
      | (Ok custom, h') =>
          let text := match custom with
                      | Some c => fe_html c
                      | None => ""
                      end in
          let cleanedHtml := removeUnwantedElements w text pageOptions in
          (Ok (mkAttempt (parseMarkdown w cleanedHtml) cleanedHtml text ""
                         None None), h')
      | (Throw e, h') => (Throw e, h')
      end).
  { unfold attemptScraping, bind, emit.
    rewrite (scrapeWith_unconfigured url method _ H). simpl.
    destruct (customScrape w pageOptions "" url (h ++ [EvAttempt method url]))
      as [[custom | e] h']; reflexivity. }
  split; [exact E |].
  intros Hook. rewrite E. unfold customScrape, bind. rewrite Hook. simpl.
  split; [reflexivity |]. eexists. split; reflexivity.
Qed.

End FetchProperties.

Lemma page_error_needs_error_status_witness :
  exists d c,
    fst (scrapSingleUrl notFoundWorld "https://example.com/missing"
           defaultPageOptions defaultExtractorOptions "" []) = Ok d
    /\ pageStatusCode (metadata d) = Some c
    /\ c <> 0%Z
    /\ forall e, pageError (metadata d) = Some e -> e <> "" /\ (400 <= c)%Z.
Proof.
  exact (page_error_needs_error_status notFoundWorld defaultPageOptions
           defaultExtractorOptions "https://example.com/missing" "" []).
Defined.

Lemma short_existing_html_is_ignored_witness :
  scrapSingleUrl pageWorld "https://example.com/" defaultPageOptions
    defaultExtractorOptions "<html><body>Loading...</body></html>" []
  = scrapSingleUrl pageWorld "https://example.com/" defaultPageOptions
      defaultExtractorOptions "" [].
Proof.
  apply short_existing_html_is_ignored. vm_compute. lia.
Defined.

Lemma thrown_error_ends_fetch_witness :
  scrapSingleUrl throwingWorld "https://example.com/" defaultPageOptions
    defaultExtractorOptions "" []
  = (Ok (failureDocument (JS.trim "https://example.com/")
           (mkLocals "" "" "" "" 500%Z (Some "Internal Server Error"))),
     [EvAttempt "scrapingBee" "https://example.com/";
      EvScrapingBee "https://example.com/" "domcontentloaded";
      EvAttempt "scrapingBeeLoad" "https://example.com/";
      EvScrapingBee "https://example.com/" "networkidle2"])
  /\ attempted [EvAttempt "scrapingBee" "https://example.com/";
                EvScrapingBee "https://example.com/" "domcontentloaded";
                EvAttempt "scrapingBeeLoad" "https://example.com/";
                EvScrapingBee "https://example.com/" "networkidle2"]
     = attempted [] ++ ["scrapingBee"] ++ ["scrapingBeeLoad"].
Proof.
  apply (thrown_error_ends_fetch throwingWorld defaultPageOptions
           defaultExtractorOptions "https://example.com/" ""
           ["scrapingBee"] ["fetch"] "scrapingBeeLoad"
           (mkLocals "" "" "" "" 500%Z (Some "Internal Server Error")) []
           [EvAttempt "scrapingBee" "https://example.com/";
            EvScrapingBee "https://example.com/" "domcontentloaded"]
           _ socketHangUp);
    reflexivity.
Defined.

Lemma unparsable_url_always_fails_witness :
  newURL pageWorld (JS.trim "not a url") = None
  /\ exists d,
      fst (scrapSingleUrl pageWorld "not a url" defaultPageOptions
             defaultExtractorOptions "" []) = Ok d
      /\ content d = ""
      /\ html d = Some ""
      /\ linksOnPage d = Some [].
Proof.
  assert (H : newURL pageWorld (JS.trim "not a url") = None) by reflexivity.
  split; [exact H |].
  exact (unparsable_url_always_fails pageWorld defaultPageOptions
           defaultExtractorOptions "not a url" "" [] H).
Defined.

Lemma unconfigured_backend_is_not_requested_witness :
  attemptScraping overrideWorld defaultPageOptions
    "https://www.docs.example.com/guide" "playwright" []
  = (Ok (mkAttempt "" "" "" "" None None),
     [EvAttempt "playwright" "https://www.docs.example.com/guide"]).
Proof.
  rewrite (proj1 (unconfigured_backend_is_not_requested overrideWorld
                    defaultPageOptions "https://www.docs.example.com/guide"
                    "playwright" [] (or_introl eq_refl))).
  reflexivity.
Defined.

(* ================================================================== *)
(** * Properties of [scrapWithFireEngine] and [generateRequestParams] *)
(* ================================================================== *)

Section FireEngine.

Variable w : World.

(** The endpoint a call posts to. *)
Local Abbreviation endpointOf a :=
  (match fa_endpoint a with
   | Some "request" => "/request"
   | _ => "/scrape"
   end).

(** X10. One call of [scrapWithFireEngine] sends exactly one POST to
    Fire-Engine, and after it one PDF fetch of the same URL only when the
    POST was answered 200 with a PDF content type. *)
Theorem fire_engine_sends_one_request (a : FireEngineArgs) (h : History) :
  snd (scrapWithFireEngine w a h)
    = h ++ [EvFireEngine (endpointOf a) (fa_url a)]
  \/ (snd (scrapWithFireEngine w a h)
        = (h ++ [EvFireEngine (endpointOf a) (fa_url a)]) ++ [EvPdf (fa_url a)]
      /\ exists wait shot response,
          axios_post w h (endpointOf a) (fa_url a) wait shot = Ok response
          /\ ax_status response = 200%Z
          /\ isPdf (ax_contentType response) = true).
Proof.
  unfold scrapWithFireEngine. cbv zeta.
  destruct (axios_post w h _ _ _ _) as [response | e] eqn:P; [| now left].
  destruct (ax_status response =? 200)%Z eqn:S; simpl; [| now left].
  destruct (isPdf (ax_contentType response)) eqn:C.
  - right. split.
    + destruct (fetchAndProcessPdf w _ _ _); reflexivity.
    + eexists _, _, response. split; [exact P |].
      split; [now apply Z.eqb_eq | exact C].
  - left. destruct (ax_data response); reflexivity.
Qed.

(** X11. The answer of [scrapWithFireEngine] carries a text or a
    screenshot only when the POST was answered with status 200; a thrown
    error, a timeout and every other status give both empty. *)
Theorem fire_engine_html_needs_200 (a : FireEngineArgs) (h : History) :
  fe_html (fst (scrapWithFireEngine w a h)) <> ""
  \/ fe_screenshot (fst (scrapWithFireEngine w a h)) <> "" ->
  exists wait shot response,
    axios_post w h (endpointOf a) (fa_url a) wait shot = Ok response
    /\ ax_status response = 200%Z.
Proof.
  unfold scrapWithFireEngine. cbv zeta.
  destruct (axios_post w h _ _ _ _) as [response | e] eqn:P.
  - destruct (ax_status response =? 200)%Z eqn:S; simpl.
    + intros _. eexists _, _, response. split; [exact P | now apply Z.eqb_eq].
    + intros [H | H]; now elim H.
  - simpl. intros [H | H]; now elim H.
Qed.

(** X12. When the per-domain table sets a wait for the host, the wait the
    caller passes plays no part in the request. *)
Theorem site_wait_overrides_caller (url : string) (n : Z)
    (wait1 wait2 : option Z) (shot parse : option bool) (ep : option string)
    (h : History) :
  sp_wait (generateRequestParams w url) = Some n ->
  scrapWithFireEngine w (mkFEArgs url wait1 shot parse ep) h
  = scrapWithFireEngine w (mkFEArgs url wait2 shot parse ep) h.
Proof.
  intros H. unfold scrapWithFireEngine. simpl. rewrite H. reflexivity.
Qed.

Lemma substring_all (s : string) : substring 0 (String.length s) s = s.
Proof. induction s as [| c s IH]; simpl; [reflexivity | now rewrite IH]. Qed.

Lemma strip_www_prefixed (host : string) :
  JS.strip_www ("www." ++ host)%string = host.
Proof.
  unfold JS.strip_www, JS.startsWith. simpl.
  rewrite Nat.sub_0_r.
  assert (P : String.prefix "" host = true) by (destruct host; reflexivity).
  rewrite P. apply substring_all.
Qed.

Lemma strip_www_plain (host : string) :
  JS.startsWith host "www." = false -> JS.strip_www host = host.
Proof. intros H. unfold JS.strip_www. now rewrite H. Qed.

(** X13. The per-domain table is looked up by the host name without one
    leading [www.]: two URLs whose hosts differ only by that prefix get the
    same request parameters and the same default scraper. *)
Theorem www_prefix_is_ignored (url1 url2 host : string) (u1 u2 : URL) :
  newURL w url1 = Some u1 ->
  newURL w url2 = Some u2 ->
  hostname u1 = ("www." ++ host)%string ->
  hostname u2 = host ->
  JS.startsWith host "www." = false ->
  generateRequestParams w url1 = generateRequestParams w url2
  /\ defaultScraperFor w url1 = defaultScraperFor w url2.
Proof.
  intros U1 U2 H1 H2 P.
  unfold generateRequestParams, defaultScraperFor.
  rewrite U1, U2, H1, H2, strip_www_prefixed, (strip_www_plain host P).
  split; reflexivity.
Qed.

End FireEngine.

Lemma fire_engine_html_needs_200_witness :
  exists wait shot response,
    axios_post waitingWorld [] "/scrape" "https://example.com/" wait shot
      = Ok response
    /\ ax_status response = 200%Z.
Proof.
  apply (fire_engine_html_needs_200 waitingWorld
           (mkFEArgs "https://example.com/" (Some 0%Z) None None None) []).
  left. discriminate.
Defined.

Lemma site_wait_overrides_caller_witness :
  scrapWithFireEngine waitingWorld
    (mkFEArgs "https://example.com/" (Some 0%Z) None None None) []
  = scrapWithFireEngine waitingWorld
      (mkFEArgs "https://example.com/" (Some 9000%Z) None None None) []
  /\ fe_pageStatusCode
       (fst (scrapWithFireEngine waitingWorld
               (mkFEArgs "https://example.com/" (Some 9000%Z) None None None) []))
     = Some 2000%Z.
Proof.
  split; [| reflexivity].
  apply (site_wait_overrides_caller waitingWorld "https://example.com/" 2000).
  reflexivity.
Defined.

Lemma www_prefix_is_ignored_witness :
  generateRequestParams wwwWorld "https://www.example.com/guide"
  = generateRequestParams wwwWorld "https://example.com/guide"
  /\ defaultScraperFor wwwWorld "https://www.example.com/guide"
     = defaultScraperFor wwwWorld "https://example.com/guide".
Proof.
  apply (www_prefix_is_ignored wwwWorld
           "https://www.example.com/guide" "https://example.com/guide"
           "example.com"
           (mkURL "www.example.com" "https://www.example.com")
           (mkURL "example.com" "https://example.com"));
    reflexivity.
Defined.

(* ================================================================== *)
(** * Further properties of [extractLinks] *)
(* ================================================================== *)

Section LinkShape.

Lemma keepFirstFrom_length (seen l : list string) :
  (List.length (keepFirstFrom seen l) <= List.length l)%nat.
Proof.
  revert seen. induction l as [| x l IH]; intros seen; simpl; [lia |].
  destruct (JS.includes seen x); simpl.
  - specialize (IH seen). lia.
  - specialize (IH (x :: seen)). lia.
Qed.

Lemma resolveHref_length (origin baseUrl : string) (href : option string) :
  (List.length (resolveHref origin baseUrl href) <= 1)%nat.
Proof.
  unfold resolveHref. destruct href as [[| c s] |]; simpl; try lia.
  repeat match goal with
         | |- context [if ?b then _ else _] => destruct b
         end; simpl; lia.
Qed.

Lemma flat_map_resolve_length (origin baseUrl : string)
    (hrefs : list (option string)) :
  (List.length (flat_map (resolveHref origin baseUrl) hrefs)
   <= List.length hrefs)%nat.
Proof.
  induction hrefs as [| a hrefs IH]; simpl; [lia |].
  rewrite length_app. pose proof (resolveHref_length origin baseUrl a). lia.
Qed.

Lemma prefix_nil (s : string) : String.prefix "" s = true.
Proof. destruct s; reflexivity. Qed.

Lemma prefix_app (a b c : string) :
  String.prefix (a ++ b) (a ++ c) = String.prefix b c.
Proof.
  induction a as [| x a IH]; simpl; [reflexivity |].
  destruct (ascii_dec x x) as [_ | N]; [exact IH | now elim N].
Qed.

Variable w : World.

(** [extractLinks] returns at most one link per anchor of the page. *)
Theorem links_bounded_by_anchors (html baseUrl : string) (links : list string) :
  extractLinks w html baseUrl = Ok links ->
  (List.length links <= List.length (anchors w html))%nat.
Proof.
  unfold extractLinks. destruct (newURL w baseUrl) as [u |]; [| discriminate].
  intros E. inversion E. rewrite fold_pushLink. simpl.
  rewrite set_of_array_keepFirst. unfold keepFirst.
  etransitivity; [apply keepFirstFrom_length | apply flat_map_resolve_length].
Qed.

(** X14. Every link [extractLinks] returns is an absolute http(s) URL, a
    [mailto:] link, the page's origin followed by a path, or the base URL
    followed by a slash and the [href]. *)
Theorem links_have_known_form (html baseUrl l : string) (u : URL)
    (links : list string) :
  newURL w baseUrl = Some u ->
  extractLinks w html baseUrl = Ok links ->
  In l links ->
  isHttp l = true
  \/ JS.startsWith l "mailto:" = true
  \/ (exists path, JS.startsWith path "/" = true /\ l = (origin u ++ path)%string)
  \/ JS.startsWith l (baseUrl ++ "/")%string = true.
Proof.
  intros U. unfold extractLinks. rewrite U. intros E. inversion E. clear E.
  rewrite fold_pushLink. simpl. rewrite set_of_array_In, in_flat_map.
  intros [href [_ H]]. unfold resolveHref in H.
  destruct href as [[| c s] |]; try (now destruct H).
  destruct (isHttp (String c s)) eqn:A.
  { destruct H as [<- | []]. now left. }
  destruct (JS.startsWith (String c s) "/") eqn:B.
  { destruct H as [<- | []]. right. right. left. now exists (String c s). }
  destruct (JS.startsWith (String c s) "mailto:") eqn:C.
  { destruct H as [<- | []]. right. now left. }
  destruct (JS.startsWith (String c s) "#"); [now destruct H |].
  destruct H as [<- | []]. right. right. right.
  unfold JS.startsWith. rewrite prefix_app. reflexivity.
Qed.

End LinkShape.

Lemma links_bounded_by_anchors_witness :
  (List.length ["https://a.example/x"; "https://example.com/about";
                "mailto:me@example.com"; "https://example.com/tel:+15551234";
                "https://example.com/docs/intro"]
   <= List.length (anchors pageWorld "<html>"))%nat.
Proof.
  apply (links_bounded_by_anchors pageWorld "<html>" "https://example.com").
  reflexivity.
Defined.

Lemma links_have_known_form_witness :
  isHttp "https://example.com/tel:+15551234" = true
  \/ JS.startsWith "https://example.com/tel:+15551234" "mailto:" = true
  \/ (exists path,
         JS.startsWith path "/" = true
         /\ "https://example.com/tel:+15551234"
            = (origin (mkURL "example.com" "https://example.com") ++ path)%string)
  \/ JS.startsWith "https://example.com/tel:+15551234"
       ("https://example.com" ++ "/")%string = true.
Proof.
  apply (links_have_known_form pageWorld "<html>" "https://example.com"
           "https://example.com/tel:+15551234"
           (mkURL "example.com" "https://example.com")
           ["https://a.example/x"; "https://example.com/about";
            "mailto:me@example.com"; "https://example.com/tel:+15551234";
            "https://example.com/docs/intro"]);
    try reflexivity.
  simpl. tauto.
Defined.

(* ================================================================== *)
(** * Further properties of [getLinksFromSitemap] *)
(* ================================================================== *)

Section SitemapMore.

Variable w : World.
Variable mode : SitemapMode.

Lemma one_more_fuel (fuel : nat) :
  forall sitemapUrl allUrls h r,
    getLinksFromSitemap fuel w mode sitemapUrl allUrls h = Some r ->
    getLinksFromSitemap (S fuel) w mode sitemapUrl allUrls h = Some r.
Proof.
  induction fuel as [| fuel IH]; intros sitemapUrl allUrls h r H.
  - discriminate.
  - rewrite getLinksFromSitemap_S in H. rewrite getLinksFromSitemap_S.
    destruct (requestSitemap w mode sitemapUrl h) as [[content | e] h1];
      [| exact H].
    destruct (parseStringPromise w content) as [parsed |]; [| exact H].
    destruct (nullish (urlset parsed) (sitemapindex parsed)) as [root |];
      [| exact H].
    destruct (sitemap root) as [children |]; [| exact H].
    revert H. generalize (Some (allUrls, h1)).
    induction children as [| c cs IHc]; intros start H.
    + exact H.
    + destruct start as [[all h2] |].
      * rewrite visitChildren_cons in H. rewrite visitChildren_cons.
        destruct (firstLoc c) as [l |]; [| now apply IHc].
        destruct (getLinksFromSitemap fuel w mode l all h2) as [x |] eqn:E.
        -- rewrite (IH _ _ _ _ E). now apply IHc.
        -- rewrite visitChildren_None in H. discriminate.
      * rewrite visitChildren_None in H. discriminate.
Qed.

(** The depth allowed to a traversal only has to be enough: a
    traversal that ends within some depth ends with the same list and the
    same requests within every greater depth. *)
Theorem more_fuel_same_result (fuel extra : nat) (sitemapUrl : string)
    (allUrls : list string) (h : History) (r : list string * History) :
  getLinksFromSitemap fuel w mode sitemapUrl allUrls h = Some r ->
  getLinksFromSitemap (extra + fuel) w mode sitemapUrl allUrls h = Some r.
Proof.
  intros H. induction extra as [| extra IH]; [exact H |].
  simpl. now apply one_more_fuel.
Qed.

(** X15. A traversal never drops or reorders what was collected before:
    the list it returns begins with the list it was given. *)
Theorem sitemap_list_only_grows (fuel : nat) (sitemapUrl : string)
    (allUrls r : list string) (h h' : History) :
  getLinksFromSitemap fuel w mode sitemapUrl allUrls h = Some (r, h') ->
  exists added, r = allUrls ++ added.
Proof. apply getLinksFromSitemap_grows. Qed.

(** A sitemap that is a [urlset] adds the first [loc] of each of its
    entries, in document order and without removing duplicates; entries
    without a [loc] are skipped. *)
Theorem urlset_adds_first_locs (fuel : nat) (sitemapUrl content : string)
    (allUrls : list string) (h h1 : History) (parsed : XmlParsed)
    (root : XmlRoot) (entries : list XmlEntry) :
  requestSitemap w mode sitemapUrl h = (Ok content, h1) ->
  parseStringPromise w content = Some parsed ->
  nullish (urlset parsed) (sitemapindex parsed) = Some root ->
  sitemap root = None ->
  url root = Some entries ->
  getLinksFromSitemap (S fuel) w mode sitemapUrl allUrls h
  = Some (allUrls ++ flat_map (fun entry => match loc entry with
                                            | Some (l :: _) => [l]
                                            | _ => []
                                            end) entries,
          h1).
Proof.
  intros H1 H2 H3 H4 H5.
  rewrite (urlset_collected w mode fuel _ _ _ _ _ _ _ _ H1 H2 H3 H4 H5).
  rewrite pushUrls_appends. do 3 f_equal.
  apply flat_map_ext. intros entry. unfold firstLoc.
  destruct (loc entry) as [[| l ls] |]; reflexivity.
Qed.

(** A sitemap whose text the XML parser rejects, or whose document has
    neither a [urlset] nor a [sitemapindex] root, or a root with neither
    [sitemap] nor [url] children, adds nothing and raises nothing. *)
Theorem unusable_sitemap_contributes_nothing (fuel : nat)
    (sitemapUrl content : string) (allUrls : list string) (h h1 : History) :
  requestSitemap w mode sitemapUrl h = (Ok content, h1) ->
  parseStringPromise w content = None
  \/ (exists parsed,
         parseStringPromise w content = Some parsed
         /\ (nullish (urlset parsed) (sitemapindex parsed) = None
             \/ exists root,
                 nullish (urlset parsed) (sitemapindex parsed) = Some root
                 /\ sitemap root = None /\ url root = None)) ->
  getLinksFromSitemap (S fuel) w mode sitemapUrl allUrls h = Some (allUrls, h1).
Proof.
  intros H1 H2. rewrite getLinksFromSitemap_S, H1.
  destruct H2 as [-> | [parsed [-> [-> | [root [-> [-> ->]]]]]]]; reflexivity.
Qed.

End SitemapMore.

Lemma more_fuel_same_result_witness :
  getLinksFromSitemap (5 + 2) sitemapWorld ModeAxios
    "https://example.com/sitemap.xml" [] []
  = Some (["https://example.com/a"; "https://example.com/b"],
          [EvAxiosGet "https://example.com/sitemap.xml";
           EvAxiosGet "https://example.com/gone.xml";
           EvAxiosGet "https://example.com/posts.xml"]).
Proof.
  apply (more_fuel_same_result sitemapWorld ModeAxios 2 5). reflexivity.
Defined.

Lemma sitemap_list_only_grows_witness :
  exists added,
    ["https://example.com/"; "https://example.com/a"; "https://example.com/b"]
    = ["https://example.com/"] ++ added.
Proof.
  apply (sitemap_list_only_grows sitemapWorld ModeAxios 2
           "https://example.com/sitemap.xml" ["https://example.com/"] _ []
           [EvAxiosGet "https://example.com/sitemap.xml";
            EvAxiosGet "https://example.com/gone.xml";
            EvAxiosGet "https://example.com/posts.xml"]).
  reflexivity.
Defined.

Lemma urlset_adds_first_locs_witness :
  getLinksFromSitemap 1 sitemapWorld ModeAxios "https://example.com/posts.xml"
    ["https://example.com/"] []
  = Some (["https://example.com/"]
            ++ flat_map (fun entry => match loc entry with
                                      | Some (l :: _) => [l]
                                      | _ => []
                                      end)
                 [mkXmlEntry (Some ["https://example.com/a"]);
                  mkXmlEntry (Some ["https://example.com/b"])],
          [EvAxiosGet "https://example.com/posts.xml"]).
Proof.
  apply (urlset_adds_first_locs sitemapWorld ModeAxios 0
           "https://example.com/posts.xml" "POSTS" ["https://example.com/"] []
           [EvAxiosGet "https://example.com/posts.xml"]
           (mkXmlParsed
              (Some (mkXmlRoot None
                       (Some [mkXmlEntry (Some ["https://example.com/a"]);
                              mkXmlEntry (Some ["https://example.com/b"])])))
              None)
           (mkXmlRoot None
              (Some [mkXmlEntry (Some ["https://example.com/a"]);
                     mkXmlEntry (Some ["https://example.com/b"])])));
    reflexivity.
Defined.

Lemma unusable_sitemap_contributes_nothing_witness :
  getLinksFromSitemap 1 brokenSitemapWorld ModeAxios
    "https://example.com/sitemap.xml" ["https://example.com/"] []
  = Some (["https://example.com/"],
          [EvAxiosGet "https://example.com/sitemap.xml"]).
Proof.
  apply (unusable_sitemap_contributes_nothing brokenSitemapWorld ModeAxios 0
           "https://example.com/sitemap.xml"
           "<!doctype html><title>Not found</title>").
  - reflexivity.
  - left. reflexivity.
Defined.

(* ================================================================== *)
(** * Further properties of [crawlCancelController] *)
(* ================================================================== *)

Section CancelMore.

Lemma lookup_failJob_same (js : list (string * Cancel.Job))
    (jobId : string) (j : Cancel.Job) :
  Cancel.lookup js jobId = Some j ->
  Cancel.lookup (Cancel.failJob js jobId) jobId
  = Some (Cancel.mkJob "failed" (Cancel.partialDocs j)).
Proof.
  induction js as [| [id x] js IH]; simpl; [discriminate |].
  destruct (id =? jobId) eqn:E; simpl; rewrite E.
  - intros H. now inversion H.
  - exact IH.
Qed.

Lemma lookup_failJob_other (js : list (string * Cancel.Job))
    (jobId other : string) :
  other <> jobId ->
  Cancel.lookup (Cancel.failJob js jobId) other = Cancel.lookup js other.
Proof.
  intros N. induction js as [| [id x] js IH]; simpl; [reflexivity |].
  destruct (id =? jobId) eqn:E; simpl.
  - apply String.eqb_eq in E. subst id.
    destruct (jobId =? other) eqn:F; [| reflexivity].
    apply String.eqb_eq in F. now elim N.
  - now rewrite IH.
Qed.

Lemma getJob_moveToFailed_same (q : Cancel.Queue)
    (jobId : string) (j : Cancel.Job) :
  Cancel.getJob q jobId = Some j ->
  Cancel.getJob (Cancel.moveToFailed q jobId) jobId
  = Some (Cancel.mkJob "failed" (Cancel.partialDocs j)).
Proof.
  unfold Cancel.getJob, Cancel.moveToFailed. simpl.
  destruct (Cancel.getJob_fails q); [discriminate |].
  apply lookup_failJob_same.
Qed.

Lemma getJob_moveToFailed_other (q : Cancel.Queue) (jobId other : string) :
  other <> jobId ->
  Cancel.getJob (Cancel.moveToFailed q jobId) other = Cancel.getJob q other.
Proof.
  intros N. unfold Cancel.getJob, Cancel.moveToFailed. simpl.
  destruct (Cancel.getJob_fails q); [reflexivity |].
  now apply lookup_failJob_other.
Qed.

Variable sv : Cancel.Services.
Variable jobId : string.
Variable sys : Cancel.System.

(** X16. When the caller owns an active job with partial documents and
    none of the calls on the job ([getState] before and after, [progress],
    [moveToFailed]) nor [billTeam] throws, cancelling bills the caller's
    team once for the number of partial documents, moves the job to
    [failed] and answers [cancelled]. *)
Theorem owner_cancel_bills_and_fails (auth : Cancel.AuthResponse)
    (job : Cancel.Job) (row : string * string) (rows : list (string * string))
    (doc : Document) (docs : list Document) :
  Cancel.authenticateUser sv = Ok auth ->
  Cancel.success auth = true ->
  Cancel.getJob (Cancel.jobs sys) jobId = Some job ->
  Cancel.bulljobs_teams sv jobId (Cancel.team_id auth)
    = Cancel.QueryAnswer (row :: rows) None ->
  Cancel.state job = "active" ->
  Cancel.partialDocs job = Some (doc :: docs) ->
  Cancel.getState_fails sv = None ->
  Cancel.progress_fails sv = None ->
  Cancel.billTeam_fails sv = None ->
  Cancel.moveToFailed_fails sv = None ->
  Cancel.getState_again_fails sv = None ->
  let (response, sys') := Cancel.crawlCancelController sv jobId sys in
  response = Cancel.mkResponse None (Cancel.BodyStatus "cancelled")
  /\ Cancel.billed sys'
     = Cancel.billed sys ++ [(Cancel.team_id auth, S (List.length docs))]
  /\ Cancel.getJob (Cancel.jobs sys') jobId
     = Some (Cancel.mkJob "failed" (Some (doc :: docs))).
Proof.
  intros Hauth Hok Hjob Hquery Hstate Hdocs Hget Hprog Hbill Hmove Hagain.
  unfold Cancel.crawlCancelController.
  destruct (getJob_answered _ _ _ Hjob) as [Hup _].
  rewrite Hauth, Hok, Hup, Hjob, Hquery, Hget, Hprog, Hstate, Hdocs, Hbill,
    Hmove, Hagain.
  simpl.
  rewrite (getJob_moveToFailed_same _ _ _ Hjob), Hdocs. simpl.
  repeat split.
Qed.

(** X17. Whatever the outcome of a cancellation, every other job of the
    queue is as it was. *)
Theorem cancel_changes_only_that_job (other : string) :
  other <> jobId ->
  Cancel.getJob
    (Cancel.jobs (snd (Cancel.crawlCancelController sv jobId sys))) other
  = Cancel.getJob (Cancel.jobs sys) other.
Proof.
  intros N. unfold Cancel.crawlCancelController.
  destruct (Cancel.authenticateUser sv) as [auth | e]; [| reflexivity].
  destruct (negb (Cancel.success auth)); [reflexivity |].
  destruct (Cancel.getJob_fails (Cancel.jobs sys)); [reflexivity |].
  destruct (Cancel.getJob (Cancel.jobs sys) jobId) as [job |]; [| reflexivity].
  destruct (Cancel.bulljobs_teams sv jobId (Cancel.team_id auth))
    as [e | data supaError]; [reflexivity |].
  destruct supaError; [reflexivity |].
  destruct (List.length data =? 0)%nat; [reflexivity |].
  destruct (Cancel.getState_fails sv); [reflexivity |].
  destruct (Cancel.progress_fails sv); [reflexivity |].
  match goal with
  | |- context [match (if ?b then _ else None) with _ => _ end] => destruct b
  end.
  - destruct (Cancel.billTeam_fails sv); [reflexivity |].
    destruct (Cancel.moveToFailed_fails sv), (Cancel.getState_again_fails sv);
      simpl; try reflexivity; now apply getJob_moveToFailed_other.
  - destruct (Cancel.moveToFailed_fails sv), (Cancel.getState_again_fails sv);
      simpl; try reflexivity; now apply getJob_moveToFailed_other.
Qed.

(** X18. A cancellation bills at most once, and only the authenticated
    caller's team for the partial documents of a job that is active and has
    at least one. *)
Theorem cancel_bills_at_most_once :
  Cancel.billed (snd (Cancel.crawlCancelController sv jobId sys))
    = Cancel.billed sys
  \/ exists auth job docs,
      Cancel.authenticateUser sv = Ok auth
      /\ Cancel.getJob (Cancel.jobs sys) jobId = Some job
      /\ Cancel.state job = "active"
      /\ Cancel.partialDocs job = Some docs
      /\ docs <> []
      /\ Cancel.billed (snd (Cancel.crawlCancelController sv jobId sys))
         = Cancel.billed sys ++ [(Cancel.team_id auth, List.length docs)].
Proof.
  unfold Cancel.crawlCancelController.
  destruct (Cancel.authenticateUser sv) as [auth | e]; [| now left].
  destruct (negb (Cancel.success auth)); [now left |].
  destruct (Cancel.getJob_fails (Cancel.jobs sys)); [now left |].
  destruct (Cancel.getJob (Cancel.jobs sys) jobId) as [job |]; [| now left].
  destruct (Cancel.bulljobs_teams sv jobId (Cancel.team_id auth))
    as [e | data supaError]; [now left |].
  destruct supaError; [now left |].
  destruct (List.length data =? 0)%nat; [now left |].
  destruct (Cancel.getState_fails sv); [now left |].
  destruct (Cancel.progress_fails sv); [now left |].
  destruct (Cancel.partialDocs job) as [docs |] eqn:D.
  - destruct (0 <? List.length docs)%nat eqn:L; simpl.
    + destruct (Cancel.state job =? "active") eqn:A; simpl.
      * destruct (Cancel.billTeam_fails sv); [now left |].
        right. exists auth, job, docs.
        apply String.eqb_eq in A. apply Nat.ltb_lt in L.
        repeat split; auto.
        -- intros ->. simpl in L. lia.
        -- destruct (Cancel.moveToFailed_fails sv),
             (Cancel.getState_again_fails sv); reflexivity.
      * left. destruct (Cancel.moveToFailed_fails sv),
          (Cancel.getState_again_fails sv); reflexivity.
    + left. destruct (Cancel.moveToFailed_fails sv),
        (Cancel.getState_again_fails sv); reflexivity.
  - left. simpl. destruct (Cancel.moveToFailed_fails sv),
      (Cancel.getState_again_fails sv); reflexivity.
Qed.

(** X19. A cancellation changes the queue or the ledger only for an
    authenticated caller whose ownership query answered at least one row
    and no error, for a job that was found and whose state and progress
    could be read.  The answer beside a change has no status code, or it is
    the 500 of the outer [catch] after [job.getState()] threw at l.53, when
    billing and [moveToFailed] had already run. *)
Theorem cancel_effect_needs_ownership :
  snd (Cancel.crawlCancelController sv jobId sys) <> sys ->
  (exists auth job row rows,
      Cancel.authenticateUser sv = Ok auth
      /\ Cancel.success auth = true
      /\ Cancel.getJob (Cancel.jobs sys) jobId = Some job
      /\ Cancel.bulljobs_teams sv jobId (Cancel.team_id auth)
         = Cancel.QueryAnswer (row :: rows) None
      /\ Cancel.getState_fails sv = None
      /\ Cancel.progress_fails sv = None)
  /\ (forall c,
        Cancel.code (fst (Cancel.crawlCancelController sv jobId sys)) = Some c ->
        c = 500%Z /\ Cancel.getState_again_fails sv <> None).
Proof.
  unfold Cancel.crawlCancelController.
  destruct (Cancel.authenticateUser sv) as [auth | e] eqn:A;
    [| now intros N; elim N].
  destruct (Cancel.success auth) eqn:S; simpl; [| now intros N; elim N].
  destruct (Cancel.getJob_fails (Cancel.jobs sys)); [now intros N; elim N |].
  destruct (Cancel.getJob (Cancel.jobs sys) jobId) as [job |] eqn:J;
    [| now intros N; elim N].
  destruct (Cancel.bulljobs_teams sv jobId (Cancel.team_id auth))
    as [e | data supaError] eqn:Q; [now intros N; elim N |].
  destruct supaError; [now intros N; elim N |].
  destruct data as [| row rows]; simpl; [now intros N; elim N |].
  destruct (Cancel.getState_fails sv) eqn:G; [now intros N; elim N |].
  destruct (Cancel.progress_fails sv) eqn:P; [now intros N; elim N |].
  assert (Own : exists auth' job' row' rows',
             Ok auth = Ok auth'
             /\ Cancel.success auth' = true
             /\ Some job = Some job'
             /\ Cancel.bulljobs_teams sv jobId (Cancel.team_id auth')
                = Cancel.QueryAnswer (row' :: rows') None
             /\ @None JsError = None
             /\ @None JsError = None).
  { exists auth, job, row, rows. repeat split; assumption. }
  match goal with
  | |- context [match (if ?b then _ else None) with _ => _ end] => destruct b
  end.
  - destruct (Cancel.billTeam_fails sv); [now intros N; elim N |].
    intros _. split; [exact Own |].
    destruct (Cancel.getState_again_fails sv); simpl; intros c H;
      [| discriminate].
    inversion H. split; [reflexivity | discriminate].
  - intros _. split; [exact Own |].
    destruct (Cancel.getState_again_fails sv); simpl; intros c H;
      [| discriminate].
    inversion H. split; [reflexivity | discriminate].
Qed.

End CancelMore.

Lemma owner_cancel_bills_and_fails_witness :
  let (response, sys') :=
    Cancel.crawlCancelController (servicesFor "team-a") "job-1" twoJobs in
  response = Cancel.mkResponse None (Cancel.BodyStatus "cancelled")
  /\ Cancel.billed sys'
     = Cancel.billed twoJobs ++ [(Some "team-a", 2%nat)]
  /\ Cancel.getJob (Cancel.jobs sys') "job-1"
     = Some (Cancel.mkJob "failed"
               (Some [failureDocument "https://example.com/" initialLocals;
                      failureDocument "https://example.com/a" initialLocals])).
Proof.
  apply (owner_cancel_bills_and_fails (servicesFor "team-a") "job-1" twoJobs
           (Cancel.mkAuthResponse true (Some "team-a") None None)
           (Cancel.mkJob "active"
              (Some [failureDocument "https://example.com/" initialLocals;
                     failureDocument "https://example.com/a" initialLocals]))
           ("job-1", "team-a") []
           (failureDocument "https://example.com/" initialLocals)
           [failureDocument "https://example.com/a" initialLocals]);
    reflexivity.
Defined.

Lemma cancel_changes_only_that_job_witness :
  Cancel.getJob
    (Cancel.jobs (snd (Cancel.crawlCancelController (servicesFor "team-a")
                         "job-1" twoJobs))) "job-2"
  = Cancel.getJob (Cancel.jobs twoJobs) "job-2".
Proof.
  apply cancel_changes_only_that_job. discriminate.
Defined.

(** The state of the job cannot be read after [moveToFailed]: the caller
    is answered 500, and the team was billed and the job moved to
    [failed]. *)
Example cancel_answers_500_after_billing :
  let (response, sys') :=
    Cancel.crawlCancelController servicesLosingState "job-1" twoJobs in
  response = Cancel.mkResponse (Some 500%Z)
               (Cancel.BodyError (Some "Connection is closed."))
  /\ Cancel.billed sys' = [(Some "team-z", 4%nat); (Some "team-a", 2%nat)]
  /\ option_map Cancel.state (Cancel.getJob (Cancel.jobs sys') "job-1")
     = Some "failed".
Proof. repeat split. Qed.

Lemma cancel_effect_needs_ownership_witness :
  (exists auth job row rows,
      Cancel.authenticateUser servicesLosingState = Ok auth
      /\ Cancel.success auth = true
      /\ Cancel.getJob (Cancel.jobs twoJobs) "job-1" = Some job
      /\ Cancel.bulljobs_teams servicesLosingState "job-1" (Cancel.team_id auth)
         = Cancel.QueryAnswer (row :: rows) None
      /\ Cancel.getState_fails servicesLosingState = None
      /\ Cancel.progress_fails servicesLosingState = None)
  /\ (forall c,
        Cancel.code (fst (Cancel.crawlCancelController servicesLosingState
                            "job-1" twoJobs)) = Some c ->
        c = 500%Z /\ Cancel.getState_again_fails servicesLosingState <> None).
Proof.
  apply (cancel_effect_needs_ownership servicesLosingState "job-1" twoJobs).
  vm_compute. discriminate.
Defined.

(* ================================================================== *)
(** * Properties of [fetchSitemapData] *)
(* ================================================================== *)

Section SitemapData.





Variable sv : SitemapServices.


Lemma sitemapEntries_hole (elements : list UrlElement)
    (acc : list SitemapEntry) :
  (exists element, In element elements /\ ue_loc element = None) ->
  sitemapEntries elements acc = None.
Proof.
  revert acc. induction elements as [| x elements IH]; intros acc [el [H N]].
  - destruct H.
  - simpl. destruct H as [<- | H].
    + now rewrite N.
    + destruct (ue_loc x); [| reflexivity]. apply IH. now exists el.
Qed.

Lemma sitemapEntries_locs (elements : list UrlElement)
    (acc : list SitemapEntry) :
  (forall element, In element elements -> ue_loc element <> None) ->
  exists entries,
    sitemapEntries elements acc = Some (acc ++ entries)
    /\ map se_loc entries = map (fun element => firstOf (ue_loc element)) elements
    /\ map se_lastmod entries
       = map (fun element => firstOf (ue_lastmod element)) elements.
Proof.
  revert acc. induction elements as [| x elements IH]; intros acc H; simpl.
  - exists []. now rewrite app_nil_r.
  - destruct (ue_loc x) as [locs |] eqn:L.
    + destruct (IH (acc ++ [mkSitemapEntry (first locs) (firstOf (ue_lastmod x))
                              (firstOf (ue_changefreq x))
                              (match ue_priority x with
                               | Some p => Some (NumberOf (first p))
                               | None => None
                               end)])) as [entries [E [M1 M2]]].
      * intros el Hel. apply H. now right.
      * eexists (_ :: entries). rewrite E, <- app_assoc. simpl.
        split; [reflexivity |]. now rewrite M1, M2.
    + exfalso. apply (H x); [now left | exact L].
Qed.

(** X22. One [url] element without a [loc] costs the whole sitemap: the
    error it raises is swallowed and the empty list is returned, the
    entries read before it included. *)
Theorem entry_without_loc_empties_sitemap (url xml : string)
    (parsedXml : SitemapXml) (urlset : UrlsetRoot)
    (elements : list UrlElement) (element : UrlElement) :
  sd_get sv (sitemapUrlOf url) = Ok (200%Z, xml) ->
  sd_parse sv xml = Some parsedXml ->
  sx_urlset parsedXml = Some urlset ->
  ur_url urlset = Some elements ->
  In element elements ->
  ue_loc element = None ->
  fetchSitemapData sv url = Some [].
Proof.
  intros H1 H2 H3 H4 H5 H6. unfold fetchSitemapData. cbv zeta.
  rewrite H1. simpl. rewrite H2, H3, H4.
  rewrite sitemapEntries_hole; [reflexivity | now exists element].
Qed.

(** X23. When the request is answered 200 with a [urlset] all of whose
    [url] elements have a [loc], [fetchSitemapData] returns one entry per
    element, in document order, with the first [loc] and the first
    [lastmod] of the element. *)
Theorem sitemap_entries_in_order (url xml : string) (parsedXml : SitemapXml)
    (urlset : UrlsetRoot) (elements : list UrlElement) :
  sd_get sv (sitemapUrlOf url) = Ok (200%Z, xml) ->
  sd_parse sv xml = Some parsedXml ->
  sx_urlset parsedXml = Some urlset ->
  ur_url urlset = Some elements ->
  (forall element, In element elements -> ue_loc element <> None) ->
  exists entries,
    fetchSitemapData sv url = Some entries
    /\ map se_loc entries = map (fun element => firstOf (ue_loc element)) elements
    /\ map se_lastmod entries
       = map (fun element => firstOf (ue_lastmod element)) elements.
Proof.
  intros H1 H2 H3 H4 H5. unfold fetchSitemapData. cbv zeta.
  rewrite H1. simpl. rewrite H2, H3, H4.
  destruct (sitemapEntries_locs elements [] H5) as [entries [E M]].
  rewrite E. exists entries. split; [reflexivity | exact M].
Qed.

End SitemapData.

Lemma entry_without_loc_empties_sitemap_witness :
  fetchSitemapData exampleSitemapServices "https://partial.example" = Some [].
Proof.
  apply (entry_without_loc_empties_sitemap exampleSitemapServices
           "https://partial.example" "HOLE"
           (mkSitemapXml (Some (mkUrlsetRoot (Some
              [mkUrlElement (Some ["https://partial.example/a"]) None None None;
               mkUrlElement None (Some ["2024-05-01"]) None None]))))
           (mkUrlsetRoot (Some
              [mkUrlElement (Some ["https://partial.example/a"]) None None None;
               mkUrlElement None (Some ["2024-05-01"]) None None]))
           [mkUrlElement (Some ["https://partial.example/a"]) None None None;
            mkUrlElement None (Some ["2024-05-01"]) None None]
           (mkUrlElement None (Some ["2024-05-01"]) None None));
    try reflexivity.
  simpl. tauto.
Defined.

Lemma sitemap_entries_in_order_witness :
  exists entries,
    fetchSitemapData exampleSitemapServices "https://example.com/sitemap.xml"
      = Some entries
    /\ map se_loc entries
       = map (fun element => firstOf (ue_loc element))
           [mkUrlElement (Some ["https://example.com/a"]) (Some ["2024-05-01"])
                         None (Some ["0.8"]);
            mkUrlElement (Some ["https://example.com/b"]) None None None]
    /\ map se_lastmod entries
       = map (fun element => firstOf (ue_lastmod element))
           [mkUrlElement (Some ["https://example.com/a"]) (Some ["2024-05-01"])
                         None (Some ["0.8"]);
            mkUrlElement (Some ["https://example.com/b"]) None None None].
Proof.
  apply (sitemap_entries_in_order exampleSitemapServices
           "https://example.com/sitemap.xml" "GOOD"
           (mkSitemapXml (Some (mkUrlsetRoot (Some
              [mkUrlElement (Some ["https://example.com/a"]) (Some ["2024-05-01"])
                            None (Some ["0.8"]);
               mkUrlElement (Some ["https://example.com/b"]) None None None]))))
           (mkUrlsetRoot (Some
              [mkUrlElement (Some ["https://example.com/a"]) (Some ["2024-05-01"])
                            None (Some ["0.8"]);
               mkUrlElement (Some ["https://example.com/b"]) None None None])));
    try reflexivity.
  intros element [<- | [<- | []]]; discriminate.
Defined.


(* ================================================================== *)
(** * Properties of [supaAuthenticateUser] *)
(* ================================================================== *)

Section Authentication.

Variable sv : Auth.Services.
Variable req : Auth.Request.
Variable mode : option Auth.RateLimiterMode.

(** The key the rate limiter is asked for: the caller's address, the
    forwarded one first, followed by the token. *)
Local Abbreviation keyOf token :=
  ((match (if JS.truthy_string (Auth.x_forwarded_for req)
           then Auth.x_forwarded_for req else Auth.remoteAddress req) with
    | Some ip => ip
    | None => "undefined"
    end) ++ token)%string.

Lemma afterLimiter_events (token iptoken : string)
    (limiter : Auth.RateLimiterMode * option string)
    (subscription : option Auth.Subscription) (events : list Auth.Event) :
  let events1 :=
    events ++ [Auth.EvConsume (fst limiter) token (snd limiter) iptoken] in
  snd (Auth.afterLimiter sv mode token iptoken limiter subscription events)
    = events1
  \/ (snd (Auth.afterLimiter sv mode token iptoken limiter subscription events)
        = events1 ++ [Auth.EvApiKeys (Auth.parseApi sv token)]
      /\ subscription = None).
Proof.
  unfold Auth.afterLimiter. cbv zeta.
  destruct (negb (Auth.consume sv (fst limiter) token (snd limiter) iptoken));
    [now left |].
  match goal with |- context [if ?b then _ else _] => destruct b end;
    [now left |].
  destruct subscription as [s |]; [now left |]. right. split; [| reflexivity].
  destruct (Auth.api_keys sv (Auth.parseApi sv token)) as [answer | e];
    [destruct (Auth.firstRow answer) |]; reflexivity.
Qed.

Lemma afterLimiter_granted (token iptoken : string)
    (limiter : Auth.RateLimiterMode * option string)
    (subscription : option Auth.Subscription) (events : list Auth.Event)
    (auth : Cancel.AuthResponse) :
  fst (Auth.afterLimiter sv mode token iptoken limiter subscription events)
    = Ok auth ->
  Cancel.success auth = true ->
  Auth.consume sv (fst limiter) token (snd limiter) iptoken = true
  /\ In (Auth.EvConsume (fst limiter) token (snd limiter) iptoken)
        (snd (Auth.afterLimiter sv mode token iptoken limiter subscription
                events)).
Proof.
  intros H S.
  assert (I : In (Auth.EvConsume (fst limiter) token (snd limiter) iptoken)
                (snd (Auth.afterLimiter sv mode token iptoken limiter
                        subscription events))).
  { destruct (afterLimiter_events token iptoken limiter subscription events)
      as [-> | [-> _]]; rewrite ?in_app_iff; simpl; tauto. }
  split; [| exact I]. clear I. revert H. unfold Auth.afterLimiter. cbv zeta.
  destruct (Auth.consume sv (fst limiter) token (snd limiter) iptoken);
    [intros _; reflexivity |].
  simpl. intros H. inversion H. subst auth. discriminate.
Qed.

(** X24. A token other than the preview token for which the key lookup
    finds no row is refused with 401 before the rate limiter is asked: the
    only request made is the lookup. *)
Theorem invalid_key_is_not_rate_limited (header token : string)
    (answer : Auth.QueryAnswer) :
  Auth.authorization req = Some header ->
  Auth.secondField header = Some token ->
  token <> "" ->
  token <> Auth.previewToken ->
  Auth.get_key_and_price_id_2 sv (Auth.parseApi sv token) = Ok answer ->
  Auth.firstRow answer = None ->
  Auth.supaAuthenticateUser sv req mode
  = (Ok (Auth.refused "Unauthorized: Invalid token" 401),
     [Auth.EvRpc (Auth.parseApi sv token)]).
Proof.
  intros Hh Ht Hne Hp Hq Hr. unfold Auth.supaAuthenticateUser.
  rewrite Hh. destruct header as [| c header]; [discriminate |].
  cbv beta iota delta [JS.truthy_string negb]. rewrite Ht.
  destruct token as [| c' token]; [now elim Hne |].
  cbv beta iota zeta.
  destruct (String c' token =? Auth.previewToken) eqn:E.
  - apply String.eqb_eq in E. now elim Hp.
  - now rewrite Hq, Hr.
Qed.

(** X25. No request is authenticated without the rate limiter having
    admitted it: every successful answer follows one consumption that
    succeeded, under the key made of the caller's address and the token of
    the authorization header. *)
Theorem success_was_rate_limited (auth : Cancel.AuthResponse) :
  fst (Auth.supaAuthenticateUser sv req mode) = Ok auth ->
  Cancel.success auth = true ->
  exists header token limiterMode plan,
    Auth.authorization req = Some header
    /\ Auth.secondField header = Some token
    /\ Auth.consume sv limiterMode token plan (keyOf token) = true
    /\ In (Auth.EvConsume limiterMode token plan (keyOf token))
          (snd (Auth.supaAuthenticateUser sv req mode)).
Proof.
  unfold Auth.supaAuthenticateUser.
  destruct (Auth.authorization req) as [header |];
    [| simpl; intros H S; inversion H; subst auth; discriminate S].
  destruct (negb (JS.truthy_string (Some header)));
    [simpl; intros H S; inversion H; subst auth; discriminate S |].
  destruct (Auth.secondField header) as [token |] eqn:T;
    [| simpl; intros H S; inversion H; subst auth; discriminate S].
  destruct (negb (JS.truthy_string (Some token)));
    [simpl; intros H S; inversion H; subst auth; discriminate S |].
  cbv zeta.
  destruct (token =? Auth.previewToken).
  - intros H S. destruct (afterLimiter_granted _ _ _ _ _ _ H S) as [C I].
    exists header, token, Auth.Preview, None. auto.
  - destruct (Auth.get_key_and_price_id_2 sv (Auth.parseApi sv token))
      as [answer | e]; [| simpl; intros H; discriminate H].
    destruct (Auth.firstRow answer) as [row |];
      [| simpl; intros H S; inversion H; subst auth; discriminate S].
    intros H S. destruct (afterLimiter_granted _ _ _ _ _ _ H S) as [C I].
    eexists header, token, _, _. repeat split; try eassumption; reflexivity.
Qed.

(** X26. With the preview token the first key lookup is never made; and in
    the modes scrape, preview and search, once the preview rate limiter
    admits the request, the caller is the team [preview] and no database
    query is made at all. *)
Theorem preview_token_skips_key_lookup (header : string) :
  Auth.authorization req = Some header ->
  Auth.secondField header = Some Auth.previewToken ->
  (forall key, ~ In (Auth.EvRpc key) (snd (Auth.supaAuthenticateUser sv req mode)))
  /\ (mode = Some Auth.Scrape \/ mode = Some Auth.Preview
      \/ mode = Some Auth.Search ->
      Auth.consume sv Auth.Preview Auth.previewToken None
        (keyOf Auth.previewToken) = true ->
      Auth.supaAuthenticateUser sv req mode
      = (Ok (Auth.granted (Some "preview")),
         [Auth.EvConsume Auth.Preview Auth.previewToken None
            (keyOf Auth.previewToken)])).
Proof.
  intros Hh Ht. unfold Auth.supaAuthenticateUser. rewrite Hh.
  destruct header as [| c header]; [discriminate |].
  change (JS.truthy_string (Some (String c header))) with true.
  cbv beta iota delta [negb]. rewrite Ht.
  change (JS.truthy_string (Some Auth.previewToken)) with true.
  change (Auth.previewToken =? Auth.previewToken) with true.
  cbv beta iota zeta. split.
  - intros key.
    destruct (afterLimiter_events Auth.previewToken (keyOf Auth.previewToken)
                (Auth.Preview, None) None []) as [-> | [-> _]];
      simpl; intuition discriminate.
  - intros Hm Hc. unfold Auth.afterLimiter. cbv zeta. simpl fst. simpl snd.
    rewrite Hc.
    destruct Hm as [-> | [-> | ->]]; reflexivity.
Qed.

(** X27. The subscription plan reaches the rate limiter only in the modes
    crawl and scrape, and then as one of [standard], [scale] and
    [starter]; in every other mode the limiter is created without a
    plan. *)
Theorem plan_only_for_crawl_and_scrape (limiterMode : Auth.RateLimiterMode)
    (token plan key : string) :
  In (Auth.EvConsume limiterMode token (Some plan) key)
     (snd (Auth.supaAuthenticateUser sv req mode)) ->
  (mode = Some Auth.Crawl /\ limiterMode = Auth.Crawl
   \/ mode = Some Auth.Scrape /\ limiterMode = Auth.Scrape)
  /\ (plan = "standard" \/ plan = "scale" \/ plan = "starter").
Proof.
  unfold Auth.supaAuthenticateUser.
  destruct (Auth.authorization req) as [header |]; [| intros []].
  destruct (negb (JS.truthy_string (Some header))); [intros [] |].
  destruct (Auth.secondField header) as [tok |]; [| intros []].
  destruct (negb (JS.truthy_string (Some tok))); [intros [] |].
  cbv zeta.
  destruct (tok =? Auth.previewToken).
  - destruct (afterLimiter_events tok (keyOf tok) (Auth.Preview, None) None [])
      as [-> | [-> _]]; simpl; intuition discriminate.
  - destruct (Auth.get_key_and_price_id_2 sv (Auth.parseApi sv tok))
      as [answer | e]; [| simpl; intros [F | []]; discriminate].
    destruct (Auth.firstRow answer) as [row |];
      [| simpl; intros [F | []]; discriminate].
    match goal with
    | |- In _ (snd (Auth.afterLimiter _ _ _ _ ?l ?s ?ev)) -> _ =>
        destruct (afterLimiter_events tok (keyOf tok) l s ev)
          as [-> | [_ F]]; [| discriminate]
    end.
    simpl. intros [F | [F | []]]; [discriminate |].
    assert (P : forall p, Auth.getPlanByPriceId sv p = "standard"
                          \/ Auth.getPlanByPriceId sv p = "scale"
                          \/ Auth.getPlanByPriceId sv p = "starter").
    { intros p. unfold Auth.getPlanByPriceId. destruct p as [p |]; [| tauto].
      repeat match goal with
             | |- context [if ?b then _ else _] => destruct b
             end; tauto. }
    destruct mode as [[] |]; simpl in F; inversion F; subst;
      (split; [tauto | apply P]).
Qed.

End Authentication.

Lemma invalid_key_is_not_rate_limited_witness :
  Auth.supaAuthenticateUser exampleAuthServices (requestWith "Bearer fc-wrong")
    (Some Auth.Crawl)
  = (Ok (Auth.refused "Unauthorized: Invalid token" 401),
     [Auth.EvRpc (Auth.parseApi exampleAuthServices "fc-wrong")]).
Proof.
  apply (invalid_key_is_not_rate_limited exampleAuthServices
           (requestWith "Bearer fc-wrong") (Some Auth.Crawl)
           "Bearer fc-wrong" "fc-wrong" (Auth.mkQueryAnswer (Some []) None));
    try reflexivity; discriminate.
Defined.

Lemma success_was_rate_limited_witness :
  exists header token limiterMode plan,
    Auth.authorization (requestWith "Bearer fc-key-1") = Some header
    /\ Auth.secondField header = Some token
    /\ Auth.consume exampleAuthServices limiterMode token plan
         ("10.0.0.1" ++ token)%string = true
    /\ In (Auth.EvConsume limiterMode token plan ("10.0.0.1" ++ token)%string)
          (snd (Auth.supaAuthenticateUser exampleAuthServices
                  (requestWith "Bearer fc-key-1") (Some Auth.Scrape))).
Proof.
  apply (success_was_rate_limited exampleAuthServices
           (requestWith "Bearer fc-key-1") (Some Auth.Scrape)
           (Auth.granted (Some "team-a")));
    reflexivity.
Defined.

Lemma preview_token_skips_key_lookup_witness :
  Auth.supaAuthenticateUser exampleAuthServices
    (requestWith "Bearer this_is_just_a_preview_token") (Some Auth.Search)
  = (Ok (Auth.granted (Some "preview")),
     [Auth.EvConsume Auth.Preview Auth.previewToken None
        ("10.0.0.1" ++ Auth.previewToken)%string]).
Proof.
  destruct (preview_token_skips_key_lookup exampleAuthServices
              (requestWith "Bearer this_is_just_a_preview_token")
              (Some Auth.Search) "Bearer this_is_just_a_preview_token"
              eq_refl eq_refl) as [_ H].
  apply H; [tauto | reflexivity].
Defined.

Lemma plan_only_for_crawl_and_scrape_witness :
  (Some Auth.Scrape = Some Auth.Crawl /\ Auth.Scrape = Auth.Crawl
   \/ Some Auth.Scrape = Some Auth.Scrape /\ Auth.Scrape = Auth.Scrape)
  /\ ("scale" = "standard" \/ "scale" = "scale" \/ "scale" = "starter").
Proof.
  apply (plan_only_for_crawl_and_scrape exampleAuthServices
           (requestWith "Bearer fc-key-1") (Some Auth.Scrape)
           Auth.Scrape "fc-key-1" "scale" "10.0.0.1fc-key-1").
  simpl. tauto.
Defined.

(* ================================================================== *)
(** * Properties of the earlier [single_url.ts] *)
(* ================================================================== *)

Section EarlierFetch.

Variable w : Earlier.World.

(** X28. In the earlier version, an [existingHtml] whose trimmed length is
    at least 100 is used for every URL, parsable or not: no request is made
    and the content is the Markdown of the cleaned [existingHtml].  When
    that Markdown is not empty, the Markdown is also the [markdown] of the
    document and its [html], when asked for, is [existingHtml] itself, not
    the cleaned text.  When that Markdown is empty, the function throws
    into its own [catch] and the document returned is the one of the
    [catch], whose content and [html] are empty whatever was asked for. *)
Theorem earlier_existing_html_always_used (urlToScrap existingHtml : string)
    (pageOptions : Earlier.PageOptions) (h : History) :
  longEnough existingHtml = true ->
  exists d,
    Earlier.scrapSingleUrl w urlToScrap pageOptions existingHtml h = (Ok d, h)
    /\ content d
       = Earlier.parseMarkdown w
           (Earlier.removeUnwantedElements w existingHtml pageOptions) None
    /\ (content d <> "" ->
        markdown d = Some (content d)
        /\ html d = if JS.truthy_bool (Earlier.includeHtml pageOptions)
                    then Some existingHtml else None)
    /\ (content d = "" ->
        d = Earlier.failureDocument (JS.trim urlToScrap)
        /\ html d = Some "").
Proof.
  intros Hex. unfold Earlier.scrapSingleUrl.
  destruct (Earlier.scrapersInOrder w pageOptions (JS.trim urlToScrap))
    as [| s rest] eqn:E.
  - exfalso. unfold Earlier.scrapersInOrder in E.
    match type of E with ?o = [] =>
      assert (F : In "fetch" o) by apply fetch_in_order; rewrite E in F
    end. destruct F.
  - simpl Earlier.fallbackLoop. rewrite Hex. cbv beta iota zeta.
    destruct (Earlier.parseMarkdown w
                (Earlier.removeUnwantedElements w existingHtml pageOptions) None)
      as [| c t] eqn:T.
    + eexists. split; [reflexivity |]. simpl. split; [reflexivity |].
      split; [intros N; now elim N | intros _; split; reflexivity].
    + eexists. split; [reflexivity |]. simpl. split; [reflexivity |].
      split; [intros _; split; reflexivity | discriminate].
Qed.

(** X29. In the earlier version, each of the three text scrapers returns a
    text that is not empty only for an answer its HTTP client handed back
    and whose status passes the scraper's own test: 200 for the plain fetch
    and for Playwright, 200 or 404 for ScrapingBee.  A request that throws
    and every other status give the empty text.  (Which answers a client
    hands back rather than throws is the client's matter: the test of
    ScrapingBee lets a 404 through if its client ever hands one back.) *)
Theorem earlier_text_needs_accepted_status (url : string) (h : History) :
  (forall text h',
      Earlier.scrapWithFetch w url h = (Ok text, h') -> text <> "" ->
      exists response,
        Earlier.axiosGet w h url = Ok response
        /\ Earlier.status response = 200%Z)
  /\ (forall waitFor headers text h',
      Earlier.scrapWithPlaywright w url waitFor headers h = (Ok text, h') ->
      text <> "" ->
      exists wait response,
        Earlier.playwrightPost w h url wait headers = Ok response
        /\ Earlier.status response = 200%Z)
  /\ (forall wait_browser timeout text h',
      Earlier.scrapWithScrapingBee w url wait_browser timeout h = (Ok text, h') ->
      text <> "" ->
      exists response,
        Earlier.scrapingBeeGet w h url wait_browser timeout = Ok response
        /\ (Earlier.status response = 200%Z
            \/ Earlier.status response = 404%Z))
  /\ (forall e,
      Earlier.axiosGet w h url = Throw e ->
      Earlier.scrapWithFetch w url h = (Ok "", h ++ [EvFetch url]))
  /\ (forall wait_browser timeout e,
      Earlier.scrapingBeeGet w h url wait_browser timeout = Throw e ->
      Earlier.scrapWithScrapingBee w url wait_browser timeout h
      = (Ok "", h ++ [EvScrapingBee url wait_browser])).
Proof.
  split; [| split; [| split; [| split]]].
  - intros text h'. unfold Earlier.scrapWithFetch. cbv zeta.
    destruct (Earlier.axiosGet w h url) as [response | e].
    + destruct (Z.eqb_spec (Earlier.status response) 200) as [S | S]; simpl.
      * intros _ _. now exists response.
      * intros H N. inversion H. subst. now elim N.
    + intros H N. inversion H. subst. now elim N.
  - intros waitFor headers text h'. unfold Earlier.scrapWithPlaywright. cbv zeta.
    destruct (Earlier.playwrightPost w h url _ headers) as [response | e] eqn:P.
    + destruct (Z.eqb_spec (Earlier.status response) 200) as [S | S]; simpl.
      * intros _ _. eexists _, response. split; [exact P | exact S].
      * intros H N. inversion H. subst. now elim N.
    + intros H N. inversion H. subst. now elim N.
  - intros wait_browser timeout text h'. unfold Earlier.scrapWithScrapingBee.
    cbv zeta.
    destruct (Earlier.scrapingBeeGet w h url wait_browser timeout)
      as [response | e].
    + destruct (Z.eqb_spec (Earlier.status response) 200) as [S | S]; simpl.
      * intros _ _. exists response. auto.
      * destruct (Z.eqb_spec (Earlier.status response) 404) as [S' | S']; simpl.
        -- intros _ _. exists response. auto.
        -- intros H N. inversion H. subst. now elim N.
    + intros H N. inversion H. subst. now elim N.
  - intros e H. unfold Earlier.scrapWithFetch. cbv zeta. now rewrite H.
  - intros wait_browser timeout e H. unfold Earlier.scrapWithScrapingBee.
    cbv zeta. now rewrite H.
Qed.

(** X30. A text scraper of the earlier version lets an error through only
    from its PDF branch, whose promise it returns without awaiting it: when
    the plain fetch throws, the page was answered 200 with a PDF content
    type and fetching the PDF threw. *)
Theorem earlier_fetch_throws_only_for_pdf (url : string) (h h' : History)
    (e : JsError) :
  Earlier.scrapWithFetch w url h = (Throw e, h') ->
  exists response,
    Earlier.axiosGet w h url = Ok response
    /\ Earlier.status response = 200%Z
    /\ isPdf (Earlier.contentType response) = true
    /\ Earlier.fetchAndProcessPdf w (h ++ [EvFetch url]) url = Throw e
    /\ h' = (h ++ [EvFetch url]) ++ [EvPdf url].
Proof.
  unfold Earlier.scrapWithFetch. cbv zeta.
  destruct (Earlier.axiosGet w h url) as [response | e0]; [| discriminate].
  destruct (Z.eqb_spec (Earlier.status response) 200) as [S | S]; simpl;
    [| discriminate].
  destruct (isPdf (Earlier.contentType response)) eqn:P; [| discriminate].
  unfold Earlier.pdfOf, call. intros H. inversion H.
  exists response. auto.
Qed.

End EarlierFetch.

Lemma earlier_existing_html_always_used_witness :
  (exists d,
    Earlier.scrapSingleUrl earlierWorld "not a url" Earlier.defaultPageOptions
      longText [] = (Ok d, [])
    /\ content d
       = Earlier.parseMarkdown earlierWorld
           (Earlier.removeUnwantedElements earlierWorld longText
              Earlier.defaultPageOptions) None
    /\ (content d <> "" ->
        markdown d = Some (content d)
        /\ html d = if JS.truthy_bool (Earlier.includeHtml Earlier.defaultPageOptions)
                    then Some longText else None)
    /\ (content d = "" ->
        d = Earlier.failureDocument (JS.trim "not a url")
        /\ html d = Some ""))
  /\ (exists d,
    Earlier.scrapSingleUrl emptyMarkdownWorld "https://example.com/"
      Earlier.defaultPageOptions longText [] = (Ok d, [])
    /\ content d
       = Earlier.parseMarkdown emptyMarkdownWorld
           (Earlier.removeUnwantedElements emptyMarkdownWorld longText
              Earlier.defaultPageOptions) None
    /\ (content d <> "" ->
        markdown d = Some (content d)
        /\ html d = if JS.truthy_bool (Earlier.includeHtml Earlier.defaultPageOptions)
                    then Some longText else None)
    /\ (content d = "" ->
        d = Earlier.failureDocument (JS.trim "https://example.com/")
        /\ html d = Some "")).
Proof.
  split; apply earlier_existing_html_always_used; reflexivity.
Defined.

(** Both cases at work: the text of the crawler becomes the content for a
    URL that does not parse, and an empty Markdown gives the document of
    the [catch]. *)
Example earlier_existing_html_cases :
  content (match Earlier.scrapSingleUrl earlierWorld "not a url"
                   Earlier.defaultPageOptions longText [] with
           | (Ok d, _) => d
           | (Throw _, _) => Earlier.failureDocument ""
           end) = longText
  /\ Earlier.scrapSingleUrl emptyMarkdownWorld "https://example.com/"
       (Earlier.mkPageOptions (Some true) (Some false) (Some true) (Some 0%Z)
          (Some false) None None) longText []
     = (Ok (Earlier.failureDocument "https://example.com/"), []).
Proof. split; reflexivity. Qed.

Lemma earlier_text_needs_accepted_status_witness :
  exists response,
    Earlier.axiosGet earlierWorld [] "https://example.com/" = Ok response
    /\ Earlier.status response = 200%Z.
Proof.
  destruct (earlier_text_needs_accepted_status earlierWorld
              "https://example.com/" []) as [H _].
  apply (H "<h1>Welcome</h1>" [EvFetch "https://example.com/"]).
  - reflexivity.
  - discriminate.
Defined.

Lemma earlier_fetch_throws_only_for_pdf_witness :
  exists response,
    Earlier.axiosGet pdfWorld [] "https://example.com/paper.pdf" = Ok response
    /\ Earlier.status response = 200%Z
    /\ isPdf (Earlier.contentType response) = true
    /\ Earlier.fetchAndProcessPdf pdfWorld
         ([] ++ [EvFetch "https://example.com/paper.pdf"])
         "https://example.com/paper.pdf" = Throw socketHangUp
    /\ [EvFetch "https://example.com/paper.pdf";
        EvPdf "https://example.com/paper.pdf"]
       = ([] ++ [EvFetch "https://example.com/paper.pdf"])
           ++ [EvPdf "https://example.com/paper.pdf"].
Proof.
  apply (earlier_fetch_throws_only_for_pdf pdfWorld
           "https://example.com/paper.pdf" []).
  reflexivity.
Defined.
